(** * Data Governance & Contract Monitoring Platform: contract store,
      schema-change detector, governance aggregator and trust-score engine.

    A shallow embedding of the engines of [src/main.py]
    ([DataContractEngine], [GovernanceEngine], [TrustScoreEngine]) and
    the properties the specification states about them.

    Conventions of the embedding.
    - Python [int] is [Z]; Python [float] is [Q] (exact rationals: every
      score is a sum of small integers and of one quotient of two list
      lengths, so the arithmetic below is the arithmetic of the source
      without rounding). The one float expression whose rounding can be
      observed, the mean [sum(scores) / len(scores)] of the summary, is
      not computed in [Q]: the summary is parametric in it.
    - [Dict[str, DataContract]] (the contract store) is a [gmap string
      DataContract]; dictionaries whose iteration order is observable
      (the [schema_definition] of a contract, the [current_columns] built
      by the detector) are association lists in insertion order.
    - [datetime.now()] is the next reading of a wall clock: an oracle
      [wall_clock : nat -> datetime] together with the number of readings
      made so far, threaded by the [Clock] monad.
    - [datetime.fromtimestamp] depends on the host (its time zone rules
      and the range its platform converts): the scorer is parametric in
      a [Host], which gives the clock readings and this conversion.
    - Strings are Rocq strings; [len], [in], [split], [lower] and [str] of
      the source are the functions of the first section. *)

From Stdlib Require Import QArith ZArith String Ascii List Lia Lqa DecimalString.
From stdpp Require Import gmap strings list fin_maps.

Import ListNotations.
Local Open Scope Z_scope.

(** ** Python primitives used by the engines *)

Module Py.

(** [sub in s] on strings. *)
Fixpoint contains (sub s : string) : bool :=
  if String.prefix sub s then true
  else match s with
       | EmptyString => false
       | String _ s' => contains sub s'
       end.

(** [s.split(sep)] for a non-empty separator: scan from the left, cut at
    every occurrence, resume after it. [skip] counts the characters of a
    matched separator still to pass over; [acc] is the piece being built. *)
Fixpoint split_go (sep : string) (skip : nat) (acc : string) (s : string)
  : list string :=
  match skip with
  | S k =>
      match s with
      | EmptyString => [acc]
      | String _ s' => split_go sep k acc s'
      end
  | O =>
      match s with
      | EmptyString => [acc]
      | String c s' =>
          if String.prefix sep s
          then acc :: split_go sep (String.length sep - 1) "" s'
          else split_go sep O (acc +:+ String c "") s'
      end
  end.

Definition split (sep s : string) : list string := split_go sep O "" s.

(** [l[-1]] and [l[0]] for a list of strings known to be non-empty. *)
Definition last_item (l : list string) : string := List.last l "".
Definition first_item (l : list string) : string := List.hd "" l.

(** [s.lower()] on the ASCII letters. *)
Definition lower_ascii (c : ascii) : ascii :=
  let n := nat_of_ascii c in
  if ((65 <=? n)%nat && (n <=? 90)%nat)%bool then ascii_of_nat (n + 32) else c.

Fixpoint lower (s : string) : string :=
  match s with
  | EmptyString => EmptyString
  | String c s' => String (lower_ascii c) (lower s')
  end.

(** [len(s)] and [len(l)]. *)
Definition len_str (s : string) : Z := Z.of_nat (String.length s).
Definition len {A} (l : list A) : Z := Z.of_nat (List.length l).

(** [str(n)] for an integer, as f-strings print it. *)
Definition str_int (z : Z) : string := NilEmpty.string_of_int (Z.to_int z).

(** [repr(s)] of a string free of quotes, backslashes and control
    characters, which is what tag names and values are. *)
Definition repr_str (s : string) : string := "'" +:+ s +:+ "'".

Fixpoint join (sep : string) (l : list string) : string :=
  match l with
  | [] => ""
  | [x] => x
  | x :: rest => x +:+ sep +:+ join sep rest
  end.

(** [str(d)] of a dictionary of strings and [str(l)] of a list of them. *)
Definition str_dict (d : list (string * string)) : string :=
  "{" +:+ join ", " (map (fun kv => repr_str (fst kv) +:+ ": " +:+ repr_str (snd kv)) d) +:+ "}".

Definition str_list_of_dicts (l : list (list (string * string))) : string :=
  "[" +:+ join ", " (map str_dict l) +:+ "]".

(** Truth value of a string and of a list. *)
Definition truthy_str (s : string) : bool :=
  match s with EmptyString => false | _ => true end.

Definition truthy_list {A} (l : list A) : bool :=
  match l with [] => false | _ => true end.

(** [min(a, b)]: the first argument unless the second is strictly smaller. *)
Definition min (a b : Q) : Q := if Qle_bool a b then a else b.

(** [sum(gen)] over integers. *)
Definition sum (l : list Z) : Z := fold_left Z.add l 0.

(** Values a JSON field read with [dict.get] can hold where the source
    does arithmetic on it: absent or null, an integer, a string. *)
Inductive value : Type :=
| None_ : value
| Int (z : Z) : value
| Str (s : string) : value.

Definition truthy (v : value) : bool :=
  match v with
  | None_ => false
  | Int z => negb (z =? 0)
  | Str s => truthy_str s
  end.

(** Ordered dictionaries ([dict] keeps insertion order; assigning to a
    key that is present replaces its value in place). *)
Section Dict.
Context {V : Type}.

(** [d.get(k)] *)
Fixpoint dict_get (k : string) (d : list (string * V)) : option V :=
  match d with
  | [] => None
  | (k', v) :: rest => if String.eqb k k' then Some v else dict_get k rest
  end.

(** [k in d] *)
Definition dict_mem (k : string) (d : list (string * V)) : bool :=
  match dict_get k d with Some _ => true | None => false end.

(** [d[k] = v] *)
Fixpoint dict_set (k : string) (v : V) (d : list (string * V))
  : list (string * V) :=
  match d with
  | [] => [(k, v)]
  | (k', v') :: rest =>
      if String.eqb k k' then (k', v) :: rest
      else (k', v') :: dict_set k v rest
  end.

(** [{key(x): val(x) for x in items}] *)
Definition dict_of_items (items : list (string * V)) : list (string * V) :=
  fold_left (fun d kv => dict_set (fst kv) (snd kv) d) items [].

Definition dict_keys (d : list (string * V)) : list string := map fst d.

End Dict.

(** [max(l)] and [min(l)] of a non-empty list given as head and tail: the
    first of the largest (smallest) items. *)
Definition max_float (x : Q) (rest : list Q) : Q :=
  fold_left (fun m y => if Qle_bool y m then m else y) rest x.

Definition min_float (x : Q) (rest : list Q) : Q :=
  fold_left (fun m y => if Qle_bool m y then m else y) rest x.

(** [sorted(l)]: ascending and stable. *)
Fixpoint insert_sorted (x : Q) (l : list Q) : list Q :=
  match l with
  | [] => [x]
  | y :: rest => if Qle_bool x y then x :: y :: rest else y :: insert_sorted x rest
  end.

Fixpoint sorted (l : list Q) : list Q :=
  match l with
  | [] => []
  | x :: rest => insert_sorted x (sorted rest)
  end.

(** [d[k] += 1] on a [defaultdict(int)] and [d[k].append(x)] on a
    [defaultdict(list)]. *)
Definition dict_incr (k : string) (d : list (string * Z)) : list (string * Z) :=
  match dict_get k d with
  | Some c => dict_set k (c + 1) d
  | None => dict_set k (0 + 1) d
  end.

Definition dict_append {A} (k : string) (x : A) (d : list (string * list A))
  : list (string * list A) :=
  match dict_get k d with
  | Some l => dict_set k (l ++ [x]) d
  | None => dict_set k ([] ++ [x]) d
  end.

End Py.

(** ** Data model *)

(** A naive [datetime] (no time zone attached, as [datetime.now()] and
    [datetime.fromtimestamp] return it): the microseconds, the resolution
    of Python's [datetime], counted from 1970-01-01T00:00:00 of the same
    calendar. The difference of two of them is the [timedelta] of their
    subtraction. *)
Definition datetime := Z.

(** A tag is a dictionary of strings; the engines read its ["tagFQN"]. *)
Definition Tag := list (string * string).

(** [tag.get("tagFQN", "")] *)
Definition tagFQN (t : Tag) : string :=
  match Py.dict_get "tagFQN" t with Some s => s | None => "" end.

(** A column of a table record. [dataType] may be unset; a missing
    ["description"] or ["tags"] reads as [""] and [[]] at every use. *)
Record Column := {
  col_name : string;
  col_dataType : option string;
  col_constraint : string;
  col_description : string;
  col_tags : list Tag
}.

(** A table record of the catalog. [owner_name] is
    [table.get("owner", {}).get("name")]; [updatedAt] is
    [table.get("updatedAt")]; [columns], [tags] and [description] read as
    empty when the key is missing, which every use in the source does. *)
Record Table := {
  fullyQualifiedName : option string;
  name : option string;
  columns : list Column;
  owner_name : option string;
  tags : list Tag;
  description : string;
  updatedAt : Py.value;
  rowCount : option Z
}.

(** [table.get("fullyQualifiedName", "")] *)
Definition fqn_of (t : Table) : string :=
  match fullyQualifiedName t with Some s => s | None => "" end.

(** Truth value of [table.get("owner", {}).get("name")]. *)
Definition has_owner (t : Table) : bool :=
  match owner_name t with Some s => Py.truthy_str s | None => false end.

(** One entry of a contract's [schema_definition], as [create_contract]
    builds it. *)
Record SchemaEntry := {
  se_dataType : string;
  se_nullable : bool;
  se_description : string;
  se_isPII : bool
}.

Record LogEntry := {
  log_timestamp : datetime;
  log_action : string;
  log_user : string;
  log_details : string;
  log_notes : option string
}.

Record Approval := {
  appr_timestamp : datetime;
  appr_approver : string;
  appr_notes : string
}.

Record DataContract := {
  id : string;
  table_fqn : string;
  table_name : string;
  database : string;
  version : string;
  status : string;
  owner : string;
  created_date : datetime;
  last_modified : datetime;
  schema_definition : list (string * SchemaEntry);
  quality_rules : list (list (string * string));
  sla_requirements : list (string * Z);
  classification : string;
  contract_tags : list Tag;
  contract_description : string;
  business_purpose : string;
  registered_consumers : list string;
  downstream_tables : list string;
  retention_days : option Z;
  contains_pii : bool;
  compliance_requirements : list string;
  change_log : list LogEntry;
  approval_history : list Approval
}.

Record GovernanceMetrics := {
  total_assets : Z;
  owned_assets : Z;
  documented_assets : Z;
  classified_assets : Z;
  contracted_assets : Z;
  compliant_assets : Z
}.

Record SchemaChange := {
  sc_table_fqn : string;
  change_type : string;
  column_name : string;
  old_value : option string;
  new_value : option string;
  detected_at : datetime;
  severity : string;
  impact_level : string;
  requires_approval : bool
}.

Record DataTrustScore := {
  ts_fqn : string;
  ts_table_name : string;
  ts_database : string;
  data_quality_score : Q;
  contract_availability_score : Q;
  freshness_score : Q;
  documentation_score : Q;
  lineage_usage_score : Q;
  security_compliance_score : Q;
  composite_trust_score : Q;
  trust_level : string;
  ts_owner : option string;
  ts_classification : option string;
  last_assessed : datetime;
  improvement_areas : list string;
  ts_strengths : list string
}.

(** The dictionary returned by [get_trust_score_summary] for a non-empty
    batch. *)
Record TrustScoreSummary := {
  avg_score : Q;
  max_score : Q;
  min_score : Q;
  median_score : Q;
  summary_total_assets : Z;
  level_distribution : list (string * Z);
  database_averages : list (string * Q);
  high_trust_assets : Z;
  needs_attention_assets : Z
}.

(** Field updates of a contract (attribute assignment on the object held
    by the store). *)
Definition with_status (s : string) (c : DataContract) : DataContract :=
  {| id := id c; table_fqn := table_fqn c; table_name := table_name c;
     database := database c; version := version c; status := s;
     owner := owner c; created_date := created_date c;
     last_modified := last_modified c;
     schema_definition := schema_definition c;
     quality_rules := quality_rules c;
     sla_requirements := sla_requirements c;
     classification := classification c; contract_tags := contract_tags c;
     contract_description := contract_description c;
     business_purpose := business_purpose c;
     registered_consumers := registered_consumers c;
     downstream_tables := downstream_tables c;
     retention_days := retention_days c; contains_pii := contains_pii c;
     compliance_requirements := compliance_requirements c;
     change_log := change_log c; approval_history := approval_history c |}.

Definition with_last_modified (t : datetime) (c : DataContract) : DataContract :=
  {| id := id c; table_fqn := table_fqn c; table_name := table_name c;
     database := database c; version := version c; status := status c;
     owner := owner c; created_date := created_date c;
     last_modified := t;
     schema_definition := schema_definition c;
     quality_rules := quality_rules c;
     sla_requirements := sla_requirements c;
     classification := classification c; contract_tags := contract_tags c;
     contract_description := contract_description c;
     business_purpose := business_purpose c;
     registered_consumers := registered_consumers c;
     downstream_tables := downstream_tables c;
     retention_days := retention_days c; contains_pii := contains_pii c;
     compliance_requirements := compliance_requirements c;
     change_log := change_log c; approval_history := approval_history c |}.

Definition with_change_log (l : list LogEntry) (c : DataContract) : DataContract :=
  {| id := id c; table_fqn := table_fqn c; table_name := table_name c;
     database := database c; version := version c; status := status c;
     owner := owner c; created_date := created_date c;
     last_modified := last_modified c;
     schema_definition := schema_definition c;
     quality_rules := quality_rules c;
     sla_requirements := sla_requirements c;
     classification := classification c; contract_tags := contract_tags c;
     contract_description := contract_description c;
     business_purpose := business_purpose c;
     registered_consumers := registered_consumers c;
     downstream_tables := downstream_tables c;
     retention_days := retention_days c; contains_pii := contains_pii c;
     compliance_requirements := compliance_requirements c;
     change_log := l; approval_history := approval_history c |}.

Definition with_approval_history (l : list Approval) (c : DataContract) : DataContract :=
  {| id := id c; table_fqn := table_fqn c; table_name := table_name c;
     database := database c; version := version c; status := status c;
     owner := owner c; created_date := created_date c;
     last_modified := last_modified c;
     schema_definition := schema_definition c;
     quality_rules := quality_rules c;
     sla_requirements := sla_requirements c;
     classification := classification c; contract_tags := contract_tags c;
     contract_description := contract_description c;
     business_purpose := business_purpose c;
     registered_consumers := registered_consumers c;
     downstream_tables := downstream_tables c;
     retention_days := retention_days c; contains_pii := contains_pii c;
     compliance_requirements := compliance_requirements c;
     change_log := change_log c; approval_history := l |}.

Definition with_registered_consumers (l : list string) (c : DataContract) : DataContract :=
  {| id := id c; table_fqn := table_fqn c; table_name := table_name c;
     database := database c; version := version c; status := status c;
     owner := owner c; created_date := created_date c;
     last_modified := last_modified c;
     schema_definition := schema_definition c;
     quality_rules := quality_rules c;
     sla_requirements := sla_requirements c;
     classification := classification c; contract_tags := contract_tags c;
     contract_description := contract_description c;
     business_purpose := business_purpose c;
     registered_consumers := l;
     downstream_tables := downstream_tables c;
     retention_days := retention_days c; contains_pii := contains_pii c;
     compliance_requirements := compliance_requirements c;
     change_log := change_log c; approval_history := approval_history c |}.

(** ["PII" in str(tags)]: the substring test on the printed tag list that
    the source uses for PII detection. *)
Definition mentions_pii (tags : list Tag) : bool :=
  Py.contains "PII" (Py.str_list_of_dicts tags).

(** [col.get("dataType", "UNKNOWN")] *)
Definition dataType_or_unknown (c : Column) : string :=
  match col_dataType c with Some s => s | None => "UNKNOWN" end.

(** ** The wall clock *)

(** A computation that may read the clock: it receives the number of
    readings made so far and returns it updated. *)
Definition Clock (A : Type) : Type := nat -> A * nat.

Definition ret {A} (a : A) : Clock A := fun n => (a, n).

Definition bind {A B} (m : Clock A) (k : A -> Clock B) : Clock B :=
  fun n => let (a, n') := m n in k a n'.

Notation "'let*' x := c 'in' k" := (bind c (fun x => k))
  (at level 10, x name, c at level 200, k at level 200, only parsing).

(** A [for] loop whose body appends to one list. *)
Fixpoint for_append {A B} (body : A -> Clock (list B)) (l : list A)
  : Clock (list B) :=
  match l with
  | [] => ret []
  | x :: rest =>
      let* ys := body x in
      let* zs := for_append body rest in
      ret (ys ++ zs)
  end.

(** A list comprehension whose element expression may read the clock. *)
Fixpoint for_each {A B} (body : A -> Clock B) (l : list A) : Clock (list B) :=
  match l with
  | [] => ret []
  | x :: rest =>
      let* y := body x in
      let* ys := for_each body rest in
      ret (y :: ys)
  end.

(** ** The host *)

(** What the trust-score engine takes from the host it runs on:
    - [readings]: the successive values of [datetime.now()], naive
      datetimes of the host's local time;
    - [fromtimestamp ms]: the value of
      [datetime.fromtimestamp(ms / 1000)] for the integer [ms], a naive
      datetime of the host's local time, or [None] where evaluating the
      expression raises ([OverflowError], [OSError] or [ValueError], for
      a value outside the range the platform and [datetime] convert).
    The source fixes neither the offset of local time from UTC and its
    changes (daylight saving), nor the range of the conversion, nor the
    rounding of [ms / 1000] to microseconds: the engine is parametric in
    them. A host stands for its clock wherever only the clock is read. *)
Record Host : Type :=
  { readings :> nat -> datetime;
    fromtimestamp : Z -> option datetime }.

(** ** DataContractEngine *)

Section DataContractEngine.

Variable wall_clock : nat -> datetime.

(** [datetime.now()] *)
Definition now : Clock datetime := fun n => (wall_clock n, S n).

(** [hashlib.md5(s.encode()).hexdigest()] *)
Variable md5_hexdigest : string -> string.

Definition schema_entry_of (col : Column) : SchemaEntry :=
  {| se_dataType := dataType_or_unknown col;
     se_nullable := negb (String.eqb (col_constraint col) "NOT NULL");
     se_description := col_description col;
     se_isPII := mentions_pii (col_tags col) |}.

Definition create_contract (self : gmap string DataContract) (table : Table)
    (owner classification description business_purpose : string)
    (quality_rules : option (list (list (string * string))))
    (sla_hours : Z) (contains_pii : bool)
  : Clock (DataContract * gmap string DataContract) :=
  let fqn := fqn_of table in
  let columns := columns table in
  let schema_def :=
    Py.dict_of_items (map (fun col => (col_name col, schema_entry_of col)) columns) in
  let contract_id := String.substring 0 12 (md5_hexdigest fqn) in
  let* created := now in
  let* modified := now in
  let* logged := now in
  let contract :=
    {| id := contract_id; table_fqn := fqn;
       table_name := match name table with Some s => s | None => "" end;
       database := Py.first_item (Py.split "." fqn);
       version := "1.0.0"; status := "draft"; owner := owner;
       created_date := created; last_modified := modified;
       schema_definition := schema_def;
       quality_rules := match quality_rules with Some l => l | None => [] end;
       sla_requirements := [("freshness_hours", sla_hours)];
       classification := classification; contract_tags := tags table;
       contract_description := description;
       business_purpose := business_purpose;
       registered_consumers := []; downstream_tables := [];
       retention_days := None; contains_pii := contains_pii;
       compliance_requirements := [];
       change_log := [ {| log_timestamp := logged; log_action := "created";
                          log_user := owner; log_details := "Contract created";
                          log_notes := None |} ];
       approval_history := [] |} in
  ret (contract, <[fqn := contract]> self).

Definition update_contract_status (self : gmap string DataContract)
    (fqn new_status user notes : string)
  : Clock (bool * gmap string DataContract) :=
  match self !! fqn with
  | None => ret (false, self)
  | Some contract =>
      let old_status := status contract in
      let contract := with_status new_status contract in
      let* modified := now in
      let contract := with_last_modified modified contract in
      let* logged := now in
      let contract :=
        with_change_log
          (change_log contract ++
             [ {| log_timestamp := logged; log_action := "status_change";
                  log_user := user;
                  log_details := old_status +:+ " → " +:+ new_status;
                  log_notes := Some notes |} ])
          contract in
      if String.eqb new_status "active" then
        let* approved := now in
        let contract :=
          with_approval_history
            (approval_history contract ++
               [ {| appr_timestamp := approved; appr_approver := user;
                    appr_notes := notes |} ])
            contract in
        ret (true, <[fqn := contract]> self)
      else ret (true, <[fqn := contract]> self)
  end.

Definition removed_change (fqn col_name : string) (entry : SchemaEntry)
    (t : datetime) : SchemaChange :=
  {| sc_table_fqn := fqn; change_type := "removed"; column_name := col_name;
     old_value := Some (se_dataType entry); new_value := None;
     detected_at := t; severity := "breaking"; impact_level := "high";
     requires_approval := true |}.

Definition added_change (fqn col_name : string) (col : Column)
    (t : datetime) : SchemaChange :=
  {| sc_table_fqn := fqn; change_type := "added"; column_name := col_name;
     old_value := None; new_value := Some (dataType_or_unknown col);
     detected_at := t; severity := "non-breaking"; impact_level := "low";
     requires_approval := false |}.

Definition type_change (fqn col_name old_type new_type : string)
    (t : datetime) : SchemaChange :=
  {| sc_table_fqn := fqn; change_type := "type_changed";
     column_name := col_name;
     old_value := Some old_type; new_value := Some new_type;
     detected_at := t; severity := "breaking"; impact_level := "high";
     requires_approval := true |}.

(** The bodies of the three loops of the detector, on one item of the
    dictionary iterated (iterating a dictionary and indexing it with the
    key is iterating its items). *)
Definition emit_removed (fqn : string) (current_columns : list (string * Column))
    (kv : string * SchemaEntry) : Clock (list SchemaChange) :=
  if negb (Py.dict_mem (fst kv) current_columns)
  then let* t := now in ret [removed_change fqn (fst kv) (snd kv) t]
  else ret [].

Definition emit_added (fqn : string)
    (contract_columns : list (string * SchemaEntry))
    (kv : string * Column) : Clock (list SchemaChange) :=
  if negb (Py.dict_mem (fst kv) contract_columns)
  then let* t := now in ret [added_change fqn (fst kv) (snd kv) t]
  else ret [].

Definition emit_type_changed (fqn : string)
    (current_columns : list (string * Column))
    (kv : string * SchemaEntry) : Clock (list SchemaChange) :=
  match Py.dict_get (fst kv) current_columns with
  | Some col =>
      let old_type := se_dataType (snd kv) in
      let new_type := dataType_or_unknown col in
      if negb (String.eqb old_type new_type)
      then let* t := now in ret [type_change fqn (fst kv) old_type new_type t]
      else ret []
  | None => ret []
  end.

Definition detect_schema_changes (self : gmap string DataContract)
    (fqn : string) (current_table : Table) : Clock (list SchemaChange) :=
  match self !! fqn with
  | None => ret []
  | Some contract =>
      let current_columns :=
        Py.dict_of_items (map (fun col => (col_name col, col)) (columns current_table)) in
      let contract_columns := schema_definition contract in
      let* removed :=
        for_append (emit_removed fqn current_columns) contract_columns in
      let* added :=
        for_append (emit_added fqn contract_columns) current_columns in
      let* changed :=
        for_append (emit_type_changed fqn current_columns) contract_columns in
      ret (removed ++ added ++ changed)
  end.

Definition register_consumer (self : gmap string DataContract)
    (fqn consumer_name consumer_contact : string)
  : Clock (bool * gmap string DataContract) :=
  match self !! fqn with
  | None => ret (false, self)
  | Some contract =>
      let consumer_info := consumer_name +:+ " (" +:+ consumer_contact +:+ ")" in
      if negb (existsb (String.eqb consumer_info) (registered_consumers contract))
      then
        let contract :=
          with_registered_consumers
            (registered_consumers contract ++ [consumer_info]) contract in
        let* logged := now in
        let contract :=
          with_change_log
            (change_log contract ++
               [ {| log_timestamp := logged;
                    log_action := "consumer_registered";
                    log_user := consumer_contact;
                    log_details := "Consumer registered: " +:+ consumer_name;
                    log_notes := None |} ])
            contract in
        ret (true, <[fqn := contract]> self)
      else ret (true, self)
  end.

End DataContractEngine.

(** ** GovernanceMetrics properties *)

Local Open Scope Q_scope.

(** [count / total * 100 if total > 0 else 0] *)
Definition coverage (count total : Z) : Q :=
  if (0 <? total)%Z then inject_Z count / inject_Z total * 100 else 0.

Definition ownership_coverage (m : GovernanceMetrics) : Q :=
  coverage (owned_assets m) (total_assets m).

Definition documentation_coverage (m : GovernanceMetrics) : Q :=
  coverage (documented_assets m) (total_assets m).

Definition classification_coverage (m : GovernanceMetrics) : Q :=
  coverage (classified_assets m) (total_assets m).

Definition contract_coverage (m : GovernanceMetrics) : Q :=
  coverage (contracted_assets m) (total_assets m).

Definition compliance_rate (m : GovernanceMetrics) : Q :=
  coverage (compliant_assets m) (total_assets m).

Local Close Scope Q_scope.

(** ** GovernanceEngine *)

(** The generator [1 for t in tables if p(t)]. *)
Definition ones_for {A} (p : A -> bool) (l : list A) : list Z :=
  flat_map (fun t => if p t then [1] else []) l.

(** The condition of the [compliant] count: the table's
    [fullyQualifiedName] (read without a default) is a key of the store,
    that contract is active and its classification is non-empty. *)
Definition is_compliant (contracts : gmap string DataContract) (t : Table) : bool :=
  match fullyQualifiedName t with
  | None => false
  | Some fqn =>
      match contracts !! fqn with
      | None => false
      | Some c => String.eqb (status c) "active" && Py.truthy_str (classification c)
      end
  end.

Definition calculate_governance_metrics (tables : list Table)
    (contracts : gmap string DataContract) : GovernanceMetrics :=
  let total := Py.len tables in
  let owned := Py.sum (ones_for has_owner tables) in
  let documented :=
    Py.sum (ones_for (fun t => Py.truthy_str (description t)) tables) in
  let classified :=
    Py.sum (ones_for (fun t => Py.truthy_list (tags t)) tables) in
  let contracted := Z.of_nat (size contracts) in
  let compliant := Py.sum (ones_for (is_compliant contracts) tables) in
  {| total_assets := total; owned_assets := owned;
     documented_assets := documented; classified_assets := classified;
     contracted_assets := contracted; compliant_assets := compliant |}.

(** The dictionary of gap lists; its five keys are fixed. *)
Record Gaps := {
  no_owner : list string;
  no_description : list string;
  no_classification : list string;
  no_contract : list string;
  contains_pii_unclassified : list string
}.

(** [fqn not in contracts] *)
Definition not_in (contracts : gmap string DataContract) (fqn : string) : bool :=
  match contracts !! fqn with Some _ => false | None => true end.

(** One iteration of the loop over the tables. *)
Definition gaps_step (contracts : gmap string DataContract) (gaps : Gaps)
    (table : Table) : Gaps :=
  let fqn := fqn_of table in
  let gaps_no_owner :=
    if negb (has_owner table) then no_owner gaps ++ [fqn] else no_owner gaps in
  let gaps_no_description :=
    if negb (Py.truthy_str (description table))
    then no_description gaps ++ [fqn] else no_description gaps in
  let gaps_no_classification :=
    if negb (Py.truthy_list (tags table))
    then no_classification gaps ++ [fqn] else no_classification gaps in
  let gaps_no_contract :=
    if not_in contracts fqn then no_contract gaps ++ [fqn] else no_contract gaps in
  let tags := Py.str_list_of_dicts (tags table) in
  let gaps_pii :=
    if Py.contains "PII" tags && not_in contracts fqn
    then contains_pii_unclassified gaps ++ [fqn]
    else contains_pii_unclassified gaps in
  {| no_owner := gaps_no_owner; no_description := gaps_no_description;
     no_classification := gaps_no_classification;
     no_contract := gaps_no_contract;
     contains_pii_unclassified := gaps_pii |}.

Definition identify_governance_gaps (tables : list Table)
    (contracts : gmap string DataContract) : Gaps :=
  fold_left (gaps_step contracts) tables
    {| no_owner := []; no_description := []; no_classification := [];
       no_contract := []; contains_pii_unclassified := [] |}.

(** ** TrustScoreEngine *)

Module TrustScoreEngine.

Local Open Scope Q_scope.

Definition WEIGHTS : list (string * Q) :=
  [ ("data_quality", 25 # 100);
    ("contract_availability", 20 # 100);
    ("freshness", 15 # 100);
    ("documentation", 15 # 100);
    ("lineage_usage", 15 # 100);
    ("security_compliance", 10 # 100) ].

(** [WEIGHTS[k]] for the six keys above. *)
Definition weight (k : string) : Q :=
  match Py.dict_get k WEIGHTS with Some w => w | None => 0 end.

Definition TRUST_LEVELS : list ((Z * Z) * string) :=
  [ ((90, 100)%Z, "Platinum");
    ((75, 90)%Z, "Gold");
    ((60, 75)%Z, "Silver");
    ((40, 60)%Z, "Bronze");
    ((0, 40)%Z, "Needs Attention") ].

(** The running [score], [improvements] and [strengths] of a scorer. *)
Record Tally := {
  score : Q;
  improvements : list string;
  strengths : list string
}.

Definition start : Tally :=
  {| score := 0; improvements := []; strengths := [] |}.

(** [score += q] *)
Definition add (q : Q) (t : Tally) : Tally :=
  {| score := score t + q; improvements := improvements t;
     strengths := strengths t |}.

(** [score = q] *)
Definition set_score (q : Q) (t : Tally) : Tally :=
  {| score := q; improvements := improvements t; strengths := strengths t |}.

(** [improvements.append(s)] *)
Definition improve (s : string) (t : Tally) : Tally :=
  {| score := score t; improvements := improvements t ++ [s];
     strengths := strengths t |}.

(** [strengths.append(s)] *)
Definition strong (s : string) (t : Tally) : Tally :=
  {| score := score t; improvements := improvements t;
     strengths := strengths t ++ [s] |}.

(** [return min(score, 100.0), improvements, strengths] *)
Definition result (t : Tally) : Q * list string * list string :=
  (Py.min (score t) 100, improvements t, strengths t).

(** [c.get("dataType") not in ["", "UNKNOWN"]]: the key is read without
    a default, so an unset type is [None], which is not in the list. *)
Definition dataType_not_blank (c : Column) : bool :=
  match col_dataType c with
  | None => true
  | Some s => negb (existsb (String.eqb s) [""%string; "UNKNOWN"%string])
  end.

(** [(len(part) / len(whole)) * 30], evaluated by the scorers only where
    [whole] is non-empty. *)
Definition coverage30 {A} (part whole : list A) : Q :=
  inject_Z (Py.len part) / inject_Z (Py.len whole) * 30.

Definition calculate_data_quality_score (table : Table)
    (contracts : gmap string DataContract) : Q * list string * list string :=
  let fqn := fqn_of table in
  let t := start in
  let t := add 20 t in
  let t :=
    match contracts !! fqn with
    | Some contract =>
        if Py.truthy_list (quality_rules contract)
        then strong "Quality rules defined" (add 30 t)
        else improve "Define quality rules" t
    | None => improve "Create data contract with quality rules" t
    end in
  let columns := columns table in
  let t :=
    if Py.truthy_list columns then
      let t := add 20 t in
      let typed_columns := List.filter dataType_not_blank columns in
      if Py.truthy_list typed_columns then
        let type_coverage := coverage30 typed_columns columns in
        let t := add type_coverage t in
        if Qle_bool 25 type_coverage
        then strong ("Strong data type coverage ("
                       +:+ Py.str_int (Py.len typed_columns) +:+ "/"
                       +:+ Py.str_int (Py.len columns) +:+ " columns)") t
        else improve "Improve data type definitions" t
      else t
    else improve "Define table schema" t in
  result t.

Definition status_scores : list (string * Q) :=
  [ ("active", 35); ("review", 25); ("draft", 10); ("deprecated", 5) ].

(** Truth value of an integer read from a dictionary with [get]. *)
Definition truthy_opt_int (o : option Z) : bool :=
  match o with Some z => negb (z =? 0)%Z | None => false end.

Definition calculate_contract_availability_score (table : Table)
    (contracts : gmap string DataContract) : Q * list string * list string :=
  let fqn := fqn_of table in
  let t := start in
  match contracts !! fqn with
  | None => (0, improvements (improve "Create data contract" t), strengths t)
  | Some contract =>
      let t := add 40 t in
      let t := strong "Data contract exists" t in
      let status_score :=
        match Py.dict_get (status contract) status_scores with
        | Some s => s
        | None => 0
        end in
      let t := add status_score t in
      let t :=
        if String.eqb (status contract) "active"
        then strong "Contract is active" t
        else if String.eqb (status contract) "review"
        then improve "Activate contract after review" t
        else if String.eqb (status contract) "draft"
        then improve "Move contract from draft to review/active" t
        else t in
      let t :=
        if Py.truthy_list (sla_requirements contract)
           && truthy_opt_int (Py.dict_get "freshness_hours" (sla_requirements contract))
        then strong "SLA requirements defined" (add 15 t)
        else improve "Define SLA requirements" t in
      let t :=
        if Py.truthy_list (schema_definition contract)
           && (0 <? Py.len (schema_definition contract))%Z
        then add 10 t
        else improve "Complete schema definition in contract" t in
      result t
  end.

(** [datetime.fromtimestamp(updated_at / 1000)]. Dividing a string raises
    [TypeError]; for an integer number of milliseconds the result is the
    host's: the local datetime it converts the timestamp to, or an
    exception. [None] is the raised exception, which the caller's bare
    [except] catches. *)
Definition fromtimestamp_ms (host : Host) (updated_at : Py.value)
  : option datetime :=
  match updated_at with
  | Py.Int ms => fromtimestamp host ms
  | _ => None
  end.

(** [(a - b).total_seconds() / 3600]: the difference of two naive
    datetimes, in hours. The subtraction is exact (a [timedelta] counts
    microseconds); the two float divisions round, but a difference that
    exceeds a threshold of the ladder below does so by a microsecond at
    least, which is far above the rounding at that magnitude, so the
    comparisons of the ladder are those of the exact quotient. *)
Definition hours_between (a b : datetime) : Q :=
  inject_Z (a - b) / 3600000000.

(** The threshold ladder on [hours_since_update]. *)
Definition freshness_ladder (hours_since_update : Q) (t : Tally) : Tally :=
  if Qle_bool hours_since_update 1
  then strong "Data updated within last hour (real-time fresh)" (set_score 100 t)
  else if Qle_bool hours_since_update 6
  then strong "Data updated within last 6 hours" (set_score 95 t)
  else if Qle_bool hours_since_update 24
  then strong "Data updated within last 24 hours" (set_score 85 t)
  else if Qle_bool hours_since_update 48
  then set_score 70 t
  else if Qle_bool hours_since_update 168
  then improve "Data not updated in several days" (set_score 50 t)
  else improve "Data is stale (not updated in over a week)" (set_score 20 t).

Section Scoring.

(** The host: [wall_clock] read as a function is its clock. *)
Variable wall_clock : Host.

(** Both datetimes of the subtraction are naive local datetimes of the
    host: [hours_since_update] is the difference of their wall-clock
    values, which is the time elapsed when the host's offset from UTC is
    the same at the update and now. *)
Definition calculate_freshness_score (table : Table)
  : Clock (Q * list string * list string) :=
  let t := start in
  let updated_at := updatedAt table in
  if negb (Py.truthy updated_at) then
    ret (0, improvements (improve "Enable update timestamp tracking" t), strengths t)
  else
    match fromtimestamp_ms wall_clock updated_at with
    | Some last_update =>
        let* current := now wall_clock in
        let hours_since_update := hours_between current last_update in
        ret (result (freshness_ladder hours_since_update t))
    | None =>
        ret (0, improvements (improve "Invalid update timestamp" t), strengths t)
    end.

(** The column share is computed only under [if columns], so its
    division is by a positive length. *)
Definition calculate_documentation_score (table : Table)
    (contracts : gmap string DataContract) : Q * list string * list string :=
  let fqn := fqn_of table in
  let t := start in
  let description := description table in
  let t :=
    if Py.truthy_str description && (20 <? Py.len_str description)%Z
    then strong "Table has comprehensive description" (add 30 t)
    else if Py.truthy_str description
    then improve "Expand table description" (add 15 t)
    else improve "Add table description" t in
  let columns := columns table in
  let t :=
    if Py.truthy_list columns then
      let documented_columns :=
        List.filter (fun c => Py.truthy_str (col_description c)) columns in
      let doc_coverage := coverage30 documented_columns columns in
      let t := add doc_coverage t in
      if Qle_bool 25 doc_coverage
      then strong ("Strong column documentation ("
                     +:+ Py.str_int (Py.len documented_columns) +:+ "/"
                     +:+ Py.str_int (Py.len columns) +:+ " columns)") t
      else if Qle_bool 10 doc_coverage
      then improve "Document more columns" t
      else improve "Add column descriptions" t
    else t in
  let tags := tags table in
  let t :=
    if Py.truthy_list tags && (0 <? Py.len tags)%Z
    then strong "Table is tagged" (add 15 t)
    else improve "Add relevant tags" t in
  let t :=
    match contracts !! fqn with
    | Some contract =>
        if Py.truthy_str (business_purpose contract)
           && (10 <? Py.len_str (business_purpose contract))%Z
        then strong "Business purpose documented" (add 15 t)
        else improve "Document business purpose in contract" t
    | None => improve "Create contract to document business purpose" t
    end in
  let t :=
    if has_owner table then add 10 t
    else improve "Assign table owner" t in
  result t.

(** The [mock_gen] argument of the source is never read and is left out. *)
Definition calculate_lineage_usage_score (table : Table)
    (contracts : gmap string DataContract) : Q * list string * list string :=
  let fqn := fqn_of table in
  let t := start in
  let t :=
    match contracts !! fqn with
    | Some contract =>
        let downstream_count := Py.len (downstream_tables contract) in
        let t :=
          if (5 <? downstream_count)%Z
          then strong ("High usage: " +:+ Py.str_int downstream_count
                         +:+ " downstream dependencies") (add 35 t)
          else if (2 <? downstream_count)%Z
          then strong ("Moderate usage: " +:+ Py.str_int downstream_count
                         +:+ " downstream dependencies") (add 25 t)
          else if (0 <? downstream_count)%Z
          then add 15 t
          else improve "No downstream dependencies tracked" t in
        let consumer_count := Py.len (registered_consumers contract) in
        if (3 <=? consumer_count)%Z
        then strong (Py.str_int consumer_count +:+ " registered consumers") (add 35 t)
        else if (1 <=? consumer_count)%Z
        then strong (Py.str_int consumer_count +:+ " registered consumer(s)") (add 20 t)
        else improve "Register data consumers" t
    | None => improve "Create contract to track consumers and lineage" t
    end in
  let row_count := match rowCount table with Some z => z | None => 0%Z end in
  let t :=
    if (100000 <? row_count)%Z
    then strong "Large dataset (high usage indicator)" (add 15 t)
    else if (1000 <? row_count)%Z
    then add 10 t
    else if (0 <? row_count)%Z
    then add 5 t
    else improve "No row count data available" t in
  let t := if Py.truthy (updatedAt table) then add 15 t else t in
  result t.

(** The loop that resolves the classification: the first tag whose
    [tagFQN] contains ["Classification."] decides, with the text after
    its last occurrence, lower-cased. *)
Fixpoint find_classification (tags : list Tag) : option string :=
  match tags with
  | [] => None
  | tag :: rest =>
      let tag_fqn := tagFQN tag in
      if Py.contains "Classification." tag_fqn
      then Some (Py.lower (Py.last_item (Py.split "Classification." tag_fqn)))
      else find_classification rest
  end.

(** Truth value of the resolved classification. *)
Definition truthy_opt_str (o : option string) : bool :=
  match o with Some s => Py.truthy_str s | None => false end.

Definition calculate_security_compliance_score (table : Table)
    (contracts : gmap string DataContract) : Q * list string * list string :=
  let fqn := fqn_of table in
  let t := start in
  let tags := tags table in
  let classification := find_classification tags in
  let t :=
    if truthy_opt_str classification
    then strong ("Data classified as "
                   +:+ match classification with Some s => s | None => "" end)
                (add 30 t)
    else improve "Assign data classification" t in
  let columns := columns table in
  let has_pii := existsb (fun col => mentions_pii (col_tags col)) columns in
  let t :=
    if has_pii then
      match contracts !! fqn with
      | Some contract =>
          if contains_pii contract then
            let t := strong "PII properly flagged in contract" (add 25 t) in
            if truthy_opt_int (retention_days contract)
            then strong "Retention policy defined" (add 15 t)
            else improve "Define retention policy for PII data" t
          else add 10 (improve "Flag PII in data contract" t)
      | None => improve "Create contract to manage PII" t
      end
    else add 20 t in
  let t :=
    if has_owner table
    then strong "Data steward assigned" (add 20 t)
    else improve "Assign data steward" t in
  let t :=
    match contracts !! fqn with
    | Some contract =>
        if Py.truthy_list (compliance_requirements contract)
           && (0 <? Py.len (compliance_requirements contract))%Z
        then strong "Compliance requirements documented" (add 10 t)
        else improve "Document compliance requirements" t
    | None => t
    end in
  result t.

(** The loop over [TRUST_LEVELS.items()]: the first bin with
    [min_score <= composite < max_score], if any. *)
Fixpoint first_bin (composite : Q) (levels : list ((Z * Z) * string))
  : option string :=
  match levels with
  | [] => None
  | ((min_score, max_score), level) :: rest =>
      if Qle_bool (inject_Z min_score) composite
         && negb (Qle_bool (inject_Z max_score) composite)
      then Some level
      else first_bin composite rest
  end.

(** The tier of a composite: ["Needs Attention"] unless a bin matches. *)
Definition trust_level_of (composite : Q) : string :=
  match first_bin composite TRUST_LEVELS with
  | Some level => level
  | None => "Needs Attention"
  end.

(** The weighted sum of the six component scores. *)
Definition composite_of (quality_score contract_score freshness_score
    doc_score lineage_score security_score : Q) : Q :=
  quality_score * weight "data_quality" +
  contract_score * weight "contract_availability" +
  freshness_score * weight "freshness" +
  doc_score * weight "documentation" +
  lineage_score * weight "lineage_usage" +
  security_score * weight "security_compliance".

Definition calculate_trust_score (table : Table)
    (contracts : gmap string DataContract) : Clock DataTrustScore :=
  let fqn := fqn_of table in
  let '(quality_score, quality_improvements, quality_strengths) :=
    calculate_data_quality_score table contracts in
  let '(contract_score, contract_improvements, contract_strengths) :=
    calculate_contract_availability_score table contracts in
  let* freshness := calculate_freshness_score table in
  let '(freshness_score, freshness_improvements, freshness_strengths) :=
    freshness in
  let '(doc_score, doc_improvements, doc_strengths) :=
    calculate_documentation_score table contracts in
  let '(lineage_score, lineage_improvements, lineage_strengths) :=
    calculate_lineage_usage_score table contracts in
  let '(security_score, security_improvements, security_strengths) :=
    calculate_security_compliance_score table contracts in
  let composite :=
    composite_of quality_score contract_score freshness_score doc_score
      lineage_score security_score in
  let trust_level := trust_level_of composite in
  let all_improvements :=
    quality_improvements ++ contract_improvements ++ freshness_improvements
      ++ doc_improvements ++ lineage_improvements ++ security_improvements in
  let all_strengths :=
    quality_strengths ++ contract_strengths ++ freshness_strengths
      ++ doc_strengths ++ lineage_strengths ++ security_strengths in
  let classification := find_classification (tags table) in
  let* assessed := now wall_clock in
  ret {| ts_fqn := fqn;
         ts_table_name := match name table with Some s => s | None => "" end;
         ts_database :=
           if Py.truthy_str fqn then Py.first_item (Py.split "." fqn)
           else "Unknown";
         data_quality_score := quality_score;
         contract_availability_score := contract_score;
         freshness_score := freshness_score;
         documentation_score := doc_score;
         lineage_usage_score := lineage_score;
         security_compliance_score := security_score;
         composite_trust_score := composite;
         trust_level := trust_level;
         ts_owner := owner_name table;
         ts_classification := classification;
         last_assessed := assessed;
         improvement_areas := firstn 5 all_improvements;
         ts_strengths := firstn 5 all_strengths |}.

Definition calculate_all_trust_scores (tables : list Table)
    (contracts : gmap string DataContract) : Clock (list DataTrustScore) :=
  for_each (fun table => calculate_trust_score table contracts) tables.

End Scoring.

(** [level_distribution[ts.trust_level] += 1] over the batch. *)
Definition count_levels (trust_scores : list DataTrustScore) : list (string * Z) :=
  fold_left (fun d ts => Py.dict_incr (trust_level ts) d) trust_scores [].

(** [db_scores[ts.database].append(ts.composite_trust_score)] over the
    batch. *)
Definition group_by_database (trust_scores : list DataTrustScore)
  : list (string * list Q) :=
  fold_left
    (fun d ts => Py.dict_append (ts_database ts) (composite_trust_score ts) d)
    trust_scores [].

Section Summary.

(** [sum(scores) / len(scores)] on a non-empty list of floats: the float
    the interpreter computes, with the rounding of its summation and of
    its division. The rounded mean need not equal the exact one (nor lie
    between the least and the largest score), so the summary is
    parametric in it. *)
Variable mean : list Q -> Q.

(** [None] is the empty dictionary returned for an empty batch. *)
Definition get_trust_score_summary (trust_scores : list DataTrustScore)
  : option TrustScoreSummary :=
  match map composite_trust_score trust_scores with
  | [] => None
  | first :: rest =>
      let scores := first :: rest in
      let level_distribution := count_levels trust_scores in
      let db_scores := group_by_database trust_scores in
      let db_averages := map (fun kv => (fst kv, mean (snd kv))) db_scores in
      Some
        {| avg_score := mean scores;
           max_score := Py.max_float first rest;
           min_score := Py.min_float first rest;
           median_score :=
             List.nth (Z.to_nat (Py.len scores / 2)) (Py.sorted scores) 0;
           summary_total_assets := Py.len trust_scores;
           level_distribution := level_distribution;
           database_averages := db_averages;
           high_trust_assets :=
             Py.len (List.filter (fun s => Qle_bool 75 s) scores);
           needs_attention_assets :=
             Py.len (List.filter (fun s => negb (Qle_bool 40 s)) scores) |}
  end.

End Summary.

End TrustScoreEngine.

Import TrustScoreEngine.

(** ** Notions of the specification *)

(** The number of elements of a population that satisfy a condition. *)
Definition count_where {A} (p : A -> bool) (l : list A) : Z :=
  Z.of_nat (length (List.filter p l)).

(** A table contains a PII-tagged column: the test the scorer and the
    contract wizard apply to the columns. *)
Definition has_pii_column (t : Table) : bool :=
  existsb (fun col => mentions_pii (col_tags col)) (columns t).

(** A known data type: set, non-empty and not ["UNKNOWN"]. *)
Definition known_dataType (c : Column) : bool :=
  match col_dataType c with
  | Some s => negb (String.eqb s "") && negb (String.eqb s "UNKNOWN")
  | None => false
  end.

(** The rank of a tier, lowest first. *)
Definition tier_rank (level : string) : nat :=
  if String.eqb level "Platinum" then 4
  else if String.eqb level "Gold" then 3
  else if String.eqb level "Silver" then 2
  else if String.eqb level "Bronze" then 1
  else 0.

(** The claim of C7 as the specification words it: a missing timestamp
    ([None]) or an unparseable one scores 0 with an improvement note, and
    every other timestamp is scored by the hours elapsed since it. *)
Definition freshness_as_stated (wall_clock : Host)
    (table : Table) (n : nat) : Prop :=
  let r := fst (calculate_freshness_score wall_clock table n) in
  let s := fst (fst r) in
  let notes := snd (fst r) in
  ((updatedAt table = Py.None_
    \/ fromtimestamp_ms wall_clock (updatedAt table) = None) ->
   (s == 0)%Q /\ notes <> [])
  /\
  (forall last_update,
     updatedAt table <> Py.None_ ->
     fromtimestamp_ms wall_clock (updatedAt table) = Some last_update ->
     let h := hours_between (wall_clock n) last_update in
     ((h <= 1 -> s == 100)
      /\ (1 < h -> h <= 6 -> s == 95)
      /\ (6 < h -> h <= 24 -> s == 85)
      /\ (24 < h -> h <= 48 -> s == 70)
      /\ (48 < h -> h <= 168 -> s == 50)
      /\ (168 < h -> s == 20))%Q).

(** The [+30] for quality rules. *)
Definition rules_bonus (table : Table) (contracts : gmap string DataContract) : Q :=
  match contracts !! fqn_of table with
  | Some contract => if Py.truthy_list (quality_rules contract) then 30%Q else 0%Q
  | None => 0%Q
  end.

(** The outcome of the schema comparison for one column name. *)
Inductive Outcome : Type := Removed | Added | TypeChanged | Unchanged.

(** The data type a schema definition records for a column name. *)
Definition recorded_type (schema : list (string * SchemaEntry)) (col : string)
  : option string :=
  option_map se_dataType (Py.dict_get col schema).

(** The column of that name in a column list; when the name occurs more
    than once, the last occurrence. *)
Fixpoint last_column_named (col : string) (cols : list Column) : option Column :=
  match cols with
  | [] => None
  | c :: rest =>
      match last_column_named col rest with
      | Some c' => Some c'
      | None => if String.eqb col (col_name c) then Some c else None
      end
  end.

(** The current data type of a column name (["UNKNOWN"] if unset). *)
Definition current_type (cols : list Column) (col : string) : option string :=
  option_map dataType_or_unknown (last_column_named col cols).

(** Removed: in the contract only. Added: in the table only. Type
    changed: in both, and the two data types differ as strings. Unchanged
    otherwise. *)
Definition classify (schema : list (string * SchemaEntry)) (cols : list Column)
    (col : string) : Outcome :=
  match recorded_type schema col, current_type cols col with
  | Some _, None => Removed
  | None, Some _ => Added
  | Some old_type, Some new_type =>
      if String.eqb old_type new_type then Unchanged else TypeChanged
  | None, None => Unchanged
  end.

(** The changes of a list that concern one column name. *)
Definition changes_for (col : string) (changes : list SchemaChange)
  : list SchemaChange :=
  List.filter (fun ch => String.eqb (column_name ch) col) changes.

(** A change with these fields, whatever its time of detection. *)
Definition change_is (ch : SchemaChange) (fqn kind col : string)
    (old new : option string) (sev impact : string) (approval : bool) : Prop :=
  sc_table_fqn ch = fqn /\ change_type ch = kind /\ column_name ch = col
  /\ old_value ch = old /\ new_value ch = new
  /\ severity ch = sev /\ impact_level ch = impact
  /\ requires_approval ch = approval.

(** A change with its time of detection erased. *)
Definition untimed (ch : SchemaChange) : SchemaChange :=
  {| sc_table_fqn := sc_table_fqn ch; change_type := change_type ch;
     column_name := column_name ch; old_value := old_value ch;
     new_value := new_value ch; detected_at := 0;
     severity := severity ch; impact_level := impact_level ch;
     requires_approval := requires_approval ch |}.

(** The value a dictionary comprehension keeps for a key: that of the
    last item with the key. *)
Fixpoint last_value {V} (k : string) (items : list (string * V)) : option V :=
  match items with
  | [] => None
  | (k', v) :: rest =>
      match last_value k rest with
      | Some v' => Some v'
      | None => if String.eqb k k' then Some v else None
      end
  end.

(** ** Sample records *)

Module Sample.

Definition pii_tag : Tag := [("tagFQN", "PII")].

Definition order_id : Column :=
  {| col_name := "order_id"; col_dataType := Some "INT";
     col_constraint := "NOT NULL"; col_description := "Order key";
     col_tags := [] |}.

Definition customer_email : Column :=
  {| col_name := "customer_email"; col_dataType := Some "VARCHAR";
     col_constraint := ""; col_description := "Contact address";
     col_tags := [pii_tag] |}.

(** A column whose data type is unset. *)
Definition untyped : Column :=
  {| col_name := "payload"; col_dataType := None; col_constraint := "";
     col_description := ""; col_tags := [] |}.

(** 2001-09-09T01:46:40Z in milliseconds. *)
Definition updated_ms : Z := 1000000000000.

(** A fully governed table: typed and described columns, one of them
    PII-tagged, an owner, a classification tag, a long description, a
    recent update and a large row count. *)
Definition orders : Table :=
  {| fullyQualifiedName := Some "Deliver.raw.orders"; name := Some "orders";
     columns := [order_id; customer_email];
     owner_name := Some "alice.data";
     tags := [[("tagFQN", "Classification.Internal")]];
     description := "Orders of the delivery domain";
     updatedAt := Py.Int updated_ms; rowCount := Some 200000 |}.

(** The same table with a smaller row count. *)
Definition small_orders : Table :=
  {| fullyQualifiedName := Some "Deliver.raw.orders"; name := Some "orders";
     columns := [order_id; customer_email];
     owner_name := Some "alice.data";
     tags := [[("tagFQN", "Classification.Internal")]];
     description := "Orders of the delivery domain";
     updatedAt := Py.Int updated_ms; rowCount := Some 500 |}.

Definition orders_contract : DataContract :=
  {| id := "3f2a9c0d1b7e"; table_fqn := "Deliver.raw.orders";
     table_name := "orders"; database := "Deliver"; version := "1.0.0";
     status := "active"; owner := "alice.data";
     created_date := 0; last_modified := 0;
     schema_definition :=
       [ ("order_id", {| se_dataType := "INT"; se_nullable := false;
                         se_description := "Order key"; se_isPII := false |});
         ("customer_email", {| se_dataType := "VARCHAR"; se_nullable := true;
                               se_description := "Contact address";
                               se_isPII := true |}) ];
     quality_rules := [[("type", "null_check")]];
     sla_requirements := [("freshness_hours", 24)];
     classification := "internal"; contract_tags := [];
     contract_description := "Production contract for orders";
     business_purpose := "Supports Deliver business operations";
     registered_consumers :=
       ["Dashboard Team (dashboard@company.com)";
        "ML Pipeline (ml-team@company.com)";
        "Finance (finance@company.com)"];
     downstream_tables :=
       ["Deliver.staging.a"; "Deliver.staging.b"; "Deliver.staging.c";
        "Deliver.staging.d"; "Deliver.staging.e"; "Deliver.staging.f"];
     retention_days := Some 365; contains_pii := true;
     compliance_requirements := ["GDPR"];
     change_log := []; approval_history := [] |}.

Definition store : gmap string DataContract :=
  <["Deliver.raw.orders" := orders_contract]> ∅.

(** [datetime.fromtimestamp(ms / 1000)] on a host whose local time is
    UTC, for the timestamps of the years 1902 to 2037 (fewer than [2^31]
    seconds from the epoch): there the call succeeds, [ms / 1000] is
    exact to the microsecond, and the local datetime is the instant
    itself. The samples use no timestamp outside these years, for which
    this host declines. *)
Definition utc_fromtimestamp (ms : Z) : option datetime :=
  if Z.abs ms <? 2147483648000 then Some (ms * 1000) else None.

(** A host on UTC whose clock reads one minute after [updated_ms] at
    every reading. *)
Definition minute_later : Host :=
  {| readings := fun _ => updated_ms * 1000 + 60000000;
     fromtimestamp := utc_fromtimestamp |}.

(** A host on UTC whose clock reads 2001-09-09T01:46:40 plus [n]
    microseconds. *)
Definition ticking : Host :=
  {| readings := fun n => updated_ms * 1000 + Z.of_nat n;
     fromtimestamp := utc_fromtimestamp |}.

(** A host of Central Europe in 2001, given by the UTC instants (in
    microseconds) at which its clock is read: its local time is UTC+1
    until 2001-03-25T01:00:00Z and UTC+2 from then on. It converts the
    timestamps from 2001-01-01T00:00:00Z to the end of that summer time,
    2001-10-28T01:00:00Z, and declines the others. *)
Definition cet_local (utc : Z) : datetime :=
  if utc <? 985482000000000 then utc + 3600000000 else utc + 7200000000.

Definition cet_fromtimestamp (ms : Z) : option datetime :=
  if (978307200000 <=? ms) && (ms <? 1004230800000)
  then Some (cet_local (ms * 1000))
  else None.

Definition cet_host (read_at : nat -> Z) : Host :=
  {| readings := fun n => cet_local (read_at n);
     fromtimestamp := cet_fromtimestamp |}.

(** A table whose [updatedAt] is present and equal to the epoch. *)
Definition epoch_table : Table :=
  {| fullyQualifiedName := Some "Plan.raw.calendar"; name := Some "calendar";
     columns := []; owner_name := None; tags := []; description := "";
     updatedAt := Py.Int 0; rowCount := None |}.

(** A table with a PII-tagged column and no PII tag on the table. *)
Definition customers : Table :=
  {| fullyQualifiedName := Some "Deliver.raw.customers";
     name := Some "customers";
     columns := [customer_email]; owner_name := Some "bob.engineering";
     tags := []; description := ""; updatedAt := Py.None_;
     rowCount := None |}.

(** A table tagged PII itself, none of whose columns is. *)
Definition flagged : Table :=
  {| fullyQualifiedName := Some "Deliver.raw.flagged"; name := Some "flagged";
     columns := [order_id]; owner_name := None;
     tags := [pii_tag]; description := ""; updatedAt := Py.None_;
     rowCount := None |}.

(** A table whose only column has no data type. *)
Definition blobs : Table :=
  {| fullyQualifiedName := Some "Make.raw.blobs"; name := Some "blobs";
     columns := [untyped]; owner_name := None; tags := [];
     description := ""; updatedAt := Py.None_; rowCount := None |}.

(** Tables with and without an owner and a description. *)
Definition bare (owned documented : bool) : Table :=
  {| fullyQualifiedName := Some "Quality.raw.t"; name := Some "t";
     columns := [];
     owner_name := if owned then Some "carol.analytics" else None;
     tags := [];
     description := if documented then "Inspection results" else "";
     updatedAt := Py.None_; rowCount := None |}.

(** Ten tables, four with owners and three with descriptions. *)
Definition ten_tables : list Table :=
  [ bare true true; bare true true; bare true false; bare true false;
    bare false true; bare false false; bare false false; bare false false;
    bare false false; bare false false ].

(** The drift scenario: the contract records [order_id : INT] and
    [status : VARCHAR]; the table now has [order_id : INT],
    [status : INT] and [amount : DECIMAL]. *)
Definition plain (col ty : string) : Column :=
  {| col_name := col; col_dataType := Some ty; col_constraint := "";
     col_description := ""; col_tags := [] |}.

Definition recorded (ty : string) : SchemaEntry :=
  {| se_dataType := ty; se_nullable := true; se_description := "";
     se_isPII := false |}.

Definition drifted_orders : Table :=
  {| fullyQualifiedName := Some "Deliver.raw.orders"; name := Some "orders";
     columns := [plain "order_id" "INT"; plain "status" "INT";
                 plain "amount" "DECIMAL"];
     owner_name := None; tags := []; description := "";
     updatedAt := Py.None_; rowCount := None |}.

Definition drift_contract : DataContract :=
  {| id := "3f2a9c0d1b7e"; table_fqn := "Deliver.raw.orders";
     table_name := "orders"; database := "Deliver"; version := "1.0.0";
     status := "draft"; owner := "alice.data";
     created_date := 0; last_modified := 0;
     schema_definition :=
       [("order_id", recorded "INT"); ("status", recorded "VARCHAR")];
     quality_rules := []; sla_requirements := [("freshness_hours", 24)];
     classification := "internal"; contract_tags := [];
     contract_description := ""; business_purpose := "";
     registered_consumers := []; downstream_tables := [];
     retention_days := None; contains_pii := false;
     compliance_requirements := [];
     change_log := []; approval_history := [] |}.

Definition drift_store : gmap string DataContract :=
  <["Deliver.raw.orders" := drift_contract]> ∅.

End Sample.

(** ** Notions used by the further properties *)

(** A contract after a store operation, against the contract before: the
    identity, the creation date and the schema snapshot are the same and
    both logs are the old ones with entries appended. *)
Definition evolves (c c' : DataContract) : Prop :=
  id c' = id c /\ table_fqn c' = table_fqn c
  /\ created_date c' = created_date c
  /\ schema_definition c' = schema_definition c
  /\ (exists entries, change_log c' = change_log c ++ entries)
  /\ (exists entries, approval_history c' = approval_history c ++ entries).

(** A store after an operation, against the store before: the same FQNs
    have contracts, and each contract has evolved. *)
Definition store_evolves (self self' : gmap string DataContract) : Prop :=
  forall fqn,
    match self !! fqn, self' !! fqn with
    | Some c, Some c' => evolves c c'
    | None, None => True
    | _, _ => False
    end.

(** The consumer string [register_consumer] builds. *)
Definition consumer_info (consumer_name consumer_contact : string) : string :=
  consumer_name +:+ " (" +:+ consumer_contact +:+ ")".

(** Ascending order: every item is at most every later item. *)
Fixpoint ascending (l : list Q) : Prop :=
  match l with
  | [] => True
  | x :: rest => (forall y, In y rest -> (x <= y)%Q) /\ ascending rest
  end.

(** The count a distribution holds for a key, 0 when the key is absent. *)
Definition count_at (k : string) (d : list (string * Z)) : Z :=
  match Py.dict_get k d with Some c => c | None => 0%Z end.


(** ** Further sample records *)

Module Scenario.

(** A table last updated 200 hours before [Sample.updated_ms], without
    owner, description, tag or contract. *)
Definition stale : Table :=
  {| fullyQualifiedName := Some "Plan.raw.forecast"; name := Some "forecast";
     columns := [Sample.order_id]; owner_name := None; tags := [];
     description := "";
     updatedAt := Py.Int (Sample.updated_ms - 200 * 3600 * 1000);
     rowCount := Some 10 |}.

(** The same table, updated at 2001-03-25T00:30:00Z, half an hour before
    the clocks of Central Europe move forward. *)
Definition before_change : Table :=
  {| fullyQualifiedName := Some "Plan.raw.forecast"; name := Some "forecast";
     columns := [Sample.order_id]; owner_name := None; tags := [];
     description := "";
     updatedAt := Py.Int 985480200000;
     rowCount := Some 10 |}.

(** The same table, updated thirty hours before [Sample.updated_ms]. *)
Definition recent : Table :=
  {| fullyQualifiedName := Some "Plan.raw.forecast"; name := Some "forecast";
     columns := [Sample.order_id]; owner_name := None; tags := [];
     description := "";
     updatedAt := Py.Int (Sample.updated_ms - 30 * 3600 * 1000);
     rowCount := Some 10 |}.

End Scenario.

(** ** Contract store: status transitions *)

(** C6. [update_contract_status] on an FQN without a contract returns
    [False] and leaves the store (and the clock) untouched; on an FQN with
    a contract it returns [True], stores the given status whatever it is,
    sets [last_modified] to the clock reading, appends exactly one
    [status_change] entry (old status, arrow, new status, the notes) to
    [change_log], and appends one entry to [approval_history] exactly when
    the new status is ["active"]. *)
Theorem update_contract_status_spec
    (wall_clock : nat -> datetime) (self : gmap string DataContract)
    (fqn new_status user notes : string) (n : nat) :
  (self !! fqn = None ->
   update_contract_status wall_clock self fqn new_status user notes n
   = (false, self, n))
  /\
  (forall c, self !! fqn = Some c ->
   exists c' n',
     update_contract_status wall_clock self fqn new_status user notes n
     = (true, <[fqn := c']> self, n')
     /\ status c' = new_status
     /\ last_modified c' = wall_clock n
     /\ (exists e,
           change_log c' = change_log c ++ [e]
           /\ log_action e = "status_change"
           /\ log_user e = user
           /\ log_details e = status c +:+ " → " +:+ new_status
           /\ log_notes e = Some notes)
     /\ (new_status = "active" ->
         exists a,
           approval_history c' = approval_history c ++ [a]
           /\ appr_approver a = user /\ appr_notes a = notes)
     /\ (new_status <> "active" ->
         approval_history c' = approval_history c)).
Proof.
  unfold update_contract_status. split.
  - intros ->. reflexivity.
  - intros c ->. cbv [bind now ret].
    destruct (String.eqb new_status "active") eqn:Hactive.
    + apply String.eqb_eq in Hactive.
      eexists _, _. split; [reflexivity|]. cbn.
      repeat split; eauto; try congruence.
      eexists. repeat split; reflexivity.
    + apply String.eqb_neq in Hactive.
      eexists _, _. split; [reflexivity|]. cbn.
      repeat split; eauto; try congruence.
      eexists. repeat split; reflexivity.
Qed.

Lemma update_contract_status_spec_witness :
  update_contract_status Sample.ticking Sample.store "Plan.raw.missing"
    "active" "bob.engineering" "" 0%nat
  = (false, Sample.store, 0%nat)
  /\
  exists c' n',
    update_contract_status Sample.ticking Sample.store "Deliver.raw.orders"
      "deprecated" "bob.engineering" "superseded" 0%nat
    = (true, <["Deliver.raw.orders" := c']> Sample.store, n')
    /\ status c' = "deprecated"
    /\ approval_history c' = [].
Proof.
  split.
  - apply (proj1 (update_contract_status_spec Sample.ticking Sample.store
                    "Plan.raw.missing" "active" "bob.engineering" "" 0%nat)).
    vm_compute. reflexivity.
  - destruct (proj2 (update_contract_status_spec Sample.ticking Sample.store
                       "Deliver.raw.orders" "deprecated" "bob.engineering"
                       "superseded" 0%nat) Sample.orders_contract)
      as (c' & n' & Hrun & Hstatus & _ & _ & _ & Hkeep).
    + vm_compute. reflexivity.
    + exists c', n'. repeat split; try assumption.
      apply Hkeep. discriminate.
Defined.

(** ** Governance metrics *)

Lemma sum_ones_for_acc {A} (p : A -> bool) (l : list A) (a : Z) :
  fold_left Z.add (ones_for p l) a = (a + count_where p l)%Z.
Proof.
  unfold count_where, ones_for. revert a.
  induction l as [|x l IH]; intros a; simpl.
  - lia.
  - destruct (p x); simpl.
    + rewrite IH. lia.
    + apply IH.
Qed.

Lemma sum_ones_for {A} (p : A -> bool) (l : list A) :
  Py.sum (ones_for p l) = count_where p l.
Proof. unfold Py.sum. rewrite sum_ones_for_acc. lia. Qed.

Lemma count_where_none {A} (p : A -> bool) (l : list A) :
  (forall x, p x = false) -> count_where p l = 0%Z.
Proof.
  intros Hp. unfold count_where.
  induction l as [|x l IH]; simpl; [reflexivity|].
  rewrite Hp. exact IH.
Qed.

Lemma coverage_positive (count total : Z) :
  (0 < total)%Z ->
  (coverage count total == inject_Z count / inject_Z total * 100)%Q.
Proof.
  intros Hpos. unfold coverage.
  destruct (Z.ltb_spec 0 total); [reflexivity | lia].
Qed.

Lemma coverage_zero (count : Z) : (coverage count 0 == 0)%Q.
Proof. reflexivity. Qed.

(** C9. The counts of [calculate_governance_metrics] are the table count,
    the numbers of tables with a non-empty owner name and with a non-empty
    description, the size of the contract map and the number of tables
    whose FQN has an active contract with a non-empty classification;
    every coverage is count / total * 100, and 0 when there is no table;
    with no contract and ten tables, four owned and three described, the
    result is 10, 4, 3, 0, 0 and an ownership coverage of 40. *)
Theorem calculate_governance_metrics_spec
    (tables : list Table) (contracts : gmap string DataContract) :
  let m := calculate_governance_metrics tables contracts in
  total_assets m = Z.of_nat (length tables)
  /\ owned_assets m = count_where has_owner tables
  /\ documented_assets m
     = count_where (fun t => Py.truthy_str (description t)) tables
  /\ contracted_assets m = Z.of_nat (size contracts)
  /\ compliant_assets m = count_where (is_compliant contracts) tables
  /\ ((0 < total_assets m)%Z ->
      (ownership_coverage m
         == inject_Z (owned_assets m) / inject_Z (total_assets m) * 100
       /\ documentation_coverage m
         == inject_Z (documented_assets m) / inject_Z (total_assets m) * 100
       /\ classification_coverage m
         == inject_Z (classified_assets m) / inject_Z (total_assets m) * 100
       /\ contract_coverage m
         == inject_Z (contracted_assets m) / inject_Z (total_assets m) * 100
       /\ compliance_rate m
         == inject_Z (compliant_assets m) / inject_Z (total_assets m) * 100)%Q)
  /\ (total_assets m = 0%Z ->
      (ownership_coverage m == 0 /\ documentation_coverage m == 0
       /\ classification_coverage m == 0 /\ contract_coverage m == 0
       /\ compliance_rate m == 0)%Q)
  /\ (contracts = ∅ ->
      length tables = 10%nat ->
      count_where has_owner tables = 4%Z ->
      count_where (fun t => Py.truthy_str (description t)) tables = 3%Z ->
      total_assets m = 10%Z /\ owned_assets m = 4%Z
      /\ documented_assets m = 3%Z /\ contracted_assets m = 0%Z
      /\ compliant_assets m = 0%Z /\ (ownership_coverage m == 40)%Q).
Proof.
  intros m.
  assert (Htotal : total_assets m = Z.of_nat (length tables)) by reflexivity.
  assert (Howned : owned_assets m = count_where has_owner tables)
    by apply sum_ones_for.
  assert (Hdoc : documented_assets m
                 = count_where (fun t => Py.truthy_str (description t)) tables)
    by apply sum_ones_for.
  assert (Hcontracted : contracted_assets m = Z.of_nat (size contracts))
    by reflexivity.
  assert (Hcompliant : compliant_assets m
                       = count_where (is_compliant contracts) tables)
    by apply sum_ones_for.
  repeat apply conj; try assumption.
  - intros Hpos.
    unfold ownership_coverage, documentation_coverage,
      classification_coverage, contract_coverage, compliance_rate.
    repeat apply conj; apply coverage_positive; exact Hpos.
  - intros Hzero.
    unfold ownership_coverage, documentation_coverage,
      classification_coverage, contract_coverage, compliance_rate.
    rewrite Hzero. repeat apply conj; apply coverage_zero.
  - intros Hempty Hlen Ho Hd.
    assert (Hnone : compliant_assets m = 0%Z).
    { rewrite Hcompliant. apply count_where_none. intros t.
      unfold is_compliant. subst contracts.
      destruct (fullyQualifiedName t); [|reflexivity].
      rewrite lookup_empty. reflexivity. }
    assert (Hten : total_assets m = 10%Z) by (rewrite Htotal, Hlen; reflexivity).
    repeat apply conj.
    + exact Hten.
    + rewrite Howned. exact Ho.
    + rewrite Hdoc. exact Hd.
    + rewrite Hcontracted. subst contracts. rewrite map_size_empty. reflexivity.
    + exact Hnone.
    + unfold ownership_coverage. rewrite Hten, Howned, Ho. reflexivity.
Qed.

Lemma calculate_governance_metrics_spec_witness :
  let m := calculate_governance_metrics Sample.ten_tables ∅ in
  total_assets m = 10%Z /\ owned_assets m = 4%Z
  /\ documented_assets m = 3%Z /\ contracted_assets m = 0%Z
  /\ compliant_assets m = 0%Z /\ (ownership_coverage m == 40)%Q.
Proof.
  apply (calculate_governance_metrics_spec Sample.ten_tables ∅);
    reflexivity.
Defined.

(** ** Governance gaps *)

(** C5. A table with a PII-tagged column and no contract is left out of
    the [contains_pii_unclassified] gap list, and a table none of whose
    columns is PII-tagged is put on it: the gap test reads the tags of
    the table, not those of its columns. The security scorer, on the
    same table and contract map, does find the PII column and asks for a
    contract to manage it. *)
Theorem pii_gap_reads_table_tags :
  has_pii_column Sample.customers = true
  /\ (∅ : gmap string DataContract) !! fqn_of Sample.customers = None
  /\ contains_pii_unclassified
       (identify_governance_gaps [Sample.customers] ∅) = []
  /\ In "Create contract to manage PII"%string
       (snd (fst (calculate_security_compliance_score Sample.customers ∅)))
  /\ has_pii_column Sample.flagged = false
  /\ contains_pii_unclassified
       (identify_governance_gaps [Sample.flagged] ∅)
     = ["Deliver.raw.flagged"].
Proof.
  repeat apply conj; try (vm_compute; reflexivity).
  vm_compute. tauto.
Qed.

(** What the gap list does hold: the FQNs, in table order, of the tables
    whose own tag list prints with ["PII"] in it and that have no
    contract. *)
Lemma contains_pii_unclassified_spec
    (tables : list Table) (contracts : gmap string DataContract) :
  contains_pii_unclassified (identify_governance_gaps tables contracts)
  = map fqn_of
      (List.filter
         (fun t => mentions_pii (tags t) && not_in contracts (fqn_of t))
         tables).
Proof.
  unfold identify_governance_gaps.
  set (g0 := {| no_owner := []; no_description := [];
                no_classification := []; no_contract := [];
                contains_pii_unclassified := [] |}).
  change (contains_pii_unclassified (fold_left (gaps_step contracts) tables g0)
          = contains_pii_unclassified g0
            ++ map fqn_of
                 (List.filter
                    (fun t => mentions_pii (tags t) && not_in contracts (fqn_of t))
                    tables)).
  generalize g0. clear g0.
  induction tables as [|t tables IH]; intros g; simpl.
  - rewrite app_nil_r. reflexivity.
  - rewrite IH. unfold gaps_step at 1. cbn [contains_pii_unclassified].
    unfold mentions_pii at 2.
    destruct (Py.contains "PII" (Py.str_list_of_dicts (tags t))
              && not_in contracts (fqn_of t)); simpl.
    + rewrite <- app_assoc. reflexivity.
    + reflexivity.
Qed.

(** ** Freshness *)


Lemma Qle_bool_false (x y : Q) : Qle_bool x y = false -> (y < x)%Q.
Proof.
  intros H. apply Qnot_le_lt. intros Hle.
  apply Qle_bool_iff in Hle. congruence.
Qed.

Lemma Qle_bool_true (x y : Q) : (x <= y)%Q -> Qle_bool x y = true.
Proof. apply Qle_bool_iff. Qed.

Lemma Qlt_bool_false (x y : Q) : (y < x)%Q -> Qle_bool x y = false.
Proof.
  intros H. destruct (Qle_bool x y) eqn:E; [|reflexivity].
  apply Qle_bool_iff in E. exfalso. eapply Qlt_not_le; eassumption.
Qed.

(** The score the ladder leaves, by the interval [hours] falls in. *)
Lemma freshness_ladder_score (h : Q) (t : Tally) :
  ((h <= 1 -> score (freshness_ladder h t) = 100)
   /\ (1 < h -> h <= 6 -> score (freshness_ladder h t) = 95)
   /\ (6 < h -> h <= 24 -> score (freshness_ladder h t) = 85)
   /\ (24 < h -> h <= 48 -> score (freshness_ladder h t) = 70)
   /\ (48 < h -> h <= 168 -> score (freshness_ladder h t) = 50)
   /\ (168 < h -> score (freshness_ladder h t) = 20))%Q.
Proof.
  unfold freshness_ladder.
  assert (H16 : (1 <= 6)%Q) by (vm_compute; discriminate).
  assert (H624 : (6 <= 24)%Q) by (vm_compute; discriminate).
  assert (H2448 : (24 <= 48)%Q) by (vm_compute; discriminate).
  assert (H48168 : (48 <= 168)%Q) by (vm_compute; discriminate).
  repeat apply conj; intros;
    repeat match goal with
    | H : (?a < h)%Q |- context [Qle_bool h ?a] =>
        rewrite (Qlt_bool_false h a H)
    | H : (h <= ?a)%Q |- context [Qle_bool h ?a] =>
        rewrite (Qle_bool_true h a H)
    | H : (?a < h)%Q, L : (?b <= ?a)%Q |- context [Qle_bool h ?b] =>
        rewrite (Qlt_bool_false h b (Qle_lt_trans _ _ _ L H))
    | H : (?a < h)%Q |- _ =>
        match goal with
        | L : (?b <= a)%Q |- _ =>
            lazymatch goal with
            | _ : (b < h)%Q |- _ => fail
            | _ => pose proof (Qle_lt_trans _ _ _ L H)
            end
        end
    end; reflexivity.
Qed.

(** C10. A table whose [updatedAt] is present and equal to 0 is scored as
    if it had no timestamp: freshness 0 with the single improvement
    ["Enable update timestamp tracking"], no strength and no reading of
    the clock; in particular not the 20 of the stale branch. *)
Theorem freshness_epoch_zero_is_absent
    (wall_clock : Host) (table : Table) (n : nat) :
  updatedAt table = Py.Int 0 ->
  calculate_freshness_score wall_clock table n
  = ((0%Q, ["Enable update timestamp tracking"], []), n)
  /\ ~ (fst (fst (fst (calculate_freshness_score wall_clock table n))) == 20)%Q.
Proof.
  intros H. unfold calculate_freshness_score. rewrite H. simpl.
  split; [reflexivity|]. intros Heq. discriminate Heq.
Qed.

Lemma freshness_epoch_zero_is_absent_witness :
  calculate_freshness_score Sample.ticking Sample.epoch_table 0%nat
  = ((0%Q, ["Enable update timestamp tracking"], []), 0%nat)
  /\ ~ (fst (fst (fst (calculate_freshness_score Sample.ticking
                         Sample.epoch_table 0%nat))) == 20)%Q.
Proof.
  apply (freshness_epoch_zero_is_absent Sample.ticking Sample.epoch_table 0%nat).
  reflexivity.
Defined.

(** C7, as stated, fails on a table last updated at the epoch, here on a
    host on UTC: the timestamp 0 is present and converts
    (1970-01-01T00:00:00), it is far more than 168 hours before a reading
    of the clock in 2001, and yet the score is not the 20 of the ladder. *)
Lemma freshness_as_stated_fails_at_epoch :
  ~ freshness_as_stated Sample.ticking Sample.epoch_table 0%nat.
Proof.
  intros [_ H].
  specialize (H 0%Z).
  assert (Hpresent : updatedAt Sample.epoch_table <> Py.None_) by discriminate.
  assert (Hparse : fromtimestamp_ms Sample.ticking (updatedAt Sample.epoch_table)
                   = Some 0%Z)
    by reflexivity.
  specialize (H Hpresent Hparse). cbv zeta in H.
  destruct H as (_ & _ & _ & _ & _ & Hstale).
  assert (Hold : (168 < hours_between (Sample.ticking 0%nat) 0%Z)%Q)
    by (vm_compute; reflexivity).
  specialize (Hstale Hold). vm_compute in Hstale. discriminate Hstale.
Qed.

(** C7, amended. On every host [calculate_freshness_score] is total and
    returns: 0 with the note ["Enable update timestamp tracking"] when
    the timestamp is missing or falsy (null, 0, the empty string); 0 with
    the note ["Invalid update timestamp"] when it is not a number or
    [datetime.fromtimestamp] raises on it; otherwise the score of the
    ladder on the hours between the local datetime that
    [datetime.fromtimestamp] gives for the timestamp and the local
    datetime of [datetime.now()] (the hours elapsed, as long as the
    host's offset from UTC is the same at both): at most 1 hour 100, at
    most 6 hours 95, at most 24 hours 85, at most 48 hours 70, at most
    168 hours 50, and 20 beyond. *)
Theorem calculate_freshness_score_spec
    (wall_clock : Host) (table : Table) (n : nat) :
  let r := fst (calculate_freshness_score wall_clock table n) in
  let s := fst (fst r) in
  (Py.truthy (updatedAt table) = false ->
   r = (0%Q, ["Enable update timestamp tracking"], []))
  /\
  (Py.truthy (updatedAt table) = true ->
   fromtimestamp_ms wall_clock (updatedAt table) = None ->
   r = (0%Q, ["Invalid update timestamp"], []))
  /\
  (forall last_update,
     Py.truthy (updatedAt table) = true ->
     fromtimestamp_ms wall_clock (updatedAt table) = Some last_update ->
     let h := hours_between (wall_clock n) last_update in
     ((h <= 1 -> s == 100)
      /\ (1 < h -> h <= 6 -> s == 95)
      /\ (6 < h -> h <= 24 -> s == 85)
      /\ (24 < h -> h <= 48 -> s == 70)
      /\ (48 < h -> h <= 168 -> s == 50)
      /\ (168 < h -> s == 20))%Q).
Proof.
  cbv zeta. unfold calculate_freshness_score.
  repeat apply conj.
  - intros ->. reflexivity.
  - intros -> ->. reflexivity.
  - intros last_update -> ->. cbv [bind now ret negb fst snd result].
    pose proof (freshness_ladder_score
                  (hours_between (wall_clock n) last_update) start)
      as (H1 & H2 & H3 & H4 & H5 & H6).
    repeat apply conj; intros.
    + rewrite H1 by assumption. reflexivity.
    + rewrite H2 by assumption. reflexivity.
    + rewrite H3 by assumption. reflexivity.
    + rewrite H4 by assumption. reflexivity.
    + rewrite H5 by assumption. reflexivity.
    + rewrite H6 by assumption. reflexivity.
Qed.

Lemma calculate_freshness_score_spec_witness :
  fst (calculate_freshness_score Sample.ticking Sample.epoch_table 0%nat)
  = (0%Q, ["Enable update timestamp tracking"], [])
  /\ (fst (fst (fst (calculate_freshness_score Sample.minute_later
                       Sample.orders 0%nat))) == 100)%Q.
Proof.
  split.
  - apply (calculate_freshness_score_spec Sample.ticking Sample.epoch_table 0%nat).
    reflexivity.
  - refine (proj1 (proj2 (proj2 (calculate_freshness_score_spec
                                   Sample.minute_later Sample.orders 0%nat))
                     (Sample.updated_ms * 1000)%Z _ _) _).
    + reflexivity.
    + reflexivity.
    + vm_compute. discriminate.
Defined.

(** ** Component scores *)

Local Open Scope Q_scope.

Lemma min_100_bounds (s : Q) : 0 <= s -> 0 <= Py.min s 100 <= 100.
Proof.
  intros Hs. unfold Py.min.
  destruct (Qle_bool s 100) eqn:E.
  - apply Qle_bool_iff in E. split; assumption.
  - split; [discriminate | apply Qle_refl].
Qed.

Lemma min_100_id (s : Q) : s <= 100 -> Py.min s 100 = s.
Proof. intros Hs. unfold Py.min. rewrite (Qle_bool_true _ _ Hs). reflexivity. Qed.

Lemma result_bounds (t : Tally) :
  0 <= score t -> 0 <= fst (fst (result t)) <= 100.
Proof. intros H. apply min_100_bounds, H. Qed.

Lemma score_add (q : Q) (t : Tally) : 0 <= q -> 0 <= score t -> 0 <= score (add q t).
Proof. simpl. intros. lra. Qed.

Lemma score_set (q : Q) (t : Tally) : 0 <= q -> 0 <= score (set_score q t).
Proof. simpl. intros. assumption. Qed.

Lemma score_improve (s : string) (t : Tally) : 0 <= score t -> 0 <= score (improve s t).
Proof. simpl. intros. assumption. Qed.

Lemma score_strong (s : string) (t : Tally) : 0 <= score t -> 0 <= score (strong s t).
Proof. simpl. intros. assumption. Qed.

Lemma score_start : 0 <= score start.
Proof. simpl. lra. Qed.

Lemma len_filter_le {A} (p : A -> bool) (l : list A) :
  (Py.len (List.filter p l) <= Py.len l)%Z.
Proof.
  unfold Py.len. apply inj_le.
  induction l as [|x l IH]; simpl; [lia|].
  destruct (p x); simpl; lia.
Qed.

Lemma ratio30_bounds (part whole : Z) :
  (0 <= part <= whole)%Z -> (0 < whole)%Z ->
  0 <= inject_Z part / inject_Z whole * 30 <= 30.
Proof.
  intros [H0 Hle] Hpos.
  assert (Hw : 0 < inject_Z whole) by (unfold Qlt; simpl; lia).
  assert (Hp : 0 <= inject_Z part) by (unfold Qle; simpl; lia).
  assert (Hpw : inject_Z part <= inject_Z whole) by (unfold Qle; simpl; lia).
  assert (Hlo : 0 <= inject_Z part / inject_Z whole).
  { apply Qle_shift_div_l; [exact Hw | lra]. }
  assert (Hhi : inject_Z part / inject_Z whole <= 1).
  { apply Qle_shift_div_r; [exact Hw | lra]. }
  lra.
Qed.

Lemma coverage30_filter_bounds {A} (p : A -> bool) (l : list A) :
  l <> [] -> 0 <= coverage30 (List.filter p l) l <= 30.
Proof.
  intros Hne. unfold coverage30. apply ratio30_bounds.
  - split; [unfold Py.len; lia | apply len_filter_le].
  - unfold Py.len. destruct l; [congruence | simpl; lia].
Qed.

Lemma truthy_list_nonempty {A} (l : list A) : Py.truthy_list l = true -> l <> [].
Proof. destruct l; [discriminate | discriminate]. Qed.

(** Steps that close a goal [0 <= score t] for a tally built by the
    scorers: descend through the updates and split on every test. *)
Ltac tally_nonneg :=
  repeat first
    [ assumption
    | apply score_start
    | apply score_improve
    | apply score_strong
    | apply score_set; [lra|]
    | apply score_set; lra
    | apply score_add; [lra|]
    | match goal with
      | |- 0 <= score (if ?b then _ else _) => destruct b eqn:?
      | |- 0 <= score (match ?x with Some _ => _ | None => _ end) =>
          destruct x eqn:?
      end ].

Lemma status_score_nonneg (s : string) :
  0 <= match Py.dict_get s status_scores with Some q => q | None => 0 end.
Proof.
  unfold status_scores. simpl.
  repeat match goal with
         | |- context [if ?b then _ else _] => destruct b
         end; lra.
Qed.

Lemma data_quality_score_bounds (table : Table) (contracts : gmap string DataContract) :
  0 <= fst (fst (calculate_data_quality_score table contracts)) <= 100.
Proof.
  unfold calculate_data_quality_score. apply result_bounds.
  destruct (Py.truthy_list (columns table)) eqn:Hcols.
  - pose proof (coverage30_filter_bounds dataType_not_blank (columns table)
                  (truthy_list_nonempty _ Hcols)) as [Hlo _].
    tally_nonneg; apply score_add; tally_nonneg.
  - tally_nonneg.
Qed.

Lemma contract_availability_score_bounds (table : Table)
    (contracts : gmap string DataContract) :
  0 <= fst (fst (calculate_contract_availability_score table contracts)) <= 100.
Proof.
  unfold calculate_contract_availability_score.
  destruct (contracts !! fqn_of table) as [contract|].
  - apply result_bounds.
    pose proof (status_score_nonneg (status contract)).
    tally_nonneg; apply score_add; tally_nonneg.
  - simpl. lra.
Qed.

Lemma freshness_score_bounds (wall_clock : Host) (table : Table) (n : nat) :
  0 <= fst (fst (fst (calculate_freshness_score wall_clock table n))) <= 100.
Proof.
  unfold calculate_freshness_score.
  destruct (Py.truthy (updatedAt table)); simpl; [|lra].
  destruct (fromtimestamp_ms wall_clock (updatedAt table)); cbv [bind now ret]; [|simpl; lra].
  cbv [fst]. apply result_bounds. unfold freshness_ladder. tally_nonneg.
Qed.

Lemma documentation_score_bounds (table : Table) (contracts : gmap string DataContract) :
  0 <= fst (fst (calculate_documentation_score table contracts)) <= 100.
Proof.
  unfold calculate_documentation_score. apply result_bounds.
  destruct (Py.truthy_list (columns table)) eqn:Hcols.
  - pose proof (coverage30_filter_bounds
                  (fun c => Py.truthy_str (col_description c)) (columns table)
                  (truthy_list_nonempty _ Hcols)) as [Hlo _].
    tally_nonneg; apply score_add; tally_nonneg.
  - tally_nonneg.
Qed.

Lemma lineage_usage_score_bounds (table : Table) (contracts : gmap string DataContract) :
  0 <= fst (fst (calculate_lineage_usage_score table contracts)) <= 100.
Proof.
  unfold calculate_lineage_usage_score. apply result_bounds. tally_nonneg.
Qed.

Lemma security_compliance_score_bounds (table : Table)
    (contracts : gmap string DataContract) :
  0 <= fst (fst (calculate_security_compliance_score table contracts)) <= 100.
Proof.
  unfold calculate_security_compliance_score. apply result_bounds. tally_nonneg.
Qed.

(** ** Composite score *)

Lemma composite_of_bounds (a b c d e f : Q) :
  0 <= a <= 100 -> 0 <= b <= 100 -> 0 <= c <= 100 ->
  0 <= d <= 100 -> 0 <= e <= 100 -> 0 <= f <= 100 ->
  0 <= composite_of a b c d e f <= 100.
Proof.
  intros. unfold composite_of.
  cbv [weight WEIGHTS Py.dict_get String.eqb Ascii.eqb Bool.eqb].
  simpl. lra.
Qed.

Lemma composite_of_weights (a b c d e f : Q) :
  composite_of a b c d e f
  == a * (25 # 100) + b * (20 # 100) + c * (15 # 100)
     + d * (15 # 100) + e * (15 # 100) + f * (10 # 100).
Proof. reflexivity. Qed.

(** C1. For every table, contract map and state of the clock, the
    composite score of [calculate_trust_score] is the sum of the six
    component scores weighted 0.25 (data quality), 0.20 (contract
    availability), 0.15 (freshness), 0.15 (documentation), 0.15 (lineage
    and usage) and 0.10 (security and compliance), and lies between 0 and
    100. *)
Theorem composite_trust_score_spec
    (wall_clock : Host) (table : Table)
    (contracts : gmap string DataContract) (n : nat) :
  let ts := fst (calculate_trust_score wall_clock table contracts n) in
  composite_trust_score ts
  == fst (fst (calculate_data_quality_score table contracts)) * (25 # 100)
     + fst (fst (calculate_contract_availability_score table contracts)) * (20 # 100)
     + fst (fst (fst (calculate_freshness_score wall_clock table n))) * (15 # 100)
     + fst (fst (calculate_documentation_score table contracts)) * (15 # 100)
     + fst (fst (calculate_lineage_usage_score table contracts)) * (15 # 100)
     + fst (fst (calculate_security_compliance_score table contracts)) * (10 # 100)
  /\ 0 <= composite_trust_score ts <= 100.
Proof.
  pose proof (data_quality_score_bounds table contracts) as Hq.
  pose proof (contract_availability_score_bounds table contracts) as Hc.
  pose proof (freshness_score_bounds wall_clock table n) as Hf.
  pose proof (documentation_score_bounds table contracts) as Hd.
  pose proof (lineage_usage_score_bounds table contracts) as Hl.
  pose proof (security_compliance_score_bounds table contracts) as Hs.
  unfold calculate_trust_score. cbv zeta.
  destruct (calculate_data_quality_score table contracts) as [[q qi] qs].
  destruct (calculate_contract_availability_score table contracts) as [[c ci] cs].
  destruct (calculate_documentation_score table contracts) as [[d di] ds].
  destruct (calculate_lineage_usage_score table contracts) as [[l li] ls].
  destruct (calculate_security_compliance_score table contracts) as [[s si] ss].
  cbv [bind].
  destruct (calculate_freshness_score wall_clock table n) as [[[f fi] fs] n'].
  cbv [now ret fst snd composite_trust_score] in *.
  split.
  - apply composite_of_weights.
  - apply composite_of_bounds; assumption.
Qed.

(** The component scores recorded in the trust score are those of the six
    scorers. *)
Lemma trust_score_components
    (wall_clock : Host) (table : Table)
    (contracts : gmap string DataContract) (n : nat) :
  let ts := fst (calculate_trust_score wall_clock table contracts n) in
  data_quality_score ts = fst (fst (calculate_data_quality_score table contracts))
  /\ contract_availability_score ts
     = fst (fst (calculate_contract_availability_score table contracts))
  /\ freshness_score ts
     = fst (fst (fst (calculate_freshness_score wall_clock table n)))
  /\ documentation_score ts
     = fst (fst (calculate_documentation_score table contracts))
  /\ lineage_usage_score ts
     = fst (fst (calculate_lineage_usage_score table contracts))
  /\ security_compliance_score ts
     = fst (fst (calculate_security_compliance_score table contracts))
  /\ trust_level ts = trust_level_of (composite_trust_score ts).
Proof.
  unfold calculate_trust_score. cbv zeta.
  destruct (calculate_data_quality_score table contracts) as [[q qi] qs].
  destruct (calculate_contract_availability_score table contracts) as [[c ci] cs].
  destruct (calculate_documentation_score table contracts) as [[d di] ds].
  destruct (calculate_lineage_usage_score table contracts) as [[l li] ls].
  destruct (calculate_security_compliance_score table contracts) as [[s si] ss].
  cbv [bind].
  destruct (calculate_freshness_score wall_clock table n) as [[[f fi] fs] n'].
  cbv [now ret fst snd]. simpl. repeat split.
Qed.

(** ** Data quality: type coverage *)

(** C8. A column whose data type is unset is counted among the typed
    columns. On a table whose only column has no data type the
    type-coverage bonus is the full 30 (score 20 + 20 + 30 = 70), where
    no column has a known data type and the bonus of the claim is 0
    (score 40). *)
Theorem unset_dataType_counts_as_known :
  col_dataType Sample.untyped = None
  /\ dataType_or_unknown Sample.untyped = "UNKNOWN"%string
  /\ count_where known_dataType (columns Sample.blobs) = 0%Z
  /\ fst (fst (calculate_data_quality_score Sample.blobs ∅)) == 20 + 20 + 30
  /\ ~ fst (fst (calculate_data_quality_score Sample.blobs ∅))
       == 20 + 20 + inject_Z 0 / inject_Z 1 * 30.
Proof.
  repeat split; try reflexivity.
  vm_compute. discriminate.
Qed.

Lemma filter_typed_known (l : list Column) :
  Forall (fun c => col_dataType c <> None) l ->
  List.filter dataType_not_blank l = List.filter known_dataType l.
Proof.
  induction 1 as [|c l Hc _ IH]; simpl; [reflexivity|].
  rewrite IH.
  replace (dataType_not_blank c) with (known_dataType c); [reflexivity|].
  unfold dataType_not_blank, known_dataType.
  destruct (col_dataType c) as [s|]; [|congruence].
  simpl. rewrite orb_false_r, negb_orb. reflexivity.
Qed.

(** On tables all of whose columns have their data type set, the score
    is 20, the rules bonus, 20 for having columns, and the share of
    columns with a known data type times 30. *)
Lemma data_quality_score_when_typed
    (table : Table) (contracts : gmap string DataContract) :
  columns table <> [] ->
  Forall (fun c => col_dataType c <> None) (columns table) ->
  fst (fst (calculate_data_quality_score table contracts))
  == 20 + rules_bonus table contracts + 20
     + inject_Z (count_where known_dataType (columns table))
       / inject_Z (Py.len (columns table)) * 30.
Proof.
  intros Hne Hset.
  pose proof (coverage30_filter_bounds known_dataType (columns table) Hne)
    as Hcov.
  unfold calculate_data_quality_score, rules_bonus, count_where.
  rewrite (filter_typed_known _ Hset).
  unfold coverage30, Py.len in *.
  set (k := List.filter known_dataType (columns table)) in *.
  set (cov := inject_Z (Z.of_nat (length k))
              / inject_Z (Z.of_nat (length (columns table))) * 30) in *.
  assert (Hzero : Py.truthy_list k = false -> cov == 0).
  { destruct k; [|discriminate]. intros _. unfold cov. simpl.
    unfold Qdiv. rewrite Qmult_0_l. reflexivity. }
  destruct (columns table) as [|c0 cols] eqn:Hcols; [congruence|].
  cbn [Py.truthy_list].
  destruct (contracts !! fqn_of table) as [contract|];
    [destruct (Py.truthy_list (quality_rules contract))|];
    destruct (Py.truthy_list k) eqn:Hk;
    try destruct (Qle_bool 25 cov);
    cbn [result fst snd score add strong improve start];
    try specialize (Hzero eq_refl);
    rewrite min_100_id by lra; lra.
Qed.

(** ** Trust tiers *)

(** The tier by interval, below 100. *)
Lemma trust_level_of_cases (c : Q) :
  0 <= c -> c < 100 ->
  (90 <= c /\ first_bin c TRUST_LEVELS = Some "Platinum"%string)
  \/ (75 <= c /\ c < 90 /\ first_bin c TRUST_LEVELS = Some "Gold"%string)
  \/ (60 <= c /\ c < 75 /\ first_bin c TRUST_LEVELS = Some "Silver"%string)
  \/ (40 <= c /\ c < 60 /\ first_bin c TRUST_LEVELS = Some "Bronze"%string)
  \/ (c < 40 /\ first_bin c TRUST_LEVELS = Some "Needs Attention"%string).
Proof.
  intros H0 H100. unfold first_bin, TRUST_LEVELS.
  change (inject_Z 90) with 90. change (inject_Z 100) with 100.
  change (inject_Z 75) with 75. change (inject_Z 60) with 60.
  change (inject_Z 40) with 40. change (inject_Z 0) with 0.
  rewrite (Qlt_bool_false 100 c H100), (Qle_bool_true 0 c H0).
  destruct (Qle_bool 90 c) eqn:E90; simpl.
  { apply Qle_bool_iff in E90. left. split; [assumption | reflexivity]. }
  apply Qle_bool_false in E90.
  destruct (Qle_bool 75 c) eqn:E75; simpl.
  { apply Qle_bool_iff in E75. right; left. repeat split; assumption. }
  apply Qle_bool_false in E75.
  destruct (Qle_bool 60 c) eqn:E60; simpl.
  { apply Qle_bool_iff in E60. right; right; left. repeat split; assumption. }
  apply Qle_bool_false in E60.
  destruct (Qle_bool 40 c) eqn:E40; simpl.
  { apply Qle_bool_iff in E40. right; right; right; left.
    repeat split; assumption. }
  apply Qle_bool_false in E40.
  right; right; right; right. split; [assumption | reflexivity].
Qed.

(** Below 100 a bin always matches. *)
Lemma first_bin_matches_below_100 (c : Q) :
  0 <= c -> c < 100 -> first_bin c TRUST_LEVELS <> None.
Proof.
  intros H0 H100.
  destruct (trust_level_of_cases c H0 H100)
    as [[_ E]|[(_ & _ & E)|[(_ & _ & E)|[(_ & _ & E)|[_ E]]]]];
    rewrite E; discriminate.
Qed.

(** Below 100 the tier does not decrease when the composite grows. *)
Lemma trust_level_monotone_below_100 (a b : Q) :
  0 <= a -> a <= b -> b < 100 ->
  (tier_rank (trust_level_of a) <= tier_rank (trust_level_of b))%nat.
Proof.
  intros H0 Hab H100.
  assert (Ha : a < 100) by lra. assert (Hb : 0 <= b) by lra.
  unfold trust_level_of.
  destruct (trust_level_of_cases a H0 Ha)
    as [[? Ea]|[(? & ? & Ea)|[(? & ? & Ea)|[(? & ? & Ea)|[? Ea]]]]];
    destruct (trust_level_of_cases b Hb H100)
      as [[? Eb]|[(? & ? & Eb)|[(? & ? & Eb)|[(? & ? & Eb)|[? Eb]]]]];
    rewrite Ea, Eb; try (exfalso; lra); vm_compute; lia.
Qed.

(** A composite of exactly 75 is Gold. *)
Lemma trust_level_of_75 : trust_level_of 75 = "Gold"%string.
Proof. reflexivity. Qed.

(** C3. The fully governed table scores 100 on each of the six
    components, so its composite is 100, a value between 0 and 100 that
    none of the five bins holds: the loop over the bins falls through and
    the tier is the default ["Needs Attention"]. *)
Theorem perfect_score_matches_no_bin :
  let ts := fst (calculate_trust_score Sample.minute_later Sample.orders
                   Sample.store 0%nat) in
  data_quality_score ts == 100
  /\ contract_availability_score ts == 100
  /\ freshness_score ts == 100
  /\ documentation_score ts == 100
  /\ lineage_usage_score ts == 100
  /\ security_compliance_score ts == 100
  /\ composite_trust_score ts == 100
  /\ 0 <= composite_trust_score ts <= 100
  /\ first_bin (composite_trust_score ts) TRUST_LEVELS = None
  /\ trust_level ts = "Needs Attention"%string.
Proof.
  vm_compute. repeat split; discriminate.
Qed.

(** C2. The tier is not monotone at the top of the scale: the fully
    governed table has composite 100 and tier ["Needs Attention"], while
    the same table with a smaller row count has the lower composite 98.5
    and the higher tier ["Platinum"]; a composite of exactly 75 is Gold. *)
Theorem trust_level_drops_at_100 :
  let lower := fst (calculate_trust_score Sample.minute_later
                      Sample.small_orders Sample.store 0%nat) in
  let upper := fst (calculate_trust_score Sample.minute_later
                      Sample.orders Sample.store 0%nat) in
  composite_trust_score lower == 985 # 10
  /\ composite_trust_score upper == 100
  /\ composite_trust_score lower <= composite_trust_score upper
  /\ trust_level lower = "Platinum"%string
  /\ trust_level upper = "Needs Attention"%string
  /\ (tier_rank (trust_level upper) < tier_rank (trust_level lower))%nat
  /\ trust_level_of 75 = "Gold"%string.
Proof.
  vm_compute. repeat split; try discriminate; lia.
Qed.

Local Close Scope Q_scope.

(** ** Ordered dictionaries *)

Section DictFacts.
Context {V : Type}.
Implicit Types (d : list (string * V)) (k : string) (v : V).

Lemma dict_get_None_iff k d :
  Py.dict_get k d = None <-> ~ In k (map fst d).
Proof.
  induction d as [|[k' v'] d IH]; simpl.
  - tauto.
  - destruct (String.eqb_spec k k') as [->|Hne].
    + split; [discriminate | intros H; exfalso; apply H; left; reflexivity].
    + rewrite IH. split.
      * intros H [E|Hin]; [congruence | tauto].
      * tauto.
Qed.

Lemma dict_get_set k k' v d :
  Py.dict_get k (Py.dict_set k' v d)
  = if String.eqb k k' then Some v else Py.dict_get k d.
Proof.
  induction d as [|[k0 v0] d IH]; simpl.
  - reflexivity.
  - destruct (String.eqb_spec k' k0) as [->|Hne]; simpl.
    + destruct (String.eqb k k0); reflexivity.
    + rewrite IH.
      destruct (String.eqb_spec k k0) as [E0|Hne0];
        destruct (String.eqb_spec k k') as [E1|Hne1];
        try reflexivity; congruence.
Qed.

Lemma dict_set_keys k v d x :
  In x (map fst (Py.dict_set k v d)) <-> x = k \/ In x (map fst d).
Proof.
  induction d as [|[k0 v0] d IH]; simpl.
  - intuition congruence.
  - destruct (String.eqb_spec k k0) as [->|Hne]; simpl.
    + intuition congruence.
    + rewrite IH. intuition congruence.
Qed.

Lemma dict_set_NoDup k v d :
  List.NoDup (map fst d) -> List.NoDup (map fst (Py.dict_set k v d)).
Proof.
  induction d as [|[k0 v0] d IH]; simpl; intros Hnd.
  - constructor; [intros [] | constructor].
  - inversion Hnd as [|? ? Hnotin Hnd']; subst.
    destruct (String.eqb_spec k k0) as [->|Hne]; simpl.
    + constructor; assumption.
    + constructor.
      * rewrite dict_set_keys. intros [E|Hin]; [congruence | contradiction].
      * apply IH, Hnd'.
Qed.

Lemma dict_of_items_NoDup_from (items : list (string * V)) d :
  List.NoDup (map fst d) ->
  List.NoDup (map fst (fold_left (fun d kv => Py.dict_set (fst kv) (snd kv) d) items d)).
Proof.
  revert d. induction items as [|[k v] items IH]; intros d Hnd; simpl.
  - exact Hnd.
  - apply IH, dict_set_NoDup, Hnd.
Qed.

Lemma dict_of_items_NoDup (items : list (string * V)) :
  List.NoDup (map fst (Py.dict_of_items items)).
Proof. apply dict_of_items_NoDup_from. constructor. Qed.

Lemma dict_of_items_get_from k (items : list (string * V)) d :
  Py.dict_get k (fold_left (fun d kv => Py.dict_set (fst kv) (snd kv) d) items d)
  = match last_value k items with
    | Some v => Some v
    | None => Py.dict_get k d
    end.
Proof.
  revert d. induction items as [|[k' v] items IH]; intros d; simpl.
  - reflexivity.
  - rewrite IH. destruct (last_value k items); [reflexivity|].
    rewrite dict_get_set. destruct (String.eqb k k'); reflexivity.
Qed.

Lemma dict_of_items_get k (items : list (string * V)) :
  Py.dict_get k (Py.dict_of_items items) = last_value k items.
Proof.
  unfold Py.dict_of_items. rewrite dict_of_items_get_from.
  destruct (last_value k items); reflexivity.
Qed.

End DictFacts.

Lemma last_value_columns (col : string) (cols : list Column) :
  last_value col (map (fun c => (col_name c, c)) cols)
  = last_column_named col cols.
Proof.
  induction cols as [|c cols IH]; simpl; [reflexivity|].
  rewrite IH. reflexivity.
Qed.

Lemma last_column_named_None (col : string) (cols : list Column) :
  last_column_named col cols = None <-> ~ In col (map col_name cols).
Proof.
  induction cols as [|c cols IH]; simpl.
  - tauto.
  - destruct (last_column_named col cols) as [c'|].
    + split; [discriminate|]. intros H. apply IH. tauto.
    + destruct (String.eqb_spec col (col_name c)) as [E|Hne].
      * split; [discriminate|]. intros H. exfalso. apply H. left. congruence.
      * split; [|reflexivity]. intros _ [E|Hin]; [congruence|].
        apply (proj1 IH); [reflexivity | exact Hin].
Qed.

(** ** Schema change detection *)

Lemma for_append_cons {A B} (body : A -> Clock (list B)) (x : A) (l : list A) (n : nat) :
  for_append body (x :: l) n
  = (fst (body x n) ++ fst (for_append body l (snd (body x n))),
     snd (for_append body l (snd (body x n)))).
Proof.
  simpl. unfold bind, ret.
  destruct (body x n) as [ys n1]. simpl.
  destruct (for_append body l n1) as [zs n2]. reflexivity.
Qed.

Lemma for_append_map {A B C} (g : B -> C) (body : A -> Clock (list B))
    (h : A -> list C) (l : list A) (n : nat) :
  (forall a m, map g (fst (body a m)) = h a) ->
  map g (fst (for_append body l n)) = flat_map h l.
Proof.
  intros Hbody. revert n.
  induction l as [|x l IH]; intros n.
  - reflexivity.
  - rewrite for_append_cons. cbn [fst flat_map].
    rewrite map_app, Hbody, IH. reflexivity.
Qed.

Lemma for_append_Forall {A B} (P : B -> Prop) (body : A -> Clock (list B))
    (l : list A) (n : nat) :
  (forall a m, Forall P (fst (body a m))) ->
  Forall P (fst (for_append body l n)).
Proof.
  intros Hbody. revert n.
  induction l as [|x l IH]; intros n.
  - constructor.
  - rewrite for_append_cons. cbn [fst].
    apply Forall_app. split; [apply Hbody | apply IH].
Qed.

Lemma changes_for_app (col : string) (l1 l2 : list SchemaChange) :
  changes_for col (l1 ++ l2) = changes_for col l1 ++ changes_for col l2.
Proof. apply List.filter_app. Qed.

Lemma changes_for_untimed (col : string) (l : list SchemaChange) :
  map untimed (changes_for col l) = changes_for col (map untimed l).
Proof.
  unfold changes_for. induction l as [|ch l IH]; simpl; [reflexivity|].
  destruct (String.eqb (column_name ch) col); simpl; rewrite IH; reflexivity.
Qed.

Lemma changes_for_all (col : string) (l : list SchemaChange) :
  (forall ch, In ch l -> column_name ch = col) -> changes_for col l = l.
Proof.
  unfold changes_for. induction l as [|ch l IH]; simpl; intros H; [reflexivity|].
  rewrite (H ch (or_introl eq_refl)), String.eqb_refl, IH; [reflexivity|].
  intros ch' Hin. apply H. right. exact Hin.
Qed.

Lemma changes_for_none (col : string) (l : list SchemaChange) :
  (forall ch, In ch l -> column_name ch <> col) -> changes_for col l = [].
Proof.
  unfold changes_for. induction l as [|ch l IH]; simpl; intros H; [reflexivity|].
  destruct (String.eqb_spec (column_name ch) col) as [E|_].
  - exfalso. apply (H ch); [left; reflexivity | exact E].
  - apply IH. intros ch' Hin. apply H. right. exact Hin.
Qed.

(** The changes a loop over a dictionary emits for one column name are
    those of the iteration at that key. *)
Lemma changes_for_loop {V} (h : string * V -> list SchemaChange)
    (d : list (string * V)) (col : string) :
  List.NoDup (map fst d) ->
  (forall kv ch, In ch (h kv) -> column_name ch = fst kv) ->
  changes_for col (flat_map h d)
  = match Py.dict_get col d with
    | Some v => h (col, v)
    | None => []
    end.
Proof.
  intros Hnd Hname.
  induction d as [|[k v] d IH]; simpl.
  - reflexivity.
  - inversion Hnd as [|? ? Hnotin Hnd']; subst.
    rewrite changes_for_app, (IH Hnd').
    destruct (String.eqb_spec col k) as [->|Hne].
    + rewrite (proj2 (dict_get_None_iff k d) Hnotin), app_nil_r.
      apply changes_for_all. intros ch Hin. apply (Hname _ _ Hin).
    + rewrite changes_for_none; [reflexivity|].
      intros ch Hin E. apply Hne. rewrite <- E. apply (Hname _ _ Hin).
Qed.

Lemma NoDup_of_counts {A} (f : A -> string) (l : list A) :
  (forall x, (length (List.filter (fun a => String.eqb (f a) x) l) <= 1)%nat) ->
  List.NoDup (map f l).
Proof.
  induction l as [|a l IH]; simpl; intros H.
  - constructor.
  - constructor.
    + intros Hin. apply in_map_iff in Hin. destruct Hin as (b & Eb & Hb).
      specialize (H (f a)). simpl in H. rewrite String.eqb_refl in H. simpl in H.
      assert (Hb' : In b (List.filter (fun a0 => String.eqb (f a0) (f a)) l)).
      { apply filter_In. split; [exact Hb|]. rewrite Eb. apply String.eqb_refl. }
      destruct (List.filter (fun a0 => String.eqb (f a0) (f a)) l);
        [contradiction | simpl in H; lia].
    + apply IH. intros x. specialize (H x). simpl in H.
      destruct (String.eqb (f a) x); simpl in H; lia.
Qed.


Section Detector.

Variable wall_clock : nat -> datetime.
Variable fqn : string.

Lemma emit_removed_untimed current kv (m : nat) :
  map untimed (fst (emit_removed wall_clock fqn current kv m))
  = if negb (Py.dict_mem (fst kv) current)
    then [removed_change fqn (fst kv) (snd kv) 0] else [].
Proof. unfold emit_removed. destruct (negb _); reflexivity. Qed.

Lemma emit_added_untimed schema kv (m : nat) :
  map untimed (fst (emit_added wall_clock fqn schema kv m))
  = if negb (Py.dict_mem (fst kv) schema)
    then [added_change fqn (fst kv) (snd kv) 0] else [].
Proof. unfold emit_added. destruct (negb _); reflexivity. Qed.

Lemma emit_type_changed_untimed current kv (m : nat) :
  map untimed (fst (emit_type_changed wall_clock fqn current kv m))
  = match Py.dict_get (fst kv) current with
    | Some col =>
        if negb (String.eqb (se_dataType (snd kv)) (dataType_or_unknown col))
        then [type_change fqn (fst kv) (se_dataType (snd kv))
                (dataType_or_unknown col) 0]
        else []
    | None => []
    end.
Proof.
  unfold emit_type_changed.
  destruct (Py.dict_get (fst kv) current); [|reflexivity].
  cbv zeta. destruct (negb _); reflexivity.
Qed.

Lemma emit_removed_kind current kv (m : nat) :
  Forall (fun ch => change_type ch = "removed"%string)
    (fst (emit_removed wall_clock fqn current kv m)).
Proof.
  unfold emit_removed. destruct (negb _); simpl; repeat constructor.
Qed.

Lemma emit_added_kind schema kv (m : nat) :
  Forall (fun ch => change_type ch = "added"%string)
    (fst (emit_added wall_clock fqn schema kv m)).
Proof.
  unfold emit_added. destruct (negb _); simpl; repeat constructor.
Qed.

Lemma emit_type_changed_kind current kv (m : nat) :
  Forall (fun ch => change_type ch = "type_changed"%string)
    (fst (emit_type_changed wall_clock fqn current kv m)).
Proof.
  unfold emit_type_changed.
  destruct (Py.dict_get (fst kv) current); [|constructor].
  cbv zeta. destruct (negb _); simpl; repeat constructor.
Qed.

(** The result of the detector is the concatenation of the results of its
    three loops. *)
Lemma detect_schema_changes_parts (self : gmap string DataContract)
    (contract : DataContract) (table : Table) (n : nat) :
  self !! fqn = Some contract ->
  let current :=
    Py.dict_of_items (map (fun col => (col_name col, col)) (columns table)) in
  let schema := schema_definition contract in
  exists n1 n2,
    fst (detect_schema_changes wall_clock self fqn table n)
    = fst (for_append (emit_removed wall_clock fqn current) schema n)
      ++ fst (for_append (emit_added wall_clock fqn schema) current n1)
      ++ fst (for_append (emit_type_changed wall_clock fqn current) schema n2).
Proof.
  intros Hc. cbv zeta. unfold detect_schema_changes. rewrite Hc.
  cbv [bind ret].
  destruct (for_append (emit_removed wall_clock fqn _) _ n) as [r n1].
  exists n1.
  destruct (for_append (emit_added wall_clock fqn _) _ n1) as [a n2].
  exists n2.
  destruct (for_append (emit_type_changed wall_clock fqn _) _ n2) as [t n3].
  reflexivity.
Qed.

(** The changes emitted for one column name, time of detection erased,
    by what the contract records under the name and by the column of
    that name in the table. *)
Lemma changes_for_detect (self : gmap string DataContract)
    (contract : DataContract) (table : Table) (n : nat) (col : string) :
  self !! fqn = Some contract ->
  List.NoDup (map fst (schema_definition contract)) ->
  map untimed
    (changes_for col (fst (detect_schema_changes wall_clock self fqn table n)))
  = match Py.dict_get col (schema_definition contract),
          last_column_named col (columns table) with
    | Some e, None => [removed_change fqn col e 0]
    | None, Some c => [added_change fqn col c 0]
    | Some e, Some c =>
        if String.eqb (se_dataType e) (dataType_or_unknown c) then []
        else [type_change fqn col (se_dataType e) (dataType_or_unknown c) 0]
    | None, None => []
    end.
Proof.
  intros Hc Hnd.
  destruct (detect_schema_changes_parts self contract table n Hc)
    as (n1 & n2 & ->).
  set (current := Py.dict_of_items
                    (map (fun c => (col_name c, c)) (columns table))).
  set (schema := schema_definition contract) in *.
  rewrite changes_for_untimed, !map_app.
  rewrite (for_append_map untimed _ _ _ _ (emit_removed_untimed current)).
  rewrite (for_append_map untimed _ _ _ _ (emit_added_untimed schema)).
  rewrite (for_append_map untimed _ _ _ _ (emit_type_changed_untimed current)).
  rewrite !changes_for_app.
  rewrite !changes_for_loop.
  - assert (Hcur : Py.dict_get col current = last_column_named col (columns table)).
    { unfold current. rewrite dict_of_items_get. apply last_value_columns. }
    unfold Py.dict_mem. cbn [fst snd]. rewrite Hcur.
    destruct (Py.dict_get col schema) as [e|];
      destruct (last_column_named col (columns table)) as [c|];
      cbn [negb]; try reflexivity.
    destruct (String.eqb (se_dataType e) (dataType_or_unknown c)); reflexivity.
  - exact Hnd.
  - intros kv ch. destruct (Py.dict_get (fst kv) current); [|intros []].
    destruct (negb _); [intros [<-|[]]; reflexivity | intros []].
  - apply dict_of_items_NoDup.
  - intros kv ch. destruct (negb _); [intros [<-|[]]; reflexivity | intros []].
  - exact Hnd.
  - intros kv ch. destruct (negb _); [intros [<-|[]]; reflexivity | intros []].
Qed.

End Detector.

Lemma map_untimed_nil (l : list SchemaChange) : map untimed l = [] -> l = [].
Proof. destruct l; [reflexivity | discriminate]. Qed.

Lemma map_untimed_one (l : list SchemaChange) (x : SchemaChange) :
  map untimed l = [x] -> exists ch, l = [ch] /\ untimed ch = x.
Proof.
  destruct l as [|ch [|ch' l]]; try discriminate.
  intros H. injection H as H. exists ch. split; [reflexivity | exact H].
Qed.

Lemma change_is_untimed (ch : SchemaChange) fqn kind col old new sev impact approval :
  change_is (untimed ch) fqn kind col old new sev impact approval ->
  change_is ch fqn kind col old new sev impact approval.
Proof. exact (fun H => H). Qed.

(** C4. With a contract for [fqn] whose schema definition is a dictionary
    (its keys are distinct), [detect_schema_changes] emits, for every
    column name of the contract or of the table, exactly one change when
    the name is removed (in the contract only: ["removed"], breaking),
    added (in the table only: ["added"], non-breaking) or type-changed (in
    both with data types that differ as strings: ["type_changed"],
    breaking) and none when it is unchanged; every change is about such a
    name; no name has two changes; and the list is the removals, then the
    additions, then the type changes. *)
Theorem detect_schema_changes_spec
    (wall_clock : nat -> datetime) (self : gmap string DataContract)
    (fqn : string) (contract : DataContract) (table : Table) (n : nat) :
  self !! fqn = Some contract ->
  List.NoDup (map fst (schema_definition contract)) ->
  let schema := schema_definition contract in
  let cols := columns table in
  let changes := fst (detect_schema_changes wall_clock self fqn table n) in
  (forall col,
     In col (map fst schema) \/ In col (map col_name cols) ->
     match classify schema cols col with
     | Removed =>
         exists ch, changes_for col changes = [ch]
           /\ change_is ch fqn "removed" col (recorded_type schema col) None
                "breaking" "high" true
     | Added =>
         exists ch, changes_for col changes = [ch]
           /\ change_is ch fqn "added" col None (current_type cols col)
                "non-breaking" "low" false
     | TypeChanged =>
         exists ch, changes_for col changes = [ch]
           /\ change_is ch fqn "type_changed" col (recorded_type schema col)
                (current_type cols col) "breaking" "high" true
     | Unchanged => changes_for col changes = []
     end)
  /\ (forall ch, In ch changes ->
        In (column_name ch) (map fst schema)
        \/ In (column_name ch) (map col_name cols))
  /\ List.NoDup (map column_name changes)
  /\ (exists removed added changed,
        changes = removed ++ added ++ changed
        /\ Forall (fun ch => change_type ch = "removed"%string) removed
        /\ Forall (fun ch => change_type ch = "added"%string) added
        /\ Forall (fun ch => change_type ch = "type_changed"%string) changed).
Proof.
  intros Hc Hnd schema cols changes.
  pose proof (fun col => changes_for_detect wall_clock fqn self contract table
                           n col Hc Hnd) as Hfor.
  fold schema cols changes in Hfor.
  repeat apply conj.
  - intros col _. specialize (Hfor col).
    unfold classify, recorded_type, current_type.
    destruct (Py.dict_get col schema) as [e|];
      destruct (last_column_named col cols) as [c|]; cbn [option_map].
    + destruct (String.eqb (se_dataType e) (dataType_or_unknown c)).
      * apply map_untimed_nil, Hfor.
      * apply map_untimed_one in Hfor. destruct Hfor as (ch & -> & Hch).
        exists ch. split; [reflexivity|].
        apply change_is_untimed. rewrite Hch. repeat split.
    + apply map_untimed_one in Hfor. destruct Hfor as (ch & -> & Hch).
      exists ch. split; [reflexivity|].
      apply change_is_untimed. rewrite Hch. repeat split.
    + apply map_untimed_one in Hfor. destruct Hfor as (ch & -> & Hch).
      exists ch. split; [reflexivity|].
      apply change_is_untimed. rewrite Hch. repeat split.
    + apply map_untimed_nil, Hfor.
  - intros ch Hin. specialize (Hfor (column_name ch)).
    assert (Hmem : In ch (changes_for (column_name ch) changes)).
    { apply filter_In. split; [exact Hin | apply String.eqb_refl]. }
    destruct (in_dec String.string_dec (column_name ch) (map fst schema))
      as [Hin1|Hno1]; [left; exact Hin1|].
    destruct (in_dec String.string_dec (column_name ch) (map col_name cols))
      as [Hin2|Hno2]; [right; exact Hin2|].
    exfalso.
    apply dict_get_None_iff in Hno1. apply last_column_named_None in Hno2.
    rewrite Hno1, Hno2 in Hfor. apply map_untimed_nil in Hfor.
    rewrite Hfor in Hmem. destruct Hmem.
  - apply NoDup_of_counts. intros col. specialize (Hfor col).
    fold (changes_for col changes).
    rewrite <- (length_map untimed), Hfor.
    destruct (Py.dict_get col schema) as [e|];
      destruct (last_column_named col cols) as [c|]; simpl; try lia.
    destruct (String.eqb _ _); simpl; lia.
  - destruct (detect_schema_changes_parts wall_clock fqn self contract table n Hc)
      as (n1 & n2 & Hparts).
    eexists _, _, _. split; [exact Hparts|].
    repeat apply conj; apply for_append_Forall; intros kv m.
    + apply emit_removed_kind.
    + apply emit_added_kind.
    + apply emit_type_changed_kind.
Qed.

Lemma detect_schema_changes_spec_witness :
  let changes :=
    fst (detect_schema_changes Sample.ticking Sample.drift_store
           "Deliver.raw.orders" Sample.drifted_orders 0%nat) in
  (exists ch, changes_for "status" changes = [ch]
     /\ change_is ch "Deliver.raw.orders" "type_changed" "status"
          (Some "VARCHAR"%string) (Some "INT"%string) "breaking" "high" true)
  /\ (exists ch, changes_for "amount" changes = [ch]
     /\ change_is ch "Deliver.raw.orders" "added" "amount"
          None (Some "DECIMAL"%string) "non-breaking" "low" false)
  /\ changes_for "order_id" changes = []
  /\ List.NoDup (map column_name changes).
Proof.
  assert (Hc : Sample.drift_store !! "Deliver.raw.orders"%string
               = Some Sample.drift_contract) by (vm_compute; reflexivity).
  assert (Hnd : List.NoDup (map fst (schema_definition Sample.drift_contract))).
  { simpl. repeat constructor; simpl; intuition discriminate. }
  destruct (detect_schema_changes_spec Sample.ticking Sample.drift_store
              "Deliver.raw.orders" Sample.drift_contract Sample.drifted_orders
              0%nat Hc Hnd) as (Hcls & _ & Hdistinct & _).
  repeat apply conj.
  - apply (Hcls "status"%string). right. simpl. tauto.
  - apply (Hcls "amount"%string). right. simpl. tauto.
  - apply (Hcls "order_id"%string). left. simpl. tauto.
  - exact Hdistinct.
Defined.

(** A name has a recorded type exactly when it is a key of the schema
    definition, and a current type exactly when a column has it. *)
Lemma recorded_type_None (schema : list (string * SchemaEntry)) (col : string) :
  recorded_type schema col = None <-> ~ In col (map fst schema).
Proof.
  unfold recorded_type. rewrite <- dict_get_None_iff.
  destruct (Py.dict_get col schema); simpl; split; congruence.
Qed.

Lemma current_type_None (cols : list Column) (col : string) :
  current_type cols col = None <-> ~ In col (map col_name cols).
Proof.
  unfold current_type. rewrite <- last_column_named_None.
  destruct (last_column_named col cols); simpl; split; congruence.
Qed.

(** The comparison of data types is exact: [INT] and [int] differ. *)
Example type_comparison_is_case_sensitive :
  classify [("n", Sample.recorded "INT")] [Sample.plain "n" "int"] "n"
  = TypeChanged.
Proof. reflexivity. Qed.

(** ** Contract store: creation, consumers, audit log *)

(** X1. [create_contract] stores the contract it returns under the FQN
    of the table, whatever was there before, and touches no other FQN;
    the contract is a draft at version 1.0.0 with the owner given, no
    consumer, no approval and a log of exactly one [created] entry; the
    clock is read three times, for the creation date, the modification
    date and the log entry. *)
Theorem create_contract_stores
    (wall_clock : nat -> datetime) (md5_hexdigest : string -> string)
    (self : gmap string DataContract) (table : Table)
    (owner_ classification_ description_ business_purpose_ : string)
    (quality_rules_ : option (list (list (string * string))))
    (sla_hours : Z) (contains_pii_ : bool) (n : nat) :
  let r := create_contract wall_clock md5_hexdigest self table owner_
             classification_ description_ business_purpose_ quality_rules_
             sla_hours contains_pii_ n in
  let contract := fst (fst r) in
  let self' := snd (fst r) in
  self' !! fqn_of table = Some contract
  /\ (forall other, other <> fqn_of table -> self' !! other = self !! other)
  /\ snd r = (n + 3)%nat
  /\ table_fqn contract = fqn_of table
  /\ status contract = "draft"%string
  /\ version contract = "1.0.0"%string
  /\ owner contract = owner_
  /\ created_date contract = wall_clock n
  /\ last_modified contract = wall_clock (S n)
  /\ change_log contract
     = [ {| log_timestamp := wall_clock (S (S n)); log_action := "created";
            log_user := owner_; log_details := "Contract created";
            log_notes := None |} ]
  /\ approval_history contract = []
  /\ registered_consumers contract = [].
Proof.
  cbv zeta. unfold create_contract. cbv [bind now ret]. cbn [fst snd].
  repeat apply conj; try reflexivity.
  - apply lookup_insert_eq.
  - intros other Hne. apply lookup_insert_ne. congruence.
  - lia.
Qed.

Lemma last_value_map_columns {V} (f : Column -> V) (col : string)
    (cols : list Column) :
  last_value col (map (fun c => (col_name c, f c)) cols)
  = option_map f (last_column_named col cols).
Proof.
  induction cols as [|c cols IH]; simpl; [reflexivity|].
  rewrite IH. destruct (last_column_named col cols); simpl; [reflexivity|].
  destruct (String.eqb col (col_name c)); reflexivity.
Qed.

Lemma dict_get_Some_In {V} (k : string) (d : list (string * V)) :
  (exists v, Py.dict_get k d = Some v) <-> In k (map fst d).
Proof.
  pose proof (dict_get_None_iff k d) as Hnone.
  destruct (Py.dict_get k d) as [v|].
  - split; [|eauto]. intros _.
    destruct (in_dec String.string_dec k (map fst d)) as [Hin|Hno]; [exact Hin|].
    apply Hnone in Hno. discriminate.
  - split; [intros [v Hv]; discriminate|].
    intros Hin. exfalso. apply (proj1 Hnone); [reflexivity | exact Hin].
Qed.

Lemma last_column_named_Some_In (col : string) (cols : list Column) :
  (exists c, last_column_named col cols = Some c) <-> In col (map col_name cols).
Proof.
  pose proof (last_column_named_None col cols) as Hnone.
  destruct (last_column_named col cols) as [c|].
  - split; [|eauto]. intros _.
    destruct (in_dec String.string_dec col (map col_name cols)) as [Hin|Hno];
      [exact Hin|].
    apply Hnone in Hno. discriminate.
  - split; [intros [c Hc]; discriminate|].
    intros Hin. exfalso. apply (proj1 Hnone); [reflexivity | exact Hin].
Qed.

(** The schema snapshot [create_contract] takes of a table. *)
Lemma create_contract_schema_definition
    (wall_clock : nat -> datetime) (md5_hexdigest : string -> string)
    (self : gmap string DataContract) (table : Table)
    (owner_ classification_ description_ business_purpose_ : string)
    (quality_rules_ : option (list (list (string * string))))
    (sla_hours : Z) (contains_pii_ : bool) (n : nat) :
  schema_definition
    (fst (fst (create_contract wall_clock md5_hexdigest self table owner_
                 classification_ description_ business_purpose_ quality_rules_
                 sla_hours contains_pii_ n)))
  = Py.dict_of_items
      (map (fun col => (col_name col, schema_entry_of col)) (columns table)).
Proof. reflexivity. Qed.

Lemma snapshot_get (col : string) (cols : list Column) :
  Py.dict_get col
    (Py.dict_of_items (map (fun c => (col_name c, schema_entry_of c)) cols))
  = option_map schema_entry_of (last_column_named col cols).
Proof. rewrite dict_of_items_get. apply last_value_map_columns. Qed.

Lemma snapshot_recorded_type (col : string) (cols : list Column) :
  recorded_type
    (Py.dict_of_items (map (fun c => (col_name c, schema_entry_of c)) cols)) col
  = current_type cols col.
Proof.
  unfold recorded_type, current_type. rewrite snapshot_get.
  destruct (last_column_named col cols); reflexivity.
Qed.

(** X2. The schema definition of a contract made by [create_contract] is
    a dictionary on the column names of the table: its keys are distinct,
    they are exactly the names of the columns, and the data type recorded
    under a name is the current data type of that column (of its last
    occurrence if the name is repeated, ["UNKNOWN"] if unset). *)
Theorem create_contract_snapshots_columns
    (wall_clock : nat -> datetime) (md5_hexdigest : string -> string)
    (self : gmap string DataContract) (table : Table)
    (owner_ classification_ description_ business_purpose_ : string)
    (quality_rules_ : option (list (list (string * string))))
    (sla_hours : Z) (contains_pii_ : bool) (n : nat) :
  let contract :=
    fst (fst (create_contract wall_clock md5_hexdigest self table owner_
                classification_ description_ business_purpose_ quality_rules_
                sla_hours contains_pii_ n)) in
  List.NoDup (map fst (schema_definition contract))
  /\ (forall col,
        In col (map fst (schema_definition contract))
        <-> In col (map col_name (columns table)))
  /\ (forall col,
        recorded_type (schema_definition contract) col
        = current_type (columns table) col).
Proof.
  cbv zeta. rewrite create_contract_schema_definition.
  repeat apply conj.
  - apply dict_of_items_NoDup.
  - intros col. rewrite <- dict_get_Some_In, <- last_column_named_Some_In.
    rewrite snapshot_get.
    destruct (last_column_named col (columns table)); simpl.
    + split; eauto.
    + split; intros [x Hx]; discriminate.
  - intros col. apply snapshot_recorded_type.
Qed.

(** ** Schema change detection: further properties *)

Lemma for_append_reads {A B} (body : A -> Clock (list B)) (l : list A) (n : nat) :
  (forall a m, snd (body a m) = (m + length (fst (body a m)))%nat) ->
  snd (for_append body l n) = (n + length (fst (for_append body l n)))%nat.
Proof.
  intros Hbody. revert n.
  induction l as [|x l IH]; intros n.
  - simpl. unfold ret. simpl. lia.
  - rewrite for_append_cons. cbn [fst snd].
    rewrite IH, Hbody, length_app. lia.
Qed.

Lemma in_changes_for (ch : SchemaChange) (changes : list SchemaChange) :
  In ch changes -> In ch (changes_for (column_name ch) changes).
Proof.
  intros Hin. apply filter_In. split; [exact Hin | apply String.eqb_refl].
Qed.

Lemma changes_nil_iff (changes : list SchemaChange) :
  changes = [] <-> forall col, changes_for col changes = [].
Proof.
  split.
  - intros -> col. reflexivity.
  - intros H. destruct changes as [|ch rest]; [reflexivity|].
    pose proof (in_changes_for ch (ch :: rest) (or_introl eq_refl)) as Hin.
    rewrite H in Hin. destruct Hin.
Qed.

(** The detector reads the clock once per change it emits. *)
Lemma detect_schema_changes_reads
    (wall_clock : nat -> datetime) (self : gmap string DataContract)
    (fqn : string) (table : Table) (n : nat) :
  snd (detect_schema_changes wall_clock self fqn table n)
  = (n + length (fst (detect_schema_changes wall_clock self fqn table n)))%nat.
Proof.
  unfold detect_schema_changes.
  destruct (self !! fqn) as [contract|]; [|simpl; lia].
  cbv [bind ret].
  set (current := Py.dict_of_items _).
  set (schema := schema_definition contract).
  pose proof (for_append_reads (emit_removed wall_clock fqn current) schema n)
    as H1.
  destruct (for_append (emit_removed wall_clock fqn current) schema n) as [r m1].
  pose proof (for_append_reads (emit_added wall_clock fqn schema) current m1)
    as H2.
  destruct (for_append (emit_added wall_clock fqn schema) current m1) as [a m2].
  pose proof (for_append_reads (emit_type_changed wall_clock fqn current) schema m2)
    as H3.
  destruct (for_append (emit_type_changed wall_clock fqn current) schema m2)
    as [t m3].
  cbn [fst snd] in *. rewrite !length_app.
  rewrite H3, H2, H1.
  - lia.
  - intros kv m. unfold emit_removed. destruct (negb _); simpl; lia.
  - intros kv m. unfold emit_added. destruct (negb _); simpl; lia.
  - intros kv m. unfold emit_type_changed.
    destruct (Py.dict_get _ _); [|simpl; lia].
    cbv zeta. destruct (negb _); simpl; lia.
Qed.

(** X3. The detector reads the clock once per change it emits, and the
    changes do not depend on the clock: two runs on the same store, FQN
    and table, under any clocks and from any states of them, give the
    same list up to the times of detection. *)
Theorem detect_schema_changes_clock
    (clock1 clock2 : nat -> datetime) (self : gmap string DataContract)
    (fqn : string) (table : Table) (n1 n2 : nat) :
  let r1 := detect_schema_changes clock1 self fqn table n1 in
  let r2 := detect_schema_changes clock2 self fqn table n2 in
  snd r1 = (n1 + length (fst r1))%nat
  /\ map untimed (fst r1) = map untimed (fst r2).
Proof.
  cbv zeta. split; [apply detect_schema_changes_reads|].
  unfold detect_schema_changes.
  destruct (self !! fqn) as [contract|]; [|reflexivity].
  cbv [bind ret].
  set (current := Py.dict_of_items _).
  set (schema := schema_definition contract).
  pose proof (for_append_map untimed _ _ schema n1
                (emit_removed_untimed clock1 fqn current)) as H1.
  pose proof (for_append_map untimed _ _ schema n2
                (emit_removed_untimed clock2 fqn current)) as H1'.
  destruct (for_append (emit_removed clock1 fqn current) schema n1) as [r m1].
  destruct (for_append (emit_removed clock2 fqn current) schema n2) as [r' m1'].
  pose proof (for_append_map untimed _ _ current m1
                (emit_added_untimed clock1 fqn schema)) as H2.
  pose proof (for_append_map untimed _ _ current m1'
                (emit_added_untimed clock2 fqn schema)) as H2'.
  destruct (for_append (emit_added clock1 fqn schema) current m1) as [a m2].
  destruct (for_append (emit_added clock2 fqn schema) current m1') as [a' m2'].
  pose proof (for_append_map untimed _ _ schema m2
                (emit_type_changed_untimed clock1 fqn current)) as H3.
  pose proof (for_append_map untimed _ _ schema m2'
                (emit_type_changed_untimed clock2 fqn current)) as H3'.
  destruct (for_append (emit_type_changed clock1 fqn current) schema m2)
    as [t m3].
  destruct (for_append (emit_type_changed clock2 fqn current) schema m2')
    as [t' m3'].
  cbn [fst snd] in *. rewrite !map_app. congruence.
Qed.

(** X4. Every change the detector emits is either an addition, which is
    non-breaking, of low impact, without approval and without an old
    value, or a removal or type change, which is breaking, of high
    impact, requires approval and has an old value; so a change requires
    approval exactly when it is breaking. *)
Theorem detect_schema_changes_severity
    (wall_clock : nat -> datetime) (self : gmap string DataContract)
    (fqn : string) (table : Table) (n : nat) :
  Forall
    (fun ch =>
       sc_table_fqn ch = fqn
       /\ ((change_type ch = "added"%string
            /\ severity ch = "non-breaking"%string
            /\ impact_level ch = "low"%string
            /\ requires_approval ch = false
            /\ old_value ch = None /\ new_value ch <> None)
           \/ ((change_type ch = "removed"%string
                 \/ change_type ch = "type_changed"%string)
               /\ severity ch = "breaking"%string
               /\ impact_level ch = "high"%string
               /\ requires_approval ch = true
               /\ old_value ch <> None)))
    (fst (detect_schema_changes wall_clock self fqn table n)).
Proof.
  unfold detect_schema_changes.
  destruct (self !! fqn) as [contract|]; [|constructor].
  cbv [bind ret].
  set (current := Py.dict_of_items _).
  set (schema := schema_definition contract).
  set (P := fun ch : SchemaChange => _).
  pose proof (for_append_Forall P (emit_removed wall_clock fqn current) schema n)
    as H1.
  destruct (for_append (emit_removed wall_clock fqn current) schema n) as [r m1].
  pose proof (for_append_Forall P (emit_added wall_clock fqn schema) current m1)
    as H2.
  destruct (for_append (emit_added wall_clock fqn schema) current m1) as [a m2].
  pose proof (for_append_Forall P (emit_type_changed wall_clock fqn current)
                schema m2) as H3.
  destruct (for_append (emit_type_changed wall_clock fqn current) schema m2)
    as [t m3].
  cbn [fst snd] in *.
  repeat (apply Forall_app; split).
  - apply H1. intros kv m. unfold emit_removed.
    destruct (negb _); simpl; [|constructor].
    constructor; [|constructor]. split; [reflexivity|]. right.
    split; [left; reflexivity|]. repeat split; discriminate.
  - apply H2. intros kv m. unfold emit_added.
    destruct (negb _); simpl; [|constructor].
    constructor; [|constructor]. split; [reflexivity|]. left.
    repeat split; discriminate.
  - apply H3. intros kv m. unfold emit_type_changed.
    destruct (Py.dict_get _ _); [|constructor].
    cbv zeta. destruct (negb _); simpl; [|constructor].
    constructor; [|constructor]. split; [reflexivity|]. right.
    split; [right; reflexivity|]. repeat split; discriminate.
Qed.

Lemma unchanged_iff_no_change (fqn col : string)
    (schema : list (string * SchemaEntry)) (cols : list Column) :
  match Py.dict_get col schema, last_column_named col cols with
  | Some e, None => [removed_change fqn col e 0]
  | None, Some c => [added_change fqn col c 0]
  | Some e, Some c =>
      if String.eqb (se_dataType e) (dataType_or_unknown c) then []
      else [type_change fqn col (se_dataType e) (dataType_or_unknown c) 0]
  | None, None => []
  end = []
  <-> classify schema cols col = Unchanged.
Proof.
  unfold classify, recorded_type, current_type.
  destruct (Py.dict_get col schema) as [e|];
    destruct (last_column_named col cols) as [c|]; cbn [option_map];
    try (destruct (String.eqb (se_dataType e) (dataType_or_unknown c)));
    split; intros H; try reflexivity; discriminate.
Qed.

Lemma detect_nil_iff_unchanged
    (wall_clock : nat -> datetime) (self : gmap string DataContract)
    (fqn : string) (contract : DataContract) (table : Table) (n : nat) :
  self !! fqn = Some contract ->
  List.NoDup (map fst (schema_definition contract)) ->
  fst (detect_schema_changes wall_clock self fqn table n) = []
  <-> (forall col,
         classify (schema_definition contract) (columns table) col = Unchanged).
Proof.
  intros Hc Hnd. rewrite changes_nil_iff.
  split; intros H col; specialize (H col).
  - apply (unchanged_iff_no_change fqn).
    rewrite <- (changes_for_detect wall_clock fqn self contract table n col Hc Hnd).
    rewrite H. reflexivity.
  - apply (unchanged_iff_no_change fqn) in H.
    rewrite <- (changes_for_detect wall_clock fqn self contract table n col Hc Hnd)
      in H.
    apply map_untimed_nil, H.
Qed.

(** X5. With a contract for [fqn] whose schema definition has distinct
    keys, the detector returns the empty list exactly when every column
    name is unchanged: no name is in the contract only or in the table
    only, and no recorded data type differs from the current one. *)
Theorem detect_schema_changes_empty_iff
    (wall_clock : nat -> datetime) (self : gmap string DataContract)
    (fqn : string) (contract : DataContract) (table : Table) (n : nat) :
  self !! fqn = Some contract ->
  List.NoDup (map fst (schema_definition contract)) ->
  fst (detect_schema_changes wall_clock self fqn table n) = []
  <-> (forall col,
         classify (schema_definition contract) (columns table) col = Unchanged).
Proof. apply detect_nil_iff_unchanged. Qed.

Lemma detect_schema_changes_empty_iff_witness :
  classify (schema_definition Sample.orders_contract) (columns Sample.orders)
    "customer_email" = Unchanged.
Proof.
  refine (proj1 (detect_schema_changes_empty_iff Sample.ticking Sample.store
                   "Deliver.raw.orders" Sample.orders_contract Sample.orders
                   0%nat _ _) _ "customer_email"%string).
  - vm_compute. reflexivity.
  - simpl. repeat constructor; simpl; intuition discriminate.
  - vm_compute. reflexivity.
Defined.

(** X6. A contract just made by [create_contract] from a table shows no
    drift against that table: the detector, run on the store after the
    creation and on the same table, returns the empty list and does not
    read the clock, whatever the columns of the table (repeated names and
    unset data types included) and whatever the store held before. *)
Theorem create_then_detect_no_change
    (clock1 clock2 : nat -> datetime) (md5_hexdigest : string -> string)
    (self : gmap string DataContract) (table : Table)
    (owner_ classification_ description_ business_purpose_ : string)
    (quality_rules_ : option (list (list (string * string))))
    (sla_hours : Z) (contains_pii_ : bool) (n m : nat) :
  let self' :=
    snd (fst (create_contract clock1 md5_hexdigest self table owner_
                classification_ description_ business_purpose_ quality_rules_
                sla_hours contains_pii_ n)) in
  detect_schema_changes clock2 self' (fqn_of table) table m = ([], m).
Proof.
  cbv zeta.
  set (r := create_contract clock1 md5_hexdigest self table owner_
              classification_ description_ business_purpose_ quality_rules_
              sla_hours contains_pii_ n).
  assert (Hc : snd (fst r) !! fqn_of table = Some (fst (fst r)))
    by apply lookup_insert_eq.
  assert (Hschema : schema_definition (fst (fst r))
                    = Py.dict_of_items
                        (map (fun c => (col_name c, schema_entry_of c))
                           (columns table))) by reflexivity.
  assert (Hnd : List.NoDup (map fst (schema_definition (fst (fst r))))).
  { rewrite Hschema. apply dict_of_items_NoDup. }
  assert (Hnil : fst (detect_schema_changes clock2 (snd (fst r)) (fqn_of table)
                        table m) = []).
  { apply (detect_nil_iff_unchanged clock2 _ _ _ table m Hc Hnd).
    intros col. unfold classify. rewrite Hschema, snapshot_recorded_type.
    destruct (current_type (columns table) col); [|reflexivity].
    rewrite String.eqb_refl. reflexivity. }
  pose proof (detect_schema_changes_reads clock2 (snd (fst r)) (fqn_of table)
                table m) as Hreads.
  destruct (detect_schema_changes clock2 (snd (fst r)) (fqn_of table) table m)
    as [changes m'].
  cbn [fst snd] in Hnil, Hreads. subst changes. rewrite Hreads.
  cbn [length]. f_equal. lia.
Qed.

(** ** Contract store: consumers and the audit log *)

Lemma existsb_eqb_In (x : string) (l : list string) :
  existsb (String.eqb x) l = true <-> In x l.
Proof.
  rewrite existsb_exists. split.
  - intros (y & Hin & E). apply String.eqb_eq in E. subst. exact Hin.
  - intros Hin. exists x. split; [exact Hin | apply String.eqb_refl].
Qed.

Lemma existsb_eqb_app_self (x : string) (l : list string) :
  existsb (String.eqb x) (l ++ [x]) = true.
Proof. apply existsb_eqb_In, in_or_app. right. left. reflexivity. Qed.

Lemma NoDup_snoc {A} (x : A) (l : list A) :
  List.NoDup l -> ~ In x l -> List.NoDup (l ++ [x]).
Proof.
  induction 1 as [|y l Hy Hl IH]; simpl; intros Hx.
  - constructor; [intros [] | constructor].
  - constructor.
    + rewrite in_app_iff. simpl. intuition congruence.
    + apply IH. tauto.
Qed.

(** X7. Registering a consumer is idempotent: a second call with the same
    FQN, name and contact returns what the first returned and leaves the
    store and the clock as the first call left them. *)
Theorem register_consumer_idempotent
    (wall_clock : nat -> datetime) (self : gmap string DataContract)
    (fqn consumer_name consumer_contact : string) (n : nat) :
  let r := register_consumer wall_clock self fqn consumer_name
             consumer_contact n in
  register_consumer wall_clock (snd (fst r)) fqn consumer_name
    consumer_contact (snd r)
  = r.
Proof.
  cbv zeta. unfold register_consumer at 2 3 4.
  destruct (self !! fqn) as [c|] eqn:Hc.
  - destruct (existsb _ (registered_consumers c)) eqn:Hin; cbn [negb].
    + cbv [ret fst snd]. unfold register_consumer. rewrite Hc, Hin. reflexivity.
    + cbv [bind now ret fst snd]. unfold register_consumer.
      rewrite lookup_insert_eq. cbn [registered_consumers with_change_log
                                     with_registered_consumers].
      rewrite existsb_eqb_app_self. reflexivity.
  - cbv [ret fst snd]. unfold register_consumer. rewrite Hc. reflexivity.
Qed.

(** X8. On an FQN with a contract whose consumer list has no duplicate,
    [register_consumer] returns [True]; afterwards the list still has no
    duplicate and holds the old consumers and ["name (contact)"], and the
    change log has gained one [consumer_registered] entry if the consumer
    is new and nothing if it was registered already. *)
Theorem register_consumer_keeps_distinct
    (wall_clock : nat -> datetime) (self : gmap string DataContract)
    (fqn consumer_name consumer_contact : string) (n : nat)
    (c : DataContract) :
  self !! fqn = Some c ->
  List.NoDup (registered_consumers c) ->
  let r := register_consumer wall_clock self fqn consumer_name
             consumer_contact n in
  let info := consumer_info consumer_name consumer_contact in
  fst (fst r) = true
  /\ exists c',
       snd (fst r) !! fqn = Some c'
       /\ List.NoDup (registered_consumers c')
       /\ (forall x, In x (registered_consumers c')
                     <-> x = info \/ In x (registered_consumers c))
       /\ ((In info (registered_consumers c)
            /\ c' = c /\ snd r = n)
           \/ (~ In info (registered_consumers c)
               /\ registered_consumers c' = registered_consumers c ++ [info]
               /\ change_log c'
                  = change_log c
                    ++ [ {| log_timestamp := wall_clock n;
                            log_action := "consumer_registered";
                            log_user := consumer_contact;
                            log_details :=
                              "Consumer registered: " +:+ consumer_name;
                            log_notes := None |} ]
               /\ snd r = S n)).
Proof.
  intros Hc Hnd. cbv zeta. unfold register_consumer, consumer_info. rewrite Hc.
  set (info := consumer_name +:+ " (" +:+ consumer_contact +:+ ")").
  destruct (existsb (String.eqb info) (registered_consumers c)) eqn:Hin;
    cbn [negb].
  - apply existsb_eqb_In in Hin. cbv [ret fst snd].
    split; [reflexivity|]. exists c. repeat apply conj.
    + exact Hc.
    + exact Hnd.
    + intros x. split; [tauto|]. intros [->|H]; assumption.
    + left. repeat split. exact Hin.
  - assert (Hnot : ~ In info (registered_consumers c)).
    { intros H. apply existsb_eqb_In in H. congruence. }
    cbv [bind now ret fst snd].
    split; [reflexivity|]. eexists. repeat apply conj.
    + apply lookup_insert_eq.
    + cbn [registered_consumers with_change_log with_registered_consumers].
      apply NoDup_snoc; assumption.
    + intros x.
      cbn [registered_consumers with_change_log with_registered_consumers].
      rewrite in_app_iff. simpl. intuition.
    + right. repeat split. exact Hnot.
Qed.

Lemma register_consumer_keeps_distinct_witness :
  exists c',
    snd (fst (register_consumer Sample.ticking Sample.store
                "Deliver.raw.orders" "Audit" "audit@company.com" 0%nat))
      !! "Deliver.raw.orders"%string = Some c'
    /\ List.NoDup (registered_consumers c').
Proof.
  destruct (register_consumer_keeps_distinct Sample.ticking Sample.store
              "Deliver.raw.orders" "Audit" "audit@company.com" 0%nat
              Sample.orders_contract) as (_ & c' & Hc' & Hnd & _).
  - vm_compute. reflexivity.
  - simpl. repeat constructor; simpl; intuition discriminate.
  - exists c'. split; assumption.
Defined.

Lemma evolves_refl (c : DataContract) : evolves c c.
Proof.
  repeat split; exists []; rewrite app_nil_r; reflexivity.
Qed.

Lemma store_evolves_refl (self : gmap string DataContract) :
  store_evolves self self.
Proof.
  intros k. destruct (self !! k); [apply evolves_refl | exact I].
Qed.

Lemma store_evolves_insert (self : gmap string DataContract) (fqn : string)
    (c c' : DataContract) :
  self !! fqn = Some c -> evolves c c' ->
  store_evolves self (<[fqn := c']> self).
Proof.
  intros Hc He k. destruct (decide (fqn = k)) as [<-|Hne].
  - rewrite lookup_insert_eq, Hc. exact He.
  - rewrite lookup_insert_ne by exact Hne.
    destruct (self !! k); [apply evolves_refl | exact I].
Qed.

(** X9. Status updates and consumer registrations never add or remove a
    contract, and on every contract they keep the identifier, the FQN,
    the creation date and the schema snapshot and only append to the
    change log and to the approval history. *)
Theorem store_operations_append_only
    (wall_clock : nat -> datetime) (self : gmap string DataContract)
    (fqn new_status user notes consumer_name consumer_contact : string)
    (n : nat) :
  store_evolves self
    (snd (fst (update_contract_status wall_clock self fqn new_status user
                 notes n)))
  /\ store_evolves self
       (snd (fst (register_consumer wall_clock self fqn consumer_name
                    consumer_contact n))).
Proof.
  split.
  - unfold update_contract_status.
    destruct (self !! fqn) as [contract|] eqn:Hc;
      [|apply store_evolves_refl].
    cbv [bind now ret].
    destruct (String.eqb new_status "active"); cbn [fst snd];
      apply (store_evolves_insert _ _ contract); try exact Hc;
      repeat split; cbn; eauto; try (exists []; rewrite app_nil_r; reflexivity).
  - unfold register_consumer.
    destruct (self !! fqn) as [contract|] eqn:Hc;
      [|apply store_evolves_refl].
    destruct (negb _); [|apply store_evolves_refl].
    cbv [bind now ret]. cbn [fst snd].
    apply (store_evolves_insert _ _ contract); try exact Hc.
    repeat split; cbn; eauto; exists []; rewrite app_nil_r; reflexivity.
Qed.

(** ** Governance gaps and metrics: further properties *)

(** The five lists after the loop over the tables, from any start. *)
Lemma gaps_fold (contracts : gmap string DataContract) (tables : list Table)
    (g : Gaps) :
  let g' := fold_left (gaps_step contracts) tables g in
  no_owner g'
  = no_owner g
    ++ map fqn_of (List.filter (fun t => negb (has_owner t)) tables)
  /\ no_description g'
     = no_description g
       ++ map fqn_of
            (List.filter (fun t => negb (Py.truthy_str (description t))) tables)
  /\ no_classification g'
     = no_classification g
       ++ map fqn_of
            (List.filter (fun t => negb (Py.truthy_list (tags t))) tables)
  /\ no_contract g'
     = no_contract g
       ++ map fqn_of
            (List.filter (fun t => not_in contracts (fqn_of t)) tables)
  /\ contains_pii_unclassified g'
     = contains_pii_unclassified g
       ++ map fqn_of
            (List.filter
               (fun t => mentions_pii (tags t) && not_in contracts (fqn_of t))
               tables).
Proof.
  cbv zeta. revert g.
  induction tables as [|t tables IH]; intros g; simpl.
  - rewrite !app_nil_r. repeat split.
  - destruct (IH (gaps_step contracts g t)) as (H1 & H2 & H3 & H4 & H5).
    rewrite H1, H2, H3, H4, H5. unfold gaps_step.
    cbn [no_owner no_description no_classification no_contract
         contains_pii_unclassified].
    unfold mentions_pii.
    repeat apply conj.
    + destruct (negb (has_owner t)); simpl;
        [rewrite <- app_assoc|]; reflexivity.
    + destruct (negb (Py.truthy_str (description t))); simpl;
        [rewrite <- app_assoc|]; reflexivity.
    + destruct (negb (Py.truthy_list (tags t))); simpl;
        [rewrite <- app_assoc|]; reflexivity.
    + destruct (not_in contracts (fqn_of t)); simpl;
        [rewrite <- app_assoc|]; reflexivity.
    + destruct (Py.contains "PII" (Py.str_list_of_dicts (tags t))
                && not_in contracts (fqn_of t)); simpl;
        [rewrite <- app_assoc|]; reflexivity.
Qed.

(** X10. The five gap lists of [identify_governance_gaps] are, in table
    order and with repetitions, the FQNs of the tables without an owner
    name, without a description, without a tag, without a contract for
    their FQN, and of the tables without a contract whose own tag list
    prints with ["PII"] in it (a table without an FQN is listed as
    [""]). *)
Theorem identify_governance_gaps_lists
    (tables : list Table) (contracts : gmap string DataContract) :
  let gaps := identify_governance_gaps tables contracts in
  no_owner gaps
  = map fqn_of (List.filter (fun t => negb (has_owner t)) tables)
  /\ no_description gaps
     = map fqn_of
         (List.filter (fun t => negb (Py.truthy_str (description t))) tables)
  /\ no_classification gaps
     = map fqn_of
         (List.filter (fun t => negb (Py.truthy_list (tags t))) tables)
  /\ no_contract gaps
     = map fqn_of
         (List.filter (fun t => not_in contracts (fqn_of t)) tables)
  /\ contains_pii_unclassified gaps
     = map fqn_of
         (List.filter
            (fun t => mentions_pii (tags t) && not_in contracts (fqn_of t))
            tables).
Proof.
  cbv zeta. unfold identify_governance_gaps.
  destruct (gaps_fold contracts tables
              {| no_owner := []; no_description := [];
                 no_classification := []; no_contract := [];
                 contains_pii_unclassified := [] |})
    as (H1 & H2 & H3 & H4 & H5).
  repeat split; assumption.
Qed.

Lemma count_where_complement {A} (p : A -> bool) (l : list A) :
  (count_where p l + count_where (fun x => negb (p x)) l = Py.len l)%Z.
Proof.
  unfold count_where, Py.len.
  induction l as [|x l IH]; simpl; [reflexivity|].
  destruct (p x); simpl; lia.
Qed.

Lemma filter_and_incl {A} (p q : A -> bool) (l : list A) :
  incl (List.filter (fun x => p x && q x) l) (List.filter q l).
Proof.
  intros x Hx. apply filter_In in Hx. destruct Hx as [Hin Hpq].
  apply andb_true_iff in Hpq. apply filter_In. tauto.
Qed.

(** X11. The gap lists and the metrics of one population agree: the
    tables without owner, description or tag are those the owned,
    documented and classified counts leave out of the total, and every
    entry of the PII gap list is also on the no-contract list. *)
Theorem gaps_complement_metrics
    (tables : list Table) (contracts : gmap string DataContract) :
  let gaps := identify_governance_gaps tables contracts in
  let m := calculate_governance_metrics tables contracts in
  (Py.len (no_owner gaps) + owned_assets m = total_assets m)%Z
  /\ (Py.len (no_description gaps) + documented_assets m = total_assets m)%Z
  /\ (Py.len (no_classification gaps) + classified_assets m = total_assets m)%Z
  /\ incl (contains_pii_unclassified gaps) (no_contract gaps).
Proof.
  cbv zeta. unfold identify_governance_gaps.
  destruct (gaps_fold contracts tables
              {| no_owner := []; no_description := [];
                 no_classification := []; no_contract := [];
                 contains_pii_unclassified := [] |})
    as (H1 & H2 & H3 & H4 & H5).
  cbn [no_owner no_description no_classification no_contract
       contains_pii_unclassified app] in H1, H2, H3, H4, H5.
  rewrite H1, H2, H3, H4, H5.
  unfold calculate_governance_metrics.
  cbn [owned_assets documented_assets classified_assets total_assets].
  rewrite !sum_ones_for.
  repeat apply conj.
  - rewrite <- (count_where_complement has_owner tables).
    unfold count_where, Py.len. rewrite List.length_map. lia.
  - rewrite <- (count_where_complement
                  (fun t => Py.truthy_str (description t)) tables).
    unfold count_where, Py.len. rewrite List.length_map. lia.
  - rewrite <- (count_where_complement
                  (fun t => Py.truthy_list (tags t)) tables).
    unfold count_where, Py.len. rewrite List.length_map. lia.
  - apply incl_map. apply filter_and_incl.
Qed.

Lemma count_where_bounds {A} (p : A -> bool) (l : list A) :
  (0 <= count_where p l <= Py.len l)%Z.
Proof.
  pose proof (count_where_complement p l).
  unfold count_where in *. lia.
Qed.

Lemma coverage_bounds (count total : Z) :
  (0 <= count <= total)%Z -> (0 <= coverage count total <= 100)%Q.
Proof.
  intros [H0 Hle]. unfold coverage.
  destruct (Z.ltb_spec 0 total) as [Hpos|Hneg]; [|lra].
  assert (Hw : (0 < inject_Z total)%Q) by (unfold Qlt; simpl; lia).
  assert (Hp : (0 <= inject_Z count)%Q) by (unfold Qle; simpl; lia).
  assert (Hpw : (inject_Z count <= inject_Z total)%Q) by (unfold Qle; simpl; lia).
  assert (Hlo : (0 <= inject_Z count / inject_Z total)%Q).
  { apply Qle_shift_div_l; [exact Hw | lra]. }
  assert (Hhi : (inject_Z count / inject_Z total <= 1)%Q).
  { apply Qle_shift_div_r; [exact Hw | lra]. }
  lra.
Qed.

(** X12. On the metrics of any population the ownership, documentation,
    classification and compliance percentages lie between 0 and 100: the
    four counts are counts of tables, at most the total. *)
Theorem governance_coverage_bounds
    (tables : list Table) (contracts : gmap string DataContract) :
  let m := calculate_governance_metrics tables contracts in
  (0 <= ownership_coverage m <= 100
   /\ 0 <= documentation_coverage m <= 100
   /\ 0 <= classification_coverage m <= 100
   /\ 0 <= compliance_rate m <= 100)%Q.
Proof.
  cbv zeta.
  unfold ownership_coverage, documentation_coverage, classification_coverage,
    compliance_rate, calculate_governance_metrics.
  cbn [owned_assets documented_assets classified_assets compliant_assets
       total_assets].
  rewrite !sum_ones_for.
  repeat apply conj; apply coverage_bounds; apply count_where_bounds.
Qed.

(** ** Component scores: upper bounds and special cases *)

Local Open Scope Q_scope.

Lemma result_le_score (t : Tally) : fst (fst (result t)) <= score t.
Proof.
  unfold result, Py.min. cbn [fst].
  destruct (Qle_bool (score t) 100) eqn:E; [apply Qle_refl|].
  apply Qle_bool_false in E. lra.
Qed.

(** Steps that close a goal [score t <= b] or [b <= score t] for a tally
    built by the scorers: split on every test, then add up. *)
Ltac tally_cases :=
  repeat match goal with
         | |- context [if ?b then _ else _] => destruct b eqn:?
         | |- context [match ?x with Some _ => _ | None => _ end] =>
             destruct x eqn:?
         end;
  cbn [score add set_score improve strong start];
  try lra.

Lemma data_quality_without_contract (table : Table)
    (contracts : gmap string DataContract) :
  contracts !! fqn_of table = None ->
  fst (fst (calculate_data_quality_score table contracts)) <= 70.
Proof.
  intros Hnone. unfold calculate_data_quality_score. rewrite Hnone.
  eapply Qle_trans; [apply result_le_score|].
  destruct (Py.truthy_list (columns table)) eqn:Hcols.
  - pose proof (coverage30_filter_bounds dataType_not_blank (columns table)
                  (truthy_list_nonempty _ Hcols)) as [_ Hhi].
    tally_cases.
  - tally_cases.
Qed.

Lemma documentation_without_contract (table : Table)
    (contracts : gmap string DataContract) :
  contracts !! fqn_of table = None ->
  fst (fst (calculate_documentation_score table contracts)) <= 85.
Proof.
  intros Hnone. unfold calculate_documentation_score. rewrite Hnone.
  eapply Qle_trans; [apply result_le_score|].
  destruct (Py.truthy_list (columns table)) eqn:Hcols.
  - pose proof (coverage30_filter_bounds
                  (fun c => Py.truthy_str (col_description c)) (columns table)
                  (truthy_list_nonempty _ Hcols)) as [_ Hhi].
    tally_cases.
  - tally_cases.
Qed.

Lemma lineage_without_contract (table : Table)
    (contracts : gmap string DataContract) :
  contracts !! fqn_of table = None ->
  fst (fst (calculate_lineage_usage_score table contracts)) <= 30.
Proof.
  intros Hnone. unfold calculate_lineage_usage_score. rewrite Hnone.
  eapply Qle_trans; [apply result_le_score|]. tally_cases.
Qed.

Lemma security_without_contract (table : Table)
    (contracts : gmap string DataContract) :
  contracts !! fqn_of table = None ->
  fst (fst (calculate_security_compliance_score table contracts)) <= 70.
Proof.
  intros Hnone. unfold calculate_security_compliance_score. rewrite Hnone.
  eapply Qle_trans; [apply result_le_score|]. tally_cases.
Qed.

Lemma contract_availability_without_contract (table : Table)
    (contracts : gmap string DataContract) :
  contracts !! fqn_of table = None ->
  calculate_contract_availability_score table contracts
  = (0, ["Create data contract"%string], []).
Proof.
  intros Hnone. unfold calculate_contract_availability_score.
  rewrite Hnone. reflexivity.
Qed.

(** The composite recorded in a trust score is the weighted sum of the
    components recorded beside it. *)
Lemma trust_score_composite
    (wall_clock : Host) (table : Table)
    (contracts : gmap string DataContract) (n : nat) :
  let ts := fst (calculate_trust_score wall_clock table contracts n) in
  composite_trust_score ts
  = composite_of (data_quality_score ts) (contract_availability_score ts)
      (freshness_score ts) (documentation_score ts) (lineage_usage_score ts)
      (security_compliance_score ts).
Proof.
  unfold calculate_trust_score. cbv zeta.
  destruct (calculate_data_quality_score table contracts) as [[q qi] qs].
  destruct (calculate_contract_availability_score table contracts) as [[c ci] cs].
  destruct (calculate_documentation_score table contracts) as [[d di] ds].
  destruct (calculate_lineage_usage_score table contracts) as [[l li] ls].
  destruct (calculate_security_compliance_score table contracts) as [[s si] ss].
  cbv [bind].
  destruct (calculate_freshness_score wall_clock table n) as [[[f fi] fs] n'].
  reflexivity.
Qed.

(** The components recorded in a trust score lie between 0 and 100. *)
Lemma trust_score_component_bounds
    (wall_clock : Host) (table : Table)
    (contracts : gmap string DataContract) (n : nat) :
  let ts := fst (calculate_trust_score wall_clock table contracts n) in
  0 <= data_quality_score ts <= 100
  /\ 0 <= contract_availability_score ts <= 100
  /\ 0 <= freshness_score ts <= 100
  /\ 0 <= documentation_score ts <= 100
  /\ 0 <= lineage_usage_score ts <= 100
  /\ 0 <= security_compliance_score ts <= 100.
Proof.
  cbv zeta.
  destruct (trust_score_components wall_clock table contracts n)
    as (-> & -> & -> & -> & -> & -> & _).
  split; [apply data_quality_score_bounds|].
  split; [apply contract_availability_score_bounds|].
  split; [apply freshness_score_bounds|].
  split; [apply documentation_score_bounds|].
  split; [apply lineage_usage_score_bounds|].
  apply security_compliance_score_bounds.
Qed.

Lemma composite_of_upper (a b c d e f a' b' c' d' e' f' : Q) :
  a <= a' -> b <= b' -> c <= c' -> d <= d' -> e <= e' -> f <= f' ->
  composite_of a b c d e f <= composite_of a' b' c' d' e' f'.
Proof.
  intros. unfold composite_of.
  cbv [weight WEIGHTS Py.dict_get String.eqb Ascii.eqb Bool.eqb].
  simpl. lra.
Qed.

(** X13. Without a contract for its FQN a table scores at most 70 on data
    quality, 0 on contract availability, 85 on documentation, 30 on
    lineage and usage and 70 on security and compliance; its composite is
    at most 56.75 and its tier is Bronze or Needs Attention, never
    Silver, Gold or Platinum. *)
Theorem no_contract_caps_tier
    (wall_clock : Host) (table : Table)
    (contracts : gmap string DataContract) (n : nat) :
  contracts !! fqn_of table = None ->
  let ts := fst (calculate_trust_score wall_clock table contracts n) in
  data_quality_score ts <= 70
  /\ contract_availability_score ts == 0
  /\ documentation_score ts <= 85
  /\ lineage_usage_score ts <= 30
  /\ security_compliance_score ts <= 70
  /\ composite_trust_score ts <= 5675 # 100
  /\ (trust_level ts = "Bronze"%string
      \/ trust_level ts = "Needs Attention"%string).
Proof.
  intros Hnone. cbv zeta.
  pose proof (trust_score_composite wall_clock table contracts n) as Hcomp.
  pose proof (trust_score_component_bounds wall_clock table contracts n)
    as (Hq & Hc & Hf & Hd & Hl & Hs).
  destruct (trust_score_components wall_clock table contracts n)
    as (Eq & Ec & Ef & Ed & El & Es & Elevel).
  cbv zeta in *.
  set (ts := fst (calculate_trust_score wall_clock table contracts n)) in *.
  assert (Bq : data_quality_score ts <= 70)
    by (rewrite Eq; apply data_quality_without_contract, Hnone).
  assert (Bc : contract_availability_score ts == 0)
    by (rewrite Ec, (contract_availability_without_contract _ _ Hnone);
        reflexivity).
  assert (Bd : documentation_score ts <= 85)
    by (rewrite Ed; apply documentation_without_contract, Hnone).
  assert (Bl : lineage_usage_score ts <= 30)
    by (rewrite El; apply lineage_without_contract, Hnone).
  assert (Bs : security_compliance_score ts <= 70)
    by (rewrite Es; apply security_without_contract, Hnone).
  assert (Bcomp : composite_trust_score ts <= 5675 # 100).
  { rewrite Hcomp.
    eapply Qle_trans;
      [apply (composite_of_upper _ _ _ _ _ _ 70 0 100 85 30 70);
       try assumption; try tauto; lra|].
    vm_compute. discriminate. }
  assert (B0 : 0 <= composite_trust_score ts).
  { rewrite Hcomp. apply composite_of_bounds; assumption. }
  repeat apply conj; try assumption.
  rewrite Elevel. unfold trust_level_of.
  destruct (trust_level_of_cases (composite_trust_score ts) B0)
    as [[? E]|[(? & ? & E)|[(? & ? & E)|[(? & ? & E)|[? E]]]]];
    try lra; rewrite E; auto.
Qed.

Lemma no_contract_caps_tier_witness :
  composite_trust_score
    (fst (calculate_trust_score Sample.ticking Sample.customers ∅ 0%nat))
  <= 5675 # 100.
Proof.
  apply (no_contract_caps_tier Sample.ticking Sample.customers ∅ 0%nat).
  reflexivity.
Defined.

Lemma min_100_ge (b s : Q) : b <= 100 -> b <= s -> b <= Py.min s 100.
Proof.
  intros Hb Hs. unfold Py.min. destruct (Qle_bool s 100); assumption.
Qed.

(** X14. The contract-availability score is 0 exactly when the table has
    no contract for its FQN, and at least 40 otherwise: the existence of
    a contract alone is worth 40 points, whatever its status. *)
Theorem contract_availability_zero_iff
    (table : Table) (contracts : gmap string DataContract) :
  let s := fst (fst (calculate_contract_availability_score table contracts)) in
  (s == 0 <-> contracts !! fqn_of table = None)
  /\ (s == 0 \/ 40 <= s).
Proof.
  cbv zeta. unfold calculate_contract_availability_score.
  destruct (contracts !! fqn_of table) as [contract|].
  - match goal with
    | |- context [result ?t] => assert (H40 : 40 <= fst (fst (result t)))
    end.
    { unfold result. cbn [fst].
      apply min_100_ge; [lra|].
      pose proof (status_score_nonneg (status contract)) as Hst.
      tally_cases. }
    cbv zeta in H40. split.
    + split; [|discriminate]. intros H0. rewrite H0 in H40. lra.
    + right. exact H40.
  - cbn [fst]. split; [|left; reflexivity]. split; reflexivity.
Qed.

(** ** Freshness: monotonicity *)

Lemma freshness_ladder_le_100 (h : Q) : score (freshness_ladder h start) <= 100.
Proof. unfold freshness_ladder. tally_cases. Qed.

Lemma freshness_ladder_antitone (h1 h2 : Q) :
  h2 <= h1 ->
  score (freshness_ladder h1 start) <= score (freshness_ladder h2 start).
Proof.
  intros Hle. unfold freshness_ladder.
  repeat match goal with
         | |- context [Qle_bool ?a ?b] =>
             let E := fresh "E" in
             destruct (Qle_bool a b) eqn:E;
             [apply Qle_bool_iff in E | apply Qle_bool_false in E]
         end;
    cbn [score add set_score improve strong start]; lra.
Qed.

Lemma hours_between_antitone (current u1 u2 : datetime) :
  (u1 <= u2)%Z -> hours_between current u2 <= hours_between current u1.
Proof.
  intros Hle. unfold hours_between, Qle, Qdiv, Qmult, Qinv, inject_Z.
  simpl. lia.
Qed.

(** X15. Freshness is monotone in the local datetime of the update: of
    two tables whose timestamps are non-zero and converted by the host,
    scored at the same reading of the clock, the one whose timestamp the
    host converts to the later local datetime scores at least as much.
    (The later local datetime is the later update wherever the host's
    offset from UTC does not fall between the two.) *)
Theorem freshness_monotone
    (wall_clock : Host) (older newer : Table)
    (u1 u2 : datetime) (n : nat) :
  Py.truthy (updatedAt older) = true ->
  Py.truthy (updatedAt newer) = true ->
  fromtimestamp_ms wall_clock (updatedAt older) = Some u1 ->
  fromtimestamp_ms wall_clock (updatedAt newer) = Some u2 ->
  (u1 <= u2)%Z ->
  fst (fst (fst (calculate_freshness_score wall_clock older n)))
  <= fst (fst (fst (calculate_freshness_score wall_clock newer n))).
Proof.
  intros T1 T2 P1 P2 Hle. unfold calculate_freshness_score.
  rewrite T1, T2, P1, P2. cbv [bind now ret negb]. cbn [fst snd].
  unfold result. cbn [fst].
  rewrite !min_100_id by apply freshness_ladder_le_100.
  apply freshness_ladder_antitone, hours_between_antitone, Hle.
Qed.

Lemma freshness_monotone_witness :
  fst (fst (fst (calculate_freshness_score Sample.minute_later
                   Scenario.stale 0%nat)))
  <= fst (fst (fst (calculate_freshness_score Sample.minute_later
                      Scenario.recent 0%nat))).
Proof.
  apply (freshness_monotone Sample.minute_later Scenario.stale Scenario.recent
           ((Sample.updated_ms - 200 * 3600 * 1000) * 1000)%Z
           ((Sample.updated_ms - 30 * 3600 * 1000) * 1000)%Z 0%nat);
    try reflexivity.
  vm_compute. discriminate.
Defined.

(** X27. The score follows the local wall-clock difference, not the time
    elapsed: on a host of Central Europe, a table updated at
    2001-03-25T00:30:00Z and scored fifty minutes later, at
    2001-03-25T01:20:00Z, after the clocks have moved from 02:00 to
    03:00, is 1 hour 50 minutes old by the local datetimes (01:30 and
    03:20) and scores 95 with the six-hour strength, not the 100 of an
    update within the last hour. *)
Theorem freshness_across_clock_change :
  let updated := 985480200000%Z in
  let read_at := 985483200000000%Z in
  updatedAt Scenario.before_change = Py.Int updated
  /\ (read_at - updated * 1000 = 50 * 60 * 1000000)%Z
  /\ hours_between read_at (updated * 1000)%Z <= 1
  /\ fst (calculate_freshness_score (Sample.cet_host (fun _ => read_at))
            Scenario.before_change 0%nat)
     = (95, [], ["Data updated within last 6 hours"%string]).
Proof.
  cbv zeta. split; [reflexivity|]. split; [reflexivity|].
  split; [vm_compute; discriminate|]. vm_compute. reflexivity.
Qed.

(** ** The stale, ungoverned table *)

Lemma documentation_bare (table : Table) (contracts : gmap string DataContract) :
  contracts !! fqn_of table = None ->
  has_owner table = false -> description table = ""%string -> tags table = [] ->
  fst (fst (calculate_documentation_score table contracts)) <= 30.
Proof.
  intros Hnone Ho Hd Ht. unfold calculate_documentation_score.
  rewrite Hnone, Ho, Hd, Ht.
  eapply Qle_trans; [apply result_le_score|].
  destruct (Py.truthy_list (columns table)) eqn:Hcols.
  - pose proof (coverage30_filter_bounds
                  (fun c => Py.truthy_str (col_description c)) (columns table)
                  (truthy_list_nonempty _ Hcols)) as [_ Hhi].
    cbn [Py.truthy_str Py.truthy_list andb]. tally_cases.
  - cbn [Py.truthy_str Py.truthy_list andb]. tally_cases.
Qed.

Lemma security_bare (table : Table) (contracts : gmap string DataContract) :
  contracts !! fqn_of table = None ->
  has_owner table = false -> tags table = [] ->
  fst (fst (calculate_security_compliance_score table contracts)) <= 20.
Proof.
  intros Hnone Ho Ht. unfold calculate_security_compliance_score.
  rewrite Hnone, Ho, Ht.
  eapply Qle_trans; [apply result_le_score|].
  cbn [find_classification truthy_opt_str]. tally_cases.
Qed.

Lemma freshness_stale (wall_clock : Host) (table : Table)
    (u : datetime) (n : nat) :
  Py.truthy (updatedAt table) = true ->
  fromtimestamp_ms wall_clock (updatedAt table) = Some u ->
  168 < hours_between (wall_clock n) u ->
  fst (fst (fst (calculate_freshness_score wall_clock table n))) == 20.
Proof.
  intros T P Hold. unfold calculate_freshness_score.
  rewrite T, P. cbv [bind now ret negb]. cbn [fst snd].
  unfold result. cbn [fst].
  destruct (freshness_ladder_score (hours_between (wall_clock n) u) start)
    as (_ & _ & _ & _ & _ & H6).
  rewrite (H6 Hold). reflexivity.
Qed.

(** X16. A table with no contract, no owner name, no description and no
    tag, whose non-zero timestamp the host converts to a local datetime
    more than 168 hours before the reading of its clock, scores 0 on
    contract availability, 20 on freshness, at most 30 on documentation
    (its documented columns) and at most 20 on security; its composite is
    at most 31.5 and its tier is Needs Attention, whatever its columns
    and row count. *)
Theorem stale_ungoverned_needs_attention
    (wall_clock : Host) (table : Table)
    (contracts : gmap string DataContract) (u : datetime) (n : nat) :
  contracts !! fqn_of table = None ->
  has_owner table = false ->
  description table = ""%string ->
  tags table = [] ->
  Py.truthy (updatedAt table) = true ->
  fromtimestamp_ms wall_clock (updatedAt table) = Some u ->
  168 < hours_between (wall_clock n) u ->
  let ts := fst (calculate_trust_score wall_clock table contracts n) in
  contract_availability_score ts == 0
  /\ freshness_score ts == 20
  /\ documentation_score ts <= 30
  /\ security_compliance_score ts <= 20
  /\ composite_trust_score ts <= 315 # 10
  /\ trust_level ts = "Needs Attention"%string.
Proof.
  intros Hnone Ho Hd Ht T P Hold. cbv zeta.
  pose proof (trust_score_composite wall_clock table contracts n) as Hcomp.
  pose proof (trust_score_component_bounds wall_clock table contracts n)
    as (Hq & Hc & Hf & Hdoc & Hl & Hs).
  destruct (trust_score_components wall_clock table contracts n)
    as (Eq & Ec & Ef & Ed & El & Es & Elevel).
  cbv zeta in *.
  set (ts := fst (calculate_trust_score wall_clock table contracts n)) in *.
  assert (Bq : data_quality_score ts <= 70)
    by (rewrite Eq; apply data_quality_without_contract, Hnone).
  assert (Bc : contract_availability_score ts == 0)
    by (rewrite Ec, (contract_availability_without_contract _ _ Hnone);
        reflexivity).
  assert (Bf : freshness_score ts == 20)
    by (rewrite Ef; apply (freshness_stale wall_clock table u n T P Hold)).
  assert (Bd : documentation_score ts <= 30)
    by (rewrite Ed; apply documentation_bare; assumption).
  assert (Bl : lineage_usage_score ts <= 30)
    by (rewrite El; apply lineage_without_contract, Hnone).
  assert (Bs : security_compliance_score ts <= 20)
    by (rewrite Es; apply security_bare; assumption).
  assert (Bcomp : composite_trust_score ts <= 315 # 10).
  { rewrite Hcomp.
    eapply Qle_trans;
      [apply (composite_of_upper _ _ _ _ _ _ 70 0 20 30 30 20);
       try assumption; lra|].
    vm_compute. discriminate. }
  assert (B0 : 0 <= composite_trust_score ts).
  { rewrite Hcomp. apply composite_of_bounds; assumption. }
  repeat apply conj; try assumption.
  rewrite Elevel. unfold trust_level_of.
  destruct (trust_level_of_cases (composite_trust_score ts) B0)
    as [[? E]|[(? & ? & E)|[(? & ? & E)|[(? & ? & E)|[? E]]]]];
    try lra; rewrite E; reflexivity.
Qed.

Lemma stale_ungoverned_needs_attention_witness :
  trust_level
    (fst (calculate_trust_score Sample.minute_later Scenario.stale ∅ 0%nat))
  = "Needs Attention"%string.
Proof.
  apply (stale_ungoverned_needs_attention Sample.minute_later Scenario.stale ∅
           ((Sample.updated_ms - 200 * 3600 * 1000) * 1000)%Z 0%nat);
    try reflexivity.
Defined.

(** ** Tiers and type coverage: what holds *)

(** X17. Below 100 the tier never decreases when the composite grows:
    for composites [a <= b] in the range from 0 up to, not including,
    100, the tier of [b] ranks at least as high as the tier of [a]. *)
Theorem trust_level_monotone_on_bins (a b : Q) :
  0 <= a -> a <= b -> b < 100 ->
  (tier_rank (trust_level_of a) <= tier_rank (trust_level_of b))%nat.
Proof. apply trust_level_monotone_below_100. Qed.

Lemma trust_level_monotone_on_bins_witness :
  (tier_rank (trust_level_of (599 # 10)) <= tier_rank (trust_level_of 60))%nat.
Proof.
  apply (trust_level_monotone_on_bins (599 # 10) 60).
  - vm_compute. discriminate.
  - vm_compute. discriminate.
  - vm_compute. reflexivity.
Defined.

(** X18. On a table with at least one column and every data type set,
    the data quality score is 20, plus 30 if the contract of the table
    has a quality rule, plus 20, plus 30 times the share of columns whose
    data type is neither empty nor ["UNKNOWN"]; the cap at 100 never
    cuts it. *)
Theorem data_quality_score_typed
    (table : Table) (contracts : gmap string DataContract) :
  columns table <> [] ->
  Forall (fun c => col_dataType c <> None) (columns table) ->
  fst (fst (calculate_data_quality_score table contracts))
  == 20 + rules_bonus table contracts + 20
     + inject_Z (count_where known_dataType (columns table))
       / inject_Z (Py.len (columns table)) * 30.
Proof. apply data_quality_score_when_typed. Qed.

Lemma data_quality_score_typed_witness :
  fst (fst (calculate_data_quality_score Sample.orders Sample.store))
  == 20 + rules_bonus Sample.orders Sample.store + 20
     + inject_Z (count_where known_dataType (columns Sample.orders))
       / inject_Z (Py.len (columns Sample.orders)) * 30.
Proof.
  apply (data_quality_score_typed Sample.orders Sample.store).
  - discriminate.
  - repeat constructor; discriminate.
Defined.

(** ** Batch scoring *)

Lemma for_each_cons {A B} (body : A -> Clock B) (x : A) (l : list A) (n : nat) :
  for_each body (x :: l) n
  = (fst (body x n) :: fst (for_each body l (snd (body x n))),
     snd (for_each body l (snd (body x n)))).
Proof.
  simpl. unfold bind, ret.
  destruct (body x n) as [y n1]. simpl.
  destruct (for_each body l n1) as [ys n2]. reflexivity.
Qed.

Lemma calculate_trust_score_fqn
    (wall_clock : Host) (table : Table)
    (contracts : gmap string DataContract) (n : nat) :
  ts_fqn (fst (calculate_trust_score wall_clock table contracts n))
  = fqn_of table.
Proof.
  unfold calculate_trust_score. cbv zeta.
  destruct (calculate_data_quality_score table contracts) as [[q qi] qs].
  destruct (calculate_contract_availability_score table contracts) as [[c ci] cs].
  destruct (calculate_documentation_score table contracts) as [[d di] ds].
  destruct (calculate_lineage_usage_score table contracts) as [[l li] ls].
  destruct (calculate_security_compliance_score table contracts) as [[s si] ss].
  cbv [bind].
  destruct (calculate_freshness_score wall_clock table n) as [[[f fi] fs] n'].
  reflexivity.
Qed.

Lemma calculate_freshness_score_reads
    (wall_clock : Host) (table : Table) (n : nat) :
  (n <= snd (calculate_freshness_score wall_clock table n) <= n + 1)%nat.
Proof.
  unfold calculate_freshness_score.
  destruct (negb _); [simpl; lia|].
  destruct (fromtimestamp_ms _); cbv [bind now ret]; simpl; lia.
Qed.

Lemma calculate_trust_score_reads
    (wall_clock : Host) (table : Table)
    (contracts : gmap string DataContract) (n : nat) :
  (n + 1 <= snd (calculate_trust_score wall_clock table contracts n) <= n + 2)%nat.
Proof.
  pose proof (calculate_freshness_score_reads wall_clock table n) as Hf.
  unfold calculate_trust_score. cbv zeta.
  destruct (calculate_data_quality_score table contracts) as [[q qi] qs].
  destruct (calculate_contract_availability_score table contracts) as [[c ci] cs].
  destruct (calculate_documentation_score table contracts) as [[d di] ds].
  destruct (calculate_lineage_usage_score table contracts) as [[l li] ls].
  destruct (calculate_security_compliance_score table contracts) as [[s si] ss].
  cbv [bind].
  destruct (calculate_freshness_score wall_clock table n) as [[[f fi] fs] n'].
  cbv [now ret]. cbn [fst snd] in *. lia.
Qed.

(** X19. [calculate_all_trust_scores] returns one trust score per table,
    in the order of the tables and each under the FQN of its table; every
    composite lies between 0 and 100 and every tier is the tier of its
    composite; the clock is read once or twice per table. *)
Theorem calculate_all_trust_scores_spec
    (wall_clock : Host) (tables : list Table)
    (contracts : gmap string DataContract) (n : nat) :
  let r := calculate_all_trust_scores wall_clock tables contracts n in
  map ts_fqn (fst r) = map fqn_of tables
  /\ length (fst r) = length tables
  /\ (n + length tables <= snd r <= n + 2 * length tables)%nat
  /\ Forall
       (fun ts =>
          0 <= composite_trust_score ts <= 100
          /\ trust_level ts = trust_level_of (composite_trust_score ts))
       (fst r).
Proof.
  cbv zeta. unfold calculate_all_trust_scores. revert n.
  induction tables as [|table tables IH]; intros n.
  - simpl. repeat split; try lia. constructor.
  - rewrite for_each_cons. cbn [fst snd map length].
    pose proof (calculate_trust_score_reads wall_clock table contracts n) as Hr.
    destruct (IH (snd (calculate_trust_score wall_clock table contracts n)))
      as (Hfqn & Hlen & Hreads & Hall).
    repeat apply conj.
    + rewrite Hfqn, calculate_trust_score_fqn. reflexivity.
    + rewrite Hlen. reflexivity.
    + lia.
    + lia.
    + constructor; [|exact Hall]. split.
      * pose proof (trust_score_composite wall_clock table contracts n) as Hc.
        cbv zeta in Hc. rewrite Hc.
        pose proof (trust_score_component_bounds wall_clock table contracts n)
          as (? & ? & ? & ? & ? & ?).
        apply composite_of_bounds; assumption.
      * apply (trust_score_components wall_clock table contracts n).
Qed.

(** ** Batch summary *)



Lemma insert_sorted_In (x y : Q) (l : list Q) :
  In y (Py.insert_sorted x l) <-> y = x \/ In y l.
Proof.
  induction l as [|z l IH]; simpl.
  - intuition.
  - destruct (Qle_bool x z); simpl; [intuition|].
    rewrite IH. intuition.
Qed.


Lemma insert_sorted_length (x : Q) (l : list Q) :
  length (Py.insert_sorted x l) = S (length l).
Proof.
  induction l as [|z l IH]; simpl; [reflexivity|].
  destruct (Qle_bool x z); simpl; [reflexivity | rewrite IH; reflexivity].
Qed.

Lemma sorted_length (l : list Q) : length (Py.sorted l) = length l.
Proof.
  induction l as [|x l IH]; simpl; [reflexivity|].
  rewrite insert_sorted_length, IH. reflexivity.
Qed.

Lemma insert_sorted_count (p : Q -> bool) (x : Q) (l : list Q) :
  length (List.filter p (Py.insert_sorted x l))
  = length (List.filter p (x :: l)).
Proof.
  induction l as [|z l IH]; simpl; [reflexivity|].
  destruct (Qle_bool x z); simpl; [reflexivity|].
  simpl in IH. destruct (p z); destruct (p x); simpl in *; lia.
Qed.

Lemma sorted_count (p : Q -> bool) (l : list Q) :
  length (List.filter p (Py.sorted l)) = length (List.filter p l).
Proof.
  induction l as [|x l IH]; simpl; [reflexivity|].
  rewrite insert_sorted_count. simpl. destruct (p x); simpl; lia.
Qed.

Lemma insert_sorted_ascending (x : Q) (l : list Q) :
  ascending l -> ascending (Py.insert_sorted x l).
Proof.
  induction l as [|z l IH]; simpl.
  - intros _. split; [intros y []|exact I].
  - intros [Hz Hl]. destruct (Qle_bool x z) eqn:E; simpl.
    + apply Qle_bool_iff in E. split; [|split; assumption].
      intros y [<-|Hy]; [exact E|]. specialize (Hz y Hy). lra.
    + apply Qle_bool_false in E. split; [|apply IH, Hl].
      intros y Hy. apply insert_sorted_In in Hy.
      destruct Hy as [->|Hy]; [lra | apply Hz, Hy].
Qed.

Lemma sorted_ascending (l : list Q) : ascending (Py.sorted l).
Proof.
  induction l as [|x l IH]; simpl; [exact I|].
  apply insert_sorted_ascending, IH.
Qed.

Lemma filter_none {A} (p : A -> bool) (l : list A) :
  (forall x, In x l -> p x = false) -> List.filter p l = [].
Proof.
  induction l as [|x l IH]; simpl; intros H; [reflexivity|].
  rewrite (H x (or_introl eq_refl)). apply IH. intros y Hy. apply H. right. exact Hy.
Qed.

Lemma ascending_below (l : list Q) (k : nat) :
  ascending l -> (k < length l)%nat ->
  (length (List.filter (fun x => negb (Qle_bool (List.nth k l 0%Q) x)) l) <= k)%nat.
Proof.
  revert k. induction l as [|x l IH]; intros k; simpl.
  - lia.
  - intros [Hx Hl] Hk. destruct k as [|k].
    + rewrite (Qle_bool_true x x (Qle_refl x)). simpl.
      rewrite filter_none; [simpl; lia|].
      intros y Hy. rewrite (Qle_bool_true x y (Hx y Hy)). reflexivity.
    + specialize (IH k Hl ltac:(lia)).
      destruct (negb _); simpl; lia.
Qed.

Lemma ascending_upto (l : list Q) (k : nat) :
  ascending l -> (k < length l)%nat ->
  (k + 1 <= length (List.filter (fun x => Qle_bool x (List.nth k l 0%Q)) l))%nat.
Proof.
  revert k. induction l as [|x l IH]; intros k; simpl.
  - lia.
  - intros [Hx Hl] Hk. destruct k as [|k].
    + rewrite (Qle_bool_true x x (Qle_refl x)). simpl. lia.
    + specialize (IH k Hl ltac:(lia)).
      assert (Hin : In (List.nth k l 0%Q) l) by (apply nth_In; lia).
      rewrite (Qle_bool_true x _ (Hx _ Hin)). simpl. lia.
Qed.

Lemma median_index (n : nat) :
  (0 < n)%nat -> (Z.to_nat (Z.of_nat n / 2) < n)%nat.
Proof.
  intros Hn. apply Nat2Z.inj_lt. rewrite Z2Nat.id.
  - apply Z.div_lt; lia.
  - apply Z.div_pos; lia.
Qed.


(** X21. The median of the summary is the upper median: with [n] scores,
    at most [n // 2] of them are strictly below it and more than
    [n // 2] of them are at most it. For an even [n] it is the higher of
    the two middle scores. *)
Theorem get_trust_score_summary_median
    (mean : list Q -> Q) (trust_scores : list DataTrustScore) :
  let scores := map composite_trust_score trust_scores in
  match get_trust_score_summary mean trust_scores with
  | None => trust_scores = []
  | Some s =>
      (Py.len (List.filter (fun x => negb (Qle_bool (median_score s) x)) scores)
       <= Py.len scores / 2)%Z
      /\ (Py.len scores / 2
          < Py.len (List.filter (fun x => Qle_bool x (median_score s)) scores))%Z
  end.
Proof.
  cbv zeta. unfold get_trust_score_summary.
  destruct trust_scores as [|ts rest]; [reflexivity|].
  cbn [map]. cbv zeta. cbn [median_score].
  set (scores := composite_trust_score ts :: map composite_trust_score rest).
  set (k := Z.to_nat (Py.len scores / 2)).
  assert (Hk : (k < length (Py.sorted scores))%nat).
  { rewrite sorted_length. apply median_index. simpl. lia. }
  assert (Hkz : (Z.of_nat k = Py.len scores / 2)%Z).
  { unfold k. apply Z2Nat.id. apply Z.div_pos; [unfold Py.len|]; lia. }
  pose proof (ascending_below (Py.sorted scores) k (sorted_ascending scores) Hk)
    as Hbelow.
  pose proof (ascending_upto (Py.sorted scores) k (sorted_ascending scores) Hk)
    as Hupto.
  rewrite sorted_count in Hbelow, Hupto.
  clearbody k. unfold Py.len in *. rewrite <- Hkz. lia.
Qed.

Lemma sum_int_acc (l : list Z) (a : Z) :
  (fold_left Z.add l a = a + fold_left Z.add l 0)%Z.
Proof.
  revert a. induction l as [|x l IH]; intros a; cbn [fold_left]; [lia|].
  rewrite (IH (a + x)%Z), (IH (0 + x)%Z). lia.
Qed.

Lemma sum_cons (x : Z) (l : list Z) : Py.sum (x :: l) = (x + Py.sum l)%Z.
Proof. unfold Py.sum. cbn [fold_left]. rewrite sum_int_acc. lia. Qed.

Lemma sum_dict_set (k : string) (v : Z) (d : list (string * Z)) :
  (Py.sum (map snd (Py.dict_set k v d))
   = Py.sum (map snd d) - count_at k d + v)%Z.
Proof.
  induction d as [|[k' c] d IH].
  - unfold count_at. cbn [Py.dict_set Py.dict_get map snd].
    rewrite sum_cons. unfold Py.sum. simpl. lia.
  - unfold count_at in *. cbn [Py.dict_set Py.dict_get].
    destruct (String.eqb k k'); cbn [map snd]; rewrite !sum_cons;
      [lia | rewrite IH; lia].
Qed.

Lemma count_at_set (k k' : string) (v : Z) (d : list (string * Z)) :
  count_at k (Py.dict_set k' v d)
  = if String.eqb k k' then v else count_at k d.
Proof.
  unfold count_at. rewrite dict_get_set.
  destruct (String.eqb k k'); reflexivity.
Qed.

Lemma dict_incr_set (k : string) (d : list (string * Z)) :
  Py.dict_incr k d = Py.dict_set k (count_at k d + 1)%Z d.
Proof.
  unfold Py.dict_incr, count_at. destruct (Py.dict_get k d); reflexivity.
Qed.

(** The distribution after counting a batch into a distribution. *)
Lemma count_levels_from (l : list DataTrustScore) (d : list (string * Z)) :
  List.NoDup (map fst d) ->
  let d' := fold_left (fun d ts => Py.dict_incr (trust_level ts) d) l d in
  List.NoDup (map fst d')
  /\ (forall level,
        count_at level d'
        = (count_at level d
           + count_where (fun ts => String.eqb level (trust_level ts)) l)%Z)
  /\ (Py.sum (map snd d') = Py.sum (map snd d) + Py.len l)%Z.
Proof.
  cbv zeta. revert d. induction l as [|ts l IH]; intros d Hnd.
  - simpl. repeat split; try assumption.
    + intros level. unfold count_where. simpl. lia.
    + unfold Py.len. simpl. lia.
  - cbn [fold_left].
    destruct (IH (Py.dict_incr (trust_level ts) d)) as (H1 & H2 & H3).
    { rewrite dict_incr_set. apply dict_set_NoDup, Hnd. }
    repeat split.
    + exact H1.
    + intros level. rewrite H2, dict_incr_set, count_at_set.
      unfold count_where. simpl.
      destruct (String.eqb_spec level (trust_level ts)) as [->|Hne];
        simpl; lia.
    + rewrite H3, dict_incr_set, sum_dict_set.
      unfold Py.len. simpl length. lia.
Qed.

Lemma high_and_low_disjoint (l : list Q) :
  (Py.len (List.filter (fun s => Qle_bool 75 s) l)
   + Py.len (List.filter (fun s => negb (Qle_bool 40 s)) l)
   <= Py.len l)%Z.
Proof.
  unfold Py.len. induction l as [|x l IH]; simpl; [lia|].
  destruct (Qle_bool 75 x) eqn:E75; destruct (Qle_bool 40 x) eqn:E40;
    simpl; try lia.
  apply Qle_bool_iff in E75. apply Qle_bool_false in E40. lra.
Qed.

(** X22. In the summary of a non-empty batch the level distribution has
    one entry per tier present, each holding the number of scores of
    that tier, and these counts add up to the total; the high-trust
    count (composite at least 75) and the needs-attention count
    (composite below 40) together never exceed the total. *)
Theorem get_trust_score_summary_counts
    (mean : list Q -> Q) (trust_scores : list DataTrustScore) :
  match get_trust_score_summary mean trust_scores with
  | None => trust_scores = []
  | Some s =>
      List.NoDup (map fst (level_distribution s))
      /\ (forall level,
            count_at level (level_distribution s)
            = count_where (fun ts => String.eqb level (trust_level ts))
                trust_scores)
      /\ Py.sum (map snd (level_distribution s)) = summary_total_assets s
      /\ (high_trust_assets s + needs_attention_assets s
          <= summary_total_assets s)%Z
  end.
Proof.
  unfold get_trust_score_summary.
  destruct trust_scores as [|ts rest]; [reflexivity|].
  cbn [map]. cbv zeta.
  cbn [level_distribution summary_total_assets high_trust_assets
       needs_attention_assets].
  destruct (count_levels_from (ts :: rest) [] (List.NoDup_nil _))
    as (H1 & H2 & H3).
  fold (count_levels (ts :: rest)) in H1, H2, H3.
  repeat apply conj.
  - exact H1.
  - intros level. rewrite H2. reflexivity.
  - rewrite H3. reflexivity.
  - pose proof (high_and_low_disjoint
                  (composite_trust_score ts :: map composite_trust_score rest))
      as H.
    unfold Py.len in *. simpl length in *. rewrite List.length_map in H.
    exact H.
Qed.

(** ** Store operations and the scores *)

Lemma min_100_monotone (a b : Q) : a <= b -> Py.min a 100 <= Py.min b 100.
Proof.
  intros Hab. unfold Py.min.
  destruct (Qle_bool a 100) eqn:Ea; destruct (Qle_bool b 100) eqn:Eb;
    try apply Qle_bool_iff in Ea; try apply Qle_bool_iff in Eb;
    try apply Qle_bool_false in Ea; try apply Qle_bool_false in Eb; lra.
Qed.

Lemma len_snoc {A} (l : list A) (x : A) : Py.len (l ++ [x]) = (Py.len l + 1)%Z.
Proof. unfold Py.len. rewrite length_app. simpl. lia. Qed.

(** X23. Registering a consumer never lowers the lineage and usage score
    of the table of the contract: the score of a table against the store
    after [register_consumer] on its FQN is at least its score against
    the store before. *)
Theorem register_consumer_raises_lineage
    (wall_clock : nat -> datetime) (self : gmap string DataContract)
    (table : Table) (consumer_name consumer_contact : string) (n : nat) :
  let self' :=
    snd (fst (register_consumer wall_clock self (fqn_of table) consumer_name
                consumer_contact n)) in
  fst (fst (calculate_lineage_usage_score table self))
  <= fst (fst (calculate_lineage_usage_score table self')).
Proof.
  cbv zeta. unfold register_consumer.
  destruct (self !! fqn_of table) as [c|] eqn:Hc; [|apply Qle_refl].
  destruct (negb _); [|apply Qle_refl].
  cbv [bind now ret]. cbn [fst snd].
  unfold calculate_lineage_usage_score.
  rewrite Hc, lookup_insert_eq.
  cbn [downstream_tables registered_consumers with_change_log
       with_registered_consumers].
  rewrite len_snoc.
  unfold result. cbn [fst]. apply min_100_monotone.
  set (k := Py.len (registered_consumers c)).
  assert (Hk : (0 <= k)%Z) by (unfold k, Py.len; lia).
  clearbody k.
  repeat match goal with
         | |- context [(?a <=? ?b)%Z] => destruct (Z.leb_spec a b)
         | |- context [(?a <? ?b)%Z] => destruct (Z.ltb_spec a b)
         | |- context [if ?b then _ else _] => destruct b
         end;
    cbn [score add set_score improve strong start];
    first [lra | lia].
Qed.

Lemma status_score_le_35 (s : string) :
  match Py.dict_get s status_scores with Some q => q | None => 0 end <= 35.
Proof.
  unfold status_scores. simpl.
  repeat match goal with
         | |- context [if ?b then _ else _] => destruct b
         end; lra.
Qed.

(** X24. Activating a contract never lowers the contract-availability
    score of its table: the score against the store after
    [update_contract_status] to ["active"] is at least the score against
    the store before, whatever the earlier status. *)
Theorem activation_raises_contract_availability
    (wall_clock : nat -> datetime) (self : gmap string DataContract)
    (table : Table) (user notes : string) (n : nat) :
  let self' :=
    snd (fst (update_contract_status wall_clock self (fqn_of table) "active"
                user notes n)) in
  fst (fst (calculate_contract_availability_score table self))
  <= fst (fst (calculate_contract_availability_score table self')).
Proof.
  cbv zeta. unfold update_contract_status.
  destruct (self !! fqn_of table) as [c|] eqn:Hc; [|apply Qle_refl].
  cbv [bind now ret]. cbn [String.eqb Ascii.eqb Bool.eqb fst snd].
  unfold calculate_contract_availability_score.
  rewrite Hc, lookup_insert_eq.
  cbn [status sla_requirements schema_definition with_status
       with_last_modified with_change_log with_approval_history].
  pose proof (status_score_le_35 (status c)) as Hle.
  pose proof (status_score_nonneg (status c)) as Hge.
  set (old := match Py.dict_get (status c) status_scores with
              | Some q => q | None => 0 end) in *.
  clearbody old.
  unfold result. cbn [fst]. apply min_100_monotone.
  change (Py.dict_get "active" status_scores) with (Some 35).
  cbn [String.eqb Ascii.eqb Bool.eqb].
  repeat match goal with
         | |- context [if ?b then _ else _] => destruct b
         end;
    cbn [score add set_score improve strong start]; lra.
Qed.

(** X25. A contract made by [create_contract] and then moved to
    ["active"] by [update_contract_status] is stored as an active
    contract whose change log is the [created] entry followed by one
    [status_change] entry from draft to active, and whose approval
    history is the one approval by the acting user. *)
Theorem create_then_activate
    (wall_clock : nat -> datetime) (md5_hexdigest : string -> string)
    (self : gmap string DataContract) (table : Table)
    (owner_ classification_ description_ business_purpose_ user notes : string)
    (quality_rules_ : option (list (list (string * string))))
    (sla_hours : Z) (contains_pii_ : bool) (n : nat) :
  let r1 := create_contract wall_clock md5_hexdigest self table owner_
              classification_ description_ business_purpose_ quality_rules_
              sla_hours contains_pii_ n in
  let r2 := update_contract_status wall_clock (snd (fst r1)) (fqn_of table)
              "active" user notes (snd r1) in
  fst (fst r2) = true
  /\ exists c,
       snd (fst r2) !! fqn_of table = Some c
       /\ status c = "active"%string
       /\ schema_definition c = schema_definition (fst (fst r1))
       /\ map log_action (change_log c)
          = ["created"%string; "status_change"%string]
       /\ map log_details (change_log c)
          = ["Contract created"%string; "draft → active"%string]
       /\ map appr_approver (approval_history c) = [user]
       /\ last_modified c = wall_clock (n + 3)%nat.
Proof.
  cbv zeta. unfold create_contract. cbv [bind now ret]. cbn [fst snd].
  unfold update_contract_status. rewrite lookup_insert_eq.
  cbv [bind now ret]. cbn [String.eqb Ascii.eqb Bool.eqb fst snd].
  split; [reflexivity|]. eexists. split; [apply lookup_insert_eq|].
  cbn. repeat split. f_equal. lia.
Qed.

(** ** Batch summary: database averages *)







